(** * MEMD: a shallow embedding of memd.h and its tracking invariants

    The development follows the header top to bottom: the record table and
    the warning log ([MEMD_Data]), the [WARN] macro, [_find_by_address],
    [_insert], [_erase], the four interceptors ([_memd_malloc],
    [_memd_calloc], [_memd_free], [_memd_realloc]), [memd_pause] /
    [memd_resume] and finally [memd_report] with its growable buffer.

    Conventions.
    - [size_t] is the 64-bit unsigned type of an LP64 target: a [Z] kept in
      [0, 2^64) by [wrap64] wherever the C code does arithmetic on it.
    - The real heap is not part of the library.  Every call the library
      forwards to it is appended to a log of [heap_call]s, and the value the
      heap answered is an input of the model. *)

From Stdlib Require Import ZArith Lia Bool String Ascii DecimalString.
From stdpp Require Import base tactics option list.

Local Open Scope Z_scope.

(** ** Machine integers *)

Definition SIZE_MAX : Z := 2 ^ 64 - 1.
Definition INT_MAX : Z := 2 ^ 31 - 1.

Definition wrap64 (z : Z) : Z := z mod 2 ^ 64.

(** Value of a [uint32_t] read back through a [%d] conversion. *)
Definition as_int (z : Z) : Z :=
  let u := z mod 2 ^ 32 in if u <=? INT_MAX then u else u - 2 ^ 32.

(** ** Data model *)

Definition MEMD_MAX_ALLOCATIONS : nat := 1000.
Definition MEMD_MAX_WARNINGS : Z := 1000.

Record MEMD_Mem : Type := mkMem {
  mem_address : Z;
  mem_size : Z;
  mem_line : Z;
  mem_file : string
}.

Record MEMD_Warning : Type := mkWarning {
  warn_message : string;
  warn_line : Z;
  warn_file : string
}.

Record MEMD_Data_t : Type := mkData {
  mem : list MEMD_Mem;
  total_allocated_size : Z;
  total_free_size : Z;
  warnings : list MEMD_Warning;
  warning_count : Z
}.

Definition zero_mem : MEMD_Mem := mkMem 0 0 0 EmptyString.
Definition zero_warning : MEMD_Warning := mkWarning EmptyString 0 EmptyString.

(** The zero-initialised global [MEMD_Data]. *)
Definition MEMD_Data_init : MEMD_Data_t :=
  mkData (replicate MEMD_MAX_ALLOCATIONS zero_mem) 0 0
         (replicate (Z.to_nat MEMD_MAX_WARNINGS) zero_warning) 0.

Definition set_mem (m : list MEMD_Mem) (d : MEMD_Data_t) : MEMD_Data_t :=
  mkData m (total_allocated_size d) (total_free_size d) (warnings d) (warning_count d).

Definition set_total_allocated_size (z : Z) (d : MEMD_Data_t) : MEMD_Data_t :=
  mkData (mem d) z (total_free_size d) (warnings d) (warning_count d).

Definition set_total_free_size (z : Z) (d : MEMD_Data_t) : MEMD_Data_t :=
  mkData (mem d) (total_allocated_size d) z (warnings d) (warning_count d).

(** ** The WARN macro *)

(** [snprintf(dst, n, "%s", msg)]: at most [n - 1] characters are stored. *)
Fixpoint string_take (n : nat) (s : string) : string :=
  match n, s with
  | S k, String c r => String c (string_take k r)
  | _, _ => EmptyString
  end.

Definition snprintf_s (n : nat) (msg : string) : string := string_take (Nat.pred n) msg.

Definition WARN (msg : string) (line : Z) (file : string) (d : MEMD_Data_t) : MEMD_Data_t :=
  if warning_count d <? MEMD_MAX_WARNINGS then
    let warning := mkWarning (snprintf_s 128 msg) line file in
    mkData (mem d) (total_allocated_size d) (total_free_size d)
           (<[Z.to_nat (warning_count d) := warning]> (warnings d))
           (warning_count d + 1)
  else d.

(** The warnings recorded so far, oldest first: slots [0 .. warning_count). *)
Definition recorded_warnings (d : MEMD_Data_t) : list MEMD_Warning :=
  take (Z.to_nat (warning_count d)) (warnings d).

(** ** The registry *)

(** [_find_by_address]: first slot, in index order, holding [address].  The
    table is the whole array [mem[MEMD_MAX_ALLOCATIONS]]. *)
Definition _find_by_address (m : list MEMD_Mem) (address : Z) : option (nat * MEMD_Mem) :=
  list_find (fun r => mem_address r = address) m.

Definition _insert (address size line : Z) (file : string) (d : MEMD_Data_t) : MEMD_Data_t :=
  if address =? 0 then WARN "Memory allocation failed" line file d
  else
    match _find_by_address (mem d) 0 with
    | None => WARN "Max allocations reached" line file d
    | Some (i, _) =>
        set_total_allocated_size (wrap64 (total_allocated_size d + size))
          (set_mem (<[i := mkMem address size line file]> (mem d)) d)
    end.

Definition _erase (address line : Z) (file : string) (d : MEMD_Data_t) : Z * MEMD_Data_t :=
  if address =? 0 then (-1, WARN "Tried to free a null ptr" line file d)
  else
    match _find_by_address (mem d) address with
    | None => (-1, WARN "Double free detected" line file d)
    | Some (i, r) =>
        (0, set_total_free_size (wrap64 (total_free_size d + mem_size r))
              (set_mem (<[i := mkMem 0 (mem_size r) (mem_line r) (mem_file r)]> (mem d)) d))
    end.

(** ** The interceptors *)

(** Calls forwarded to the C library's allocator, with what it answered. *)
Inductive heap_call : Type :=
| real_malloc (size ret : Z)
| real_calloc (num size ret : Z)
| real_realloc (ptr size ret : Z)
| real_free (ptr : Z).

Record state : Type := mkState {
  MEMD_Data : MEMD_Data_t;
  _memd_ignore : Z;
  heap : list heap_call
}.

Definition initial_state : state := mkState MEMD_Data_init 0 [].

Definition set_data (d : MEMD_Data_t) (st : state) : state :=
  mkState d (_memd_ignore st) (heap st).

Definition call_heap (c : heap_call) (st : state) : state :=
  mkState (MEMD_Data st) (_memd_ignore st) (heap st ++ [c]).

(** In the four wrappers [ret] is the pointer the real allocator returns for
    the call the wrapper makes (0 is NULL). *)
Definition _memd_malloc (size line : Z) (file : string) (ret : Z) (st : state) : Z * state :=
  let st := call_heap (real_malloc size ret) st in
  let ptr := ret in
  let st := if negb (_memd_ignore st =? 1)
            then set_data (_insert ptr size line file (MEMD_Data st)) st
            else st in
  (ptr, st).

Definition _memd_calloc (num size line : Z) (file : string) (ret : Z) (st : state) : Z * state :=
  let totalSize := wrap64 (num * size) in
  let st := call_heap (real_calloc num size ret) st in
  let ptr := ret in
  let st := if negb (_memd_ignore st =? 1) && negb (ptr =? 0)
            then set_data (_insert ptr totalSize line file (MEMD_Data st)) st
            else st in
  (ptr, st).

Definition _memd_free (ptr line : Z) (file : string) (st : state) : state :=
  if negb (_memd_ignore st =? 1) then
    let '(rc, d) := _erase ptr line file (MEMD_Data st) in
    let st := set_data d st in
    if rc =? 0 then call_heap (real_free ptr) st else st
  else st.

Definition _memd_realloc (ptr size line : Z) (file : string) (ret : Z) (st : state) : Z * state :=
  if ptr =? 0 then _memd_malloc size line file ret st
  else if size =? 0 then (0, _memd_free ptr line file st)
  else
    let st := call_heap (real_realloc ptr size ret) st in
    let newPtr := ret in
    let st := if negb (newPtr =? 0) && negb (_memd_ignore st =? 1)
              then
                let d := snd (_erase ptr line file (MEMD_Data st)) in
                set_data (_insert newPtr size line file d) st
              else st in
    (newPtr, st).

Definition memd_pause (st : state) : state := mkState (MEMD_Data st) 1 (heap st).
Definition memd_resume (st : state) : state := mkState (MEMD_Data st) 0 (heap st).

(** ** Programs: sequences of calls into the library *)

Inductive op : Type :=
| Malloc (size line : Z) (file : string) (ret : Z)
| Calloc (num size line : Z) (file : string) (ret : Z)
| Free (ptr line : Z) (file : string)
| Realloc (ptr size line : Z) (file : string) (ret : Z)
| Pause
| Resume.

Definition step (o : op) (st : state) : state :=
  match o with
  | Malloc size line file ret => snd (_memd_malloc size line file ret st)
  | Calloc num size line file ret => snd (_memd_calloc num size line file ret st)
  | Free ptr line file => _memd_free ptr line file st
  | Realloc ptr size line file ret => snd (_memd_realloc ptr size line file ret st)
  | Pause => memd_pause st
  | Resume => memd_resume st
  end.

Definition run (ops : list op) (st : state) : state :=
  foldl (fun s o => step o s) st ops.

(** ** The report *)

Local Open Scope string_scope.

Definition LF : string := String "010"%char EmptyString.

(** [%lu] of a [size_t] and [%d] of a [uint32_t]. *)
Definition fmt_lu (z : Z) : string := NilZero.string_of_uint (N.to_uint (Z.to_N z)).
Definition fmt_d (z : Z) : string := NilZero.string_of_int (Z.to_int (as_int z)).

(** [total_allocated_size - total_free_size] in [size_t] arithmetic. *)
Definition leaked (d : MEMD_Data_t) : Z :=
  wrap64 (total_allocated_size d - total_free_size d).

Definition rule : string := "----------------------------------".

Definition summary_fragments (d : MEMD_Data_t) : list string :=
  [ LF ++ rule ++ LF;
    "MEMD Leak Summary:" ++ LF;
    rule ++ LF ++ LF;
    "   Total Memory allocated " ++ fmt_lu (total_allocated_size d) ++ " bytes" ++ LF;
    "   Total Memory freed     " ++ fmt_lu (total_free_size d) ++ " bytes" ++ LF;
    "   Memory Leaked          " ++ fmt_lu (leaked d) ++ " bytes" ++ LF ].

Definition leak_line (r : MEMD_Mem) : string :=
  "     Memory leak at " ++ mem_file r ++ ":" ++ fmt_d (mem_line r)
    ++ ": (" ++ fmt_lu (mem_size r) ++ " bytes)" ++ LF.

Definition warning_line (w : MEMD_Warning) : string :=
  "    - " ++ warn_file w ++ ":" ++ fmt_d (warn_line w) ++ ": " ++ warn_message w ++ LF.

(** [for (i = 0; i < MEMD_MAX_ALLOCATIONS; i++) if (mem[i].address != 0) ...] *)
Definition detail_loop (m : list MEMD_Mem) : list string :=
  flat_map (fun i => match m !! i with
                     | Some r => if (mem_address r =? 0)%Z then [] else [leak_line r]
                     | None => []
                     end) (seq 0 MEMD_MAX_ALLOCATIONS).

(** [for (i = 0; i < warning_count; i++) ...] *)
Definition warning_loop (d : MEMD_Data_t) : list string :=
  flat_map (fun i => match warnings d !! i with
                     | Some w => [warning_line w]
                     | None => []
                     end) (seq 0 (Z.to_nat (warning_count d))).

Definition detail_fragments (d : MEMD_Data_t) : list string :=
  if (total_free_size d =? total_allocated_size d)%Z then []
  else (LF ++ "   Detailed Report:" ++ LF) :: detail_loop (mem d).

Definition warning_fragments (d : MEMD_Data_t) : list string :=
  if (warning_count d >? 0)%Z then (LF ++ "   Warnings:" ++ LF) :: warning_loop d else [].

Definition footer_fragments : list string := [ LF ++ rule ++ LF ++ LF ].

(** The formatted pieces, in the order [memd_report] appends them. *)
Definition report_fragments (d : MEMD_Data_t) : list string :=
  (summary_fragments d ++ detail_fragments d ++ warning_fragments d ++ footer_fragments)%list.

Local Close Scope string_scope.

(** *** The growable buffer *)

Record report_buffer : Type := mkBuf {
  report : Z;            (* the char* *)
  contents : string;     (* the characters before the terminating NUL *)
  buffer_size : Z;
  offset : Z
}.

(** [while (offset + needed >= buffer_size) buffer_size *= 2;] unrolled at
    most [fuel] times; [None] when the loop is still running after that. *)
Fixpoint doubling_loop (fuel : nat) (target buffer_size : Z) : option Z :=
  if target >=? buffer_size then
    match fuel with
    | O => None
    | S fuel' => doubling_loop fuel' target (wrap64 (buffer_size * 2))
    end
  else Some buffer_size.

(** Sixty-four doublings turn every [size_t] into 0, after which the loop
    condition is constantly true: [None] here is a loop that never exits. *)
Definition double_until_fits (target buffer_size : Z) : option Z :=
  doubling_loop 64 target buffer_size.

Inductive append_result : Type :=
| Appended (b : report_buffer) (h : list heap_call)
| ReturnedNull (h : list heap_call)
| Hangs.

(** [snprintf(report + offset, buffer_size - offset, ...)] followed by
    [if (written > 0) offset += written]. *)
Definition write_fragment (frag : string) (b : report_buffer) : report_buffer :=
  let written := Z.of_nat (String.length frag) in
  mkBuf (report b)
        (string_take (Z.to_nat (offset b)) (contents b)
           ++ snprintf_s (Z.to_nat (buffer_size b - offset b)) frag)%string
        (buffer_size b)
        (if written >? 0 then wrap64 (offset b + written) else offset b).

(** [alloc ptr size] is what the real [realloc(ptr, size)] answers, and
    [alloc 0 size] what the real [malloc(size)] answers; 0 is failure. *)
Definition APPEND_TO_REPORT (alloc : Z -> Z -> Z) (frag : string)
    (b : report_buffer) (h : list heap_call) : append_result :=
  let len := Z.of_nat (String.length frag) in
  if len >? INT_MAX then Appended b h   (* needed < 0: break *)
  else
    let needed := len in
    if wrap64 (offset b + needed) >=? buffer_size b then
      match double_until_fits (wrap64 (offset b + needed)) (buffer_size b) with
      | None => Hangs
      | Some new_size =>
          let temp := alloc (report b) new_size in
          let h := h ++ [real_realloc (report b) new_size temp] in
          if temp =? 0 then ReturnedNull (h ++ [real_free (report b)])
          else Appended (write_fragment frag (mkBuf temp (contents b) new_size (offset b))) h
      end
    else Appended (write_fragment frag b) h.

Fixpoint append_all (alloc : Z -> Z -> Z) (frags : list string)
    (b : report_buffer) (h : list heap_call) : append_result :=
  match frags with
  | [] => Appended b h
  | frag :: rest =>
      match APPEND_TO_REPORT alloc frag b h with
      | Appended b' h' => append_all alloc rest b' h'
      | other => other
      end
  end.

Inductive report_result : Type :=
| ReportText (ptr : Z) (text : string)
| ReportNull
| ReportHangs.

Definition initial_buffer_size : Z := 1024 * 10.

Definition memd_report (alloc : Z -> Z -> Z) (d : MEMD_Data_t) : report_result * list heap_call :=
  let size := initial_buffer_size in
  let ptr := alloc 0 size in
  let h := [real_malloc size ptr] in
  if ptr =? 0 then (ReportNull, h)
  else
    match append_all alloc (report_fragments d) (mkBuf ptr EmptyString size 0) h with
    | Appended b h' => (ReportText (report b) (contents b), h')
    | ReturnedNull h' => (ReportNull, h')
    | Hangs => (ReportHangs, h)
    end.

(** * Vocabulary of the properties *)

(** ** Well-formed inputs and the shape of [MEMD_Data] *)

Definition size_t_ok (z : Z) : bool := (0 <=? z) && (z <=? SIZE_MAX).
Definition uint32_ok (z : Z) : bool := (0 <=? z) && (z <? 2 ^ 32).

(** Arguments and heap answers are values of their C types. *)
Definition wf_op (o : op) : bool :=
  match o with
  | Malloc size line _ ret => size_t_ok size && uint32_ok line && size_t_ok ret
  | Calloc num size line _ ret =>
      size_t_ok num && size_t_ok size && uint32_ok line && size_t_ok ret
  | Free ptr line _ => size_t_ok ptr && uint32_ok line
  | Realloc ptr size line _ ret =>
      size_t_ok ptr && size_t_ok size && uint32_ok line && size_t_ok ret
  | Pause | Resume => true
  end.

(** The two arrays keep their declared lengths and [warning_count] stays
    within the warning array. *)
Definition data_ok (d : MEMD_Data_t) : Prop :=
  length (mem d) = MEMD_MAX_ALLOCATIONS
  /\ length (warnings d) = Z.to_nat MEMD_MAX_WARNINGS
  /\ 0 <= warning_count d <= MEMD_MAX_WARNINGS.

(** Bytes held by the live records of the table. *)
Definition live_size (r : MEMD_Mem) : Z :=
  if mem_address r =? 0 then 0 else mem_size r.

Fixpoint live_bytes (m : list MEMD_Mem) : Z :=
  match m with
  | [] => 0
  | r :: rest => live_size r + live_bytes rest
  end.

Definition sizes_ok (m : list MEMD_Mem) : Prop :=
  Forall (fun r => 0 <= mem_size r <= SIZE_MAX) m.

(** The two outcomes of [_insert]: a warning, or a fresh record in the first
    empty slot. *)
Inductive insert_outcome (address size line : Z) (file : string) (d d' : MEMD_Data_t) : Prop :=
| insert_warns msg :
    d' = WARN msg line file d ->
    address = 0 \/ _find_by_address (mem d) 0 = None ->
    insert_outcome address size line file d d'
| insert_records i r :
    address <> 0 ->
    _find_by_address (mem d) 0 = Some (i, r) ->
    d' = mkData (<[i := mkMem address size line file]> (mem d))
                (wrap64 (total_allocated_size d + size)) (total_free_size d)
                (warnings d) (warning_count d) ->
    insert_outcome address size line file d d'.

(** The two outcomes of [_erase]: failure with a warning, or success with
    the address of the matching slot zeroed. *)
Inductive erase_outcome (address line : Z) (file : string) (d : MEMD_Data_t)
  : Z * MEMD_Data_t -> Prop :=
| erase_warns msg :
    address = 0 \/ _find_by_address (mem d) address = None ->
    erase_outcome address line file d (-1, WARN msg line file d)
| erase_zeroes i r :
    address <> 0 ->
    _find_by_address (mem d) address = Some (i, r) ->
    erase_outcome address line file d
      (0, mkData (<[i := mkMem 0 (mem_size r) (mem_line r) (mem_file r)]> (mem d))
                 (total_allocated_size d) (wrap64 (total_free_size d + mem_size r))
                 (warnings d) (warning_count d)).

(** ** The byte counters *)

(** Bytes one call adds to [total_allocated_size], read off the counter
    itself; every call adds at most one [size_t]. *)
Definition allocated_by (o : op) (st : state) : Z :=
  wrap64 (total_allocated_size (MEMD_Data (step o st)) - total_allocated_size (MEMD_Data st)).

(** Bytes a whole program adds to [total_allocated_size], summed without
    wrap-around. *)
Fixpoint bytes_tracked (ops : list op) (st : state) : Z :=
  match ops with
  | [] => 0
  | o :: rest => allocated_by o st + bytes_tracked rest (step o st)
  end.

(** The size a call hands to [_insert] when it tracks its result. *)
Definition requested_size (o : op) : option Z :=
  match o with
  | Malloc size _ _ _ => Some size
  | Calloc num size _ _ _ => Some (wrap64 (num * size))
  | Realloc _ size _ _ _ => Some size
  | Free _ _ _ | Pause | Resume => None
  end.

(** [A] and [F] are the counters as they would be without wrap-around. *)
Definition balanced (d : MEMD_Data_t) (A F : Z) : Prop :=
  total_allocated_size d = wrap64 A
  /\ total_free_size d = wrap64 F
  /\ A - F = live_bytes (mem d)
  /\ 0 <= F
  /\ sizes_ok (mem d).

(** ** Table evolution *)

(** The part of the state that decides how the table evolves: the table,
    the totals and the suppression flag, but neither the warning log nor
    the heap log. *)
Definition same_registry (s1 s2 : state) : Prop :=
  mem (MEMD_Data s1) = mem (MEMD_Data s2)
  /\ total_allocated_size (MEMD_Data s1) = total_allocated_size (MEMD_Data s2)
  /\ total_free_size (MEMD_Data s1) = total_free_size (MEMD_Data s2)
  /\ _memd_ignore s1 = _memd_ignore s2.

Definition same_table (d1 d2 : MEMD_Data_t) : Prop :=
  mem d1 = mem d2
  /\ total_allocated_size d1 = total_allocated_size d2
  /\ total_free_size d1 = total_free_size d2.

(** ** The report buffer and its layout *)

Fixpoint concat_fragments (frags : list string) : string :=
  match frags with
  | [] => EmptyString
  | frag :: rest => (frag ++ concat_fragments rest)%string
  end.

Definition strlen (s : string) : Z := Z.of_nat (String.length s).

(** What the buffer variables satisfy between two appends. *)
Definition buffer_ok (b : report_buffer) : Prop :=
  offset b = strlen (contents b) /\ offset b < buffer_size b.

(** An append either extends the text by the whole fragment or, when the
    real [realloc] fails, frees the buffer and makes [memd_report] return
    NULL. *)
Inductive append_spec (alloc : Z -> Z -> Z) (frag : string) (b : report_buffer)
    (h : list heap_call) : append_result -> Prop :=
| append_extends b' h' :
    contents b' = (contents b ++ frag)%string ->
    buffer_ok b' ->
    append_spec alloc frag b h (Appended b' h')
| append_fails new_size :
    alloc (report b) new_size = 0 ->
    append_spec alloc frag b h
      (ReturnedNull (h ++ [real_realloc (report b) new_size 0; real_free (report b)])).

Inductive append_all_spec (frags : list string) (b : report_buffer)
  : append_result -> Prop :=
| all_appended b' h' :
    contents b' = (contents b ++ concat_fragments frags)%string ->
    append_all_spec frags b (Appended b' h')
| some_append_failed h0 ptr new_size :
    append_all_spec frags b
      (ReturnedNull (h0 ++ [real_realloc ptr new_size 0; real_free ptr])).

Definition report_size (d : MEMD_Data_t) : Z :=
  strlen (concat_fragments (report_fragments d)).

(** The report as the specification lays it out. *)
Definition report_layout (d : MEMD_Data_t) : list string :=
  summary_fragments d
  ++ (if leaked d =? 0 then []
      else (LF ++ "   Detailed Report:" ++ LF)%string
           :: map leak_line (filter (fun r => mem_address r <> 0) (mem d)))
  ++ (match recorded_warnings d with
      | [] => []
      | ws => (LF ++ "   Warnings:" ++ LF)%string :: map warning_line ws
      end)
  ++ footer_fragments.

(** ** Sample heaps, programs and states *)

(** A heap that never fails: each block is placed 4096 bytes beyond the one
    it replaces. *)
Definition generous_heap (ptr size : Z) : Z := Z.abs ptr + 4096.

(** A heap with room for 30000 bytes per block: the second doubling of the
    report buffer fails. *)
Definition small_heap (ptr size : Z) : Z := if size <=? 30000 then ptr + 4096 else 0.

(** One tracked block of 100 bytes at address 4096. *)
Definition one_block : state := run [Malloc 100 8 "r.c" 4096] initial_state.

(** One block tracked, then tracking paused. *)
Definition paused_with_one_block : state :=
  run [Malloc 100 12 "example.c" 4096; Pause] initial_state.

(** Two blocks, the first released: 200 bytes stay tracked. *)
Definition two_allocations_one_release : list op :=
  [Malloc 100 5 "a.c" 4096; Malloc 200 6 "a.c" 8192; Free 4096 7 "a.c"].

(** One block of [size] bytes allocated and released again. *)
Definition churn (size : Z) : list op :=
  [Malloc size 1 "loop.c" 4096; Free 4096 2 "loop.c"].

Fixpoint churn_rounds (n : nat) (size : Z) : list op :=
  match n with
  | O => []
  | S k => churn size ++ churn_rounds k size
  end.

(** Four allocations of 2^62 bytes, the first three released again: at most
    one block is live at any time. *)
Definition wrapping_program : list op :=
  churn (2 ^ 62) ++ churn (2 ^ 62) ++ churn (2 ^ 62) ++ [Malloc (2 ^ 62) 1 "loop.c" 4096].

(** The same with blocks of 64 TiB: 2^18 allocations, all but the last
    released. *)
Definition wrapping_loop : list op :=
  churn_rounds (Z.to_nat (2 ^ 18 - 1)) (2 ^ 46) ++ [Malloc (2 ^ 46) 1 "loop.c" 4096].

(** A thousand releases of NULL fill the warning log. *)
Definition null_frees : list op := replicate 1000 (Free 0 1 "x.c").

Definition log_full : state := run null_frees initial_state.

(** A thousand tracked blocks: every slot of the table is taken. *)
Definition fill_table : list op :=
  map (fun k => Malloc 16 1 "fill.c" (4096 + 16 * Z.of_nat k)) (seq 0 MEMD_MAX_ALLOCATIONS).

Definition table_full : state := run fill_table initial_state.

(** Allocate 100 bytes at main.c:8, release the block, release it again at
    main.c:9. *)
Definition double_release (ptr line1 : Z) : list op :=
  [Malloc 100 8 "main.c" ptr; Free ptr line1 "main.c"; Free ptr 9 "main.c"].

(** [MEMD_Data] after the scenario: slot 0 still carries size and call site
    of the block, with its address zeroed. *)
Definition after_double_release : MEMD_Data_t :=
  mkData (mkMem 0 100 8 "main.c" :: replicate (Nat.pred MEMD_MAX_ALLOCATIONS) zero_mem)
         100 100
         (mkWarning "Double free detected" 9 "main.c"
            :: replicate (Nat.pred (Z.to_nat MEMD_MAX_WARNINGS)) zero_warning)
         1.

(** The report after [double_release]. *)
Definition double_release_report : string :=
  (LF ++ rule ++ LF ++ "MEMD Leak Summary:" ++ LF ++ rule ++ LF ++ LF
   ++ "   Total Memory allocated 100 bytes" ++ LF
   ++ "   Total Memory freed     100 bytes" ++ LF
   ++ "   Memory Leaked          0 bytes" ++ LF ++ LF
   ++ "   Warnings:" ++ LF
   ++ "    - main.c:9: Double free detected" ++ LF ++ LF
   ++ rule ++ LF ++ LF)%string.

(** * The rest of the header *)

(** ** Calling and releasing the report *)

(** [memd_report_free] stands above the macros that redirect [free], so its
    [free(ptr)] is the real one: no lookup, no warning, whatever the flag. *)
Definition memd_report_free (ptr : Z) (st : state) : state :=
  call_heap (real_free ptr) st.

(** [memd_report()] called in state [st]: it reads [MEMD_Data] and talks to
    the real heap only. *)
Definition call_memd_report (alloc : Z -> Z -> Z) (st : state) : report_result * state :=
  let '(result, h) := memd_report alloc (MEMD_Data st) in
  (result, mkState (MEMD_Data st) (_memd_ignore st) (heap st ++ h)).

(** ** Counting *)

Fixpoint count_where {A : Type} (f : A -> bool) (l : list A) : nat :=
  match l with
  | [] => 0%nat
  | x :: rest => ((if f x then 1 else 0) + count_where f rest)%nat
  end.

(** Records of the table that carry address [p]. *)
Definition live_count (p : Z) (m : list MEMD_Mem) : nat :=
  count_where (fun r => mem_address r =? p) m.

(** Records of the table in use (nonzero address). *)
Definition live_records (m : list MEMD_Mem) : nat :=
  count_where (fun r => negb (mem_address r =? 0)) m.

(** Does this heap call hand out address [p]? *)
Definition hands_out (p : Z) (c : heap_call) : bool :=
  match c with
  | real_malloc _ ret | real_calloc _ _ ret | real_realloc _ _ ret => ret =? p
  | real_free _ => false
  end.

Definition frees (p : Z) (c : heap_call) : bool :=
  match c with
  | real_free ptr => ptr =? p
  | _ => false
  end.

Definition times_handed_out (p : Z) (h : list heap_call) : nat := count_where (hands_out p) h.
Definition times_freed (p : Z) (h : list heap_call) : nat := count_where (frees p) h.

(** Frees forwarded plus records still held never exceed what the heap
    handed out. *)
Definition within_hand_outs (p : Z) (st : state) : Prop :=
  (times_freed p (heap st) + live_count p (mem (MEMD_Data st))
   <= times_handed_out p (heap st))%nat.

(** The blocks a heap log leaves allocated, replayed call by call from the
    blocks [held] before it; a block is listed once per time it is held. *)
Fixpoint remove_one (p : Z) (held : list Z) : list Z :=
  match held with
  | [] => []
  | q :: rest => if q =? p then rest else q :: remove_one p rest
  end.

Definition replay_call (held : list Z) (c : heap_call) : list Z :=
  match c with
  | real_malloc _ ret | real_calloc _ _ ret => if ret =? 0 then held else ret :: held
  | real_realloc ptr _ ret => if ret =? 0 then held else ret :: remove_one ptr held
  | real_free ptr => remove_one ptr held
  end.

Definition blocks_held (h : list heap_call) (held : list Z) : list Z :=
  foldl replay_call held h.

(** The flag after a program, given the flag before it: the last pause or
    resume decides. *)
Fixpoint last_toggle (ops : list op) (flag : Z) : Z :=
  match ops with
  | [] => flag
  | Pause :: rest => last_toggle rest 1
  | Resume :: rest => last_toggle rest 0
  | _ :: rest => last_toggle rest flag
  end.

(** The log of [d'] continues the log of [d]. *)
Definition log_extends (d d' : MEMD_Data_t) : Prop :=
  exists new, recorded_warnings d' = recorded_warnings d ++ new.

(** The four messages the header passes to [WARN]. *)
Definition library_messages : list string :=
  ["Memory allocation failed"; "Max allocations reached";
   "Tried to free a null ptr"; "Double free detected"]%string.

Definition known_warnings (d : MEMD_Data_t) : Prop :=
  Forall (fun w => In (warn_message w) library_messages) (recorded_warnings d).

Definition keeps_known_warnings (d d' : MEMD_Data_t) : Prop :=
  known_warnings d -> known_warnings d'.

(** ** More sample programs *)

(** A zero-byte block that is never released. *)
Definition zero_byte_leak : list op := [Malloc 0 3 "z.c" 4096].

(** A block obtained while paused and released after resuming. *)
Definition paused_allocation (size line : Z) (file : string) (p line' : Z) (file' : string)
  : list op :=
  [Pause; Malloc size line file p; Resume; Free p line' file'].

(** A block obtained and released with tracking active. *)
Definition allocate_release (size line : Z) (file : string) (p line' : Z) (file' : string)
  : list op :=
  [Malloc size line file p; Free p line' file'].

(** * Properties *)

(** ** The sample program of the repository *)

Example example_c_totals :
  let st := run [Malloc 100 12 "example.c" 4096; Free 4096 16 "example.c";
                 Free 4096 17 "example.c"; Pause; Free 4096 20 "example.c"; Resume;
                 Malloc 200 8 "example.c" 8192] initial_state in
  (total_allocated_size (MEMD_Data st), total_free_size (MEMD_Data st),
   recorded_warnings (MEMD_Data st), heap st)
  = (300, 100, [mkWarning "Double free detected" 17 "example.c"],
     [real_malloc 100 4096; real_free 4096; real_malloc 200 8192]).
Proof. vm_compute. reflexivity. Qed.

Example example_c_report :
  fst (memd_report generous_heap
         (MEMD_Data (run [Malloc 100 12 "example.c" 4096; Free 4096 16 "example.c";
                          Free 4096 17 "example.c"; Pause; Free 4096 20 "example.c"; Resume;
                          Malloc 200 8 "example.c" 8192] initial_state)))
  = ReportText 4096 (LF ++ rule ++ LF ++ "MEMD Leak Summary:" ++ LF ++ rule ++ LF ++ LF
      ++ "   Total Memory allocated 300 bytes" ++ LF
      ++ "   Total Memory freed     100 bytes" ++ LF
      ++ "   Memory Leaked          200 bytes" ++ LF ++ LF
      ++ "   Detailed Report:" ++ LF
      ++ "     Memory leak at example.c:8: (200 bytes)" ++ LF ++ LF
      ++ "   Warnings:" ++ LF
      ++ "    - example.c:17: Double free detected" ++ LF ++ LF
      ++ rule ++ LF ++ LF)%string.
Proof. vm_compute. reflexivity. Qed.

(** ** Machine integers *)

Lemma wrap64_range z : 0 <= wrap64 z <= SIZE_MAX.
Proof. unfold wrap64, SIZE_MAX. pose proof (Z.mod_pos_bound z (2 ^ 64)). lia. Qed.

Lemma wrap64_small z : 0 <= z <= SIZE_MAX -> wrap64 z = z.
Proof. unfold wrap64, SIZE_MAX. intros. apply Z.mod_small. lia. Qed.

Lemma wrap64_idem z : wrap64 (wrap64 z) = wrap64 z.
Proof. unfold wrap64. apply Z.mod_mod. lia. Qed.

Lemma wrap64_add_l a b : wrap64 (wrap64 a + b) = wrap64 (a + b).
Proof. unfold wrap64. apply Zplus_mod_idemp_l. Qed.

Lemma wrap64_sub_l a b : wrap64 (wrap64 a - b) = wrap64 (a - b).
Proof. unfold wrap64. apply Zminus_mod_idemp_l. Qed.

Lemma wrap64_sub_r a b : wrap64 (a - wrap64 b) = wrap64 (a - b).
Proof. unfold wrap64. apply Zminus_mod_idemp_r. Qed.

Lemma size_t_ok_spec z : size_t_ok z = true <-> 0 <= z <= SIZE_MAX.
Proof. unfold size_t_ok. rewrite andb_true_iff, !Z.leb_le. tauto. Qed.

(** *** WARN touches the warning log only *)

Lemma WARN_mem msg line file d : mem (WARN msg line file d) = mem d.
Proof. unfold WARN. destruct (_ <? _); reflexivity. Qed.

Lemma WARN_total_allocated msg line file d :
  total_allocated_size (WARN msg line file d) = total_allocated_size d.
Proof. unfold WARN. destruct (_ <? _); reflexivity. Qed.

Lemma WARN_total_free msg line file d :
  total_free_size (WARN msg line file d) = total_free_size d.
Proof. unfold WARN. destruct (_ <? _); reflexivity. Qed.

Create Rewrite HintDb memd.
#[local] Hint Rewrite WARN_mem WARN_total_allocated WARN_total_free : memd.

(** Rewrites away every [WARN] under a table or totals projection. *)
Ltac warn_frame := autorewrite with memd.

Lemma WARN_full msg line file d :
  MEMD_MAX_WARNINGS <= warning_count d -> WARN msg line file d = d.
Proof.
  unfold WARN. intros H.
  destruct (Z.ltb_spec (warning_count d) MEMD_MAX_WARNINGS); [lia | reflexivity].
Qed.

Lemma WARN_count msg line file d :
  warning_count d < MEMD_MAX_WARNINGS ->
  warning_count (WARN msg line file d) = warning_count d + 1.
Proof.
  unfold WARN. intros H.
  destruct (Z.ltb_spec (warning_count d) MEMD_MAX_WARNINGS); [reflexivity | lia].
Qed.

Lemma WARN_recorded msg line file d :
  data_ok d -> warning_count d < MEMD_MAX_WARNINGS ->
  recorded_warnings (WARN msg line file d)
  = recorded_warnings d ++ [mkWarning (snprintf_s 128 msg) line file].
Proof.
  intros (_ & Hlen & Hc) Hlt. unfold WARN, recorded_warnings.
  destruct (Z.ltb_spec (warning_count d) MEMD_MAX_WARNINGS); [| lia]. cbn [warnings warning_count].
  replace (Z.to_nat (warning_count d + 1)) with (S (Z.to_nat (warning_count d))) by lia.
  assert (Hn : (Z.to_nat (warning_count d) < length (warnings d))%nat)
    by (rewrite Hlen; unfold MEMD_MAX_WARNINGS in *; lia).
  erewrite take_S_r by (apply list_lookup_insert_eq; exact Hn).
  rewrite take_insert_ge by lia. reflexivity.
Qed.

Lemma WARN_ok msg line file d : data_ok d -> data_ok (WARN msg line file d).
Proof.
  intros (Hm & Hw & Hc). unfold WARN.
  destruct (Z.ltb_spec (warning_count d) MEMD_MAX_WARNINGS); [| repeat split; tauto || lia].
  repeat split; cbn; rewrite ?length_insert; tauto || lia.
Qed.

Lemma init_ok : data_ok MEMD_Data_init.
Proof.
  unfold data_ok, MEMD_Data_init. cbn [mem warnings warning_count].
  rewrite !length_replicate. unfold MEMD_MAX_WARNINGS. lia.
Qed.

(** *** What [_insert] and [_erase] do to the table *)

Lemma find_Some m address i r :
  _find_by_address m address = Some (i, r) ->
  m !! i = Some r /\ mem_address r = address /\ (i < length m)%nat.
Proof.
  unfold _find_by_address. intros H. apply list_find_Some in H as (Hi & Ha & _).
  split; [exact Hi |]. split; [exact Ha |]. eapply lookup_lt_Some; exact Hi.
Qed.

Lemma find_None m address :
  _find_by_address m address = None <-> Forall (fun r => mem_address r <> address) m.
Proof. unfold _find_by_address. apply list_find_None. Qed.

Lemma find_head r rest address :
  mem_address r = address -> _find_by_address (r :: rest) address = Some (0%nat, r).
Proof.
  intros Hr. unfold _find_by_address. cbn [list_find].
  destruct (decide (mem_address r = address)); [reflexivity | contradiction].
Qed.

Lemma find_absent ptr r n :
  ptr <> 0 -> mem_address r = 0 -> _find_by_address (r :: replicate n zero_mem) ptr = None.
Proof.
  intros Hne Hr. apply find_None. constructor.
  - rewrite Hr. intros H0. apply Hne. symmetry. exact H0.
  - apply Forall_replicate. cbn. intros H0. apply Hne. symmetry. exact H0.
Qed.

Lemma find_present m i r address :
  m !! i = Some r -> mem_address r = address ->
  exists j r', _find_by_address m address = Some (j, r') /\ (j <= i)%nat.
Proof.
  intros Hi Hr. unfold _find_by_address.
  destruct (list_find (fun r0 => mem_address r0 = address) m) as [[j r'] |] eqn:Hf.
  - exists j, r'. split; [reflexivity |].
    apply list_find_Some in Hf as (_ & _ & Hmin).
    destruct (le_lt_dec j i) as [Hle | Hgt]; [exact Hle |].
    exfalso. exact (Hmin i r Hi Hgt Hr).
  - exfalso. apply list_find_None in Hf.
    exact (proj1 (Forall_lookup _ m) Hf i r Hi Hr).
Qed.

Lemma live_bytes_insert m i r r' :
  m !! i = Some r ->
  live_bytes (<[i := r']> m) = live_bytes m - live_size r + live_size r'.
Proof.
  revert i. induction m as [| x m IH]; intros [| i] H; try discriminate.
  - cbn in H. injection H as ->. cbn. lia.
  - change (live_bytes (<[S i := r']> (x :: m)))
      with (live_size x + live_bytes (<[i := r']> m)).
    cbn in H. rewrite (IH i H). cbn [live_bytes]. lia.
Qed.

Lemma live_bytes_nonneg m : sizes_ok m -> 0 <= live_bytes m.
Proof.
  induction 1 as [| r m Hr _ IH]; cbn; [lia |].
  unfold live_size. destruct (_ =? _); lia.
Qed.

Lemma sizes_ok_insert m i r : sizes_ok m -> 0 <= mem_size r <= SIZE_MAX -> sizes_ok (<[i := r]> m).
Proof. intros Hm Hr. apply Forall_insert; assumption. Qed.

Lemma sizes_ok_lookup m i r : sizes_ok m -> m !! i = Some r -> 0 <= mem_size r <= SIZE_MAX.
Proof. intros Hm Hi. exact (proj1 (Forall_lookup _ m) Hm i r Hi). Qed.

Lemma insert_inv address size line file d :
  insert_outcome address size line file d (_insert address size line file d).
Proof.
  unfold _insert. destruct (Z.eqb_spec address 0) as [-> | Hne].
  - eapply insert_warns; [reflexivity | left; reflexivity].
  - destruct (_find_by_address (mem d) 0) as [[i r] |] eqn:Hf.
    + eapply insert_records; [exact Hne | exact Hf | reflexivity].
    + eapply insert_warns; [reflexivity | right; exact Hf].
Qed.

Lemma erase_inv address line file d :
  erase_outcome address line file d (_erase address line file d).
Proof.
  unfold _erase. destruct (Z.eqb_spec address 0) as [-> | Hne].
  - apply erase_warns. left; reflexivity.
  - destruct (_find_by_address (mem d) address) as [[i r] |] eqn:Hf.
    + unfold set_total_free_size, set_mem.
      cbn [mem total_allocated_size total_free_size warnings warning_count].
      eapply erase_zeroes; [exact Hne | exact Hf].
    + apply erase_warns. right; exact Hf.
Qed.

Lemma insert_ok address size line file d :
  data_ok d -> data_ok (_insert address size line file d).
Proof.
  intros Hd. destruct (insert_inv address size line file d) as [msg -> _ | i r _ _ ->].
  - apply WARN_ok, Hd.
  - destruct Hd as (Hm & Hw & Hc). repeat split; cbn; rewrite ?length_insert; tauto.
Qed.

Lemma erase_ok address line file d :
  data_ok d -> data_ok (snd (_erase address line file d)).
Proof.
  intros Hd. destruct (erase_inv address line file d) as [msg _ | i r _ _]; cbn [snd].
  - apply WARN_ok, Hd.
  - destruct Hd as (Hm & Hw & Hc). repeat split; cbn; rewrite ?length_insert; tauto.
Qed.

(** *** One-step facts about the interceptors *)

Lemma malloc_ignore size line file ret st :
  _memd_ignore (snd (_memd_malloc size line file ret st)) = _memd_ignore st.
Proof. unfold _memd_malloc. cbn. destruct (negb _); reflexivity. Qed.

Lemma calloc_ignore num size line file ret st :
  _memd_ignore (snd (_memd_calloc num size line file ret st)) = _memd_ignore st.
Proof. unfold _memd_calloc. cbn. destruct (negb _ && _); reflexivity. Qed.

Lemma free_ignore ptr line file st :
  _memd_ignore (_memd_free ptr line file st) = _memd_ignore st.
Proof.
  unfold _memd_free. destruct (negb _); [| reflexivity].
  destruct (_erase _ _ _ _) as [rc d]. destruct (rc =? 0); reflexivity.
Qed.

Lemma realloc_ignore ptr size line file ret st :
  _memd_ignore (snd (_memd_realloc ptr size line file ret st)) = _memd_ignore st.
Proof.
  unfold _memd_realloc. destruct (ptr =? 0); [apply malloc_ignore |].
  destruct (size =? 0); [apply free_ignore |]. cbn. destruct (negb _ && _); reflexivity.
Qed.

Lemma step_ok o st : data_ok (MEMD_Data st) -> data_ok (MEMD_Data (step o st)).
Proof.
  intros Hd. destruct o as [size line file ret | num size line file ret | ptr line file
                           | ptr size line file ret | |]; cbn [step]; try exact Hd.
  - unfold _memd_malloc. cbn. destruct (negb _); cbn; [apply insert_ok |]; exact Hd.
  - unfold _memd_calloc. cbn. destruct (negb _ && _); cbn; [apply insert_ok |]; exact Hd.
  - unfold _memd_free. destruct (negb _); [| exact Hd].
    pose proof (erase_ok ptr line file _ Hd) as He.
    destruct (_erase _ _ _ _) as [rc d]. destruct (rc =? 0); exact He.
  - unfold _memd_realloc. destruct (ptr =? 0).
    + unfold _memd_malloc. cbn. destruct (negb _); cbn; [apply insert_ok |]; exact Hd.
    + destruct (size =? 0).
      * cbn [snd]. unfold _memd_free. destruct (negb _); [| exact Hd].
        pose proof (erase_ok ptr line file _ Hd) as He.
        destruct (_erase _ _ _ _) as [rc d]. destruct (rc =? 0); exact He.
      * cbn. destruct (negb _ && _); cbn; [apply insert_ok, erase_ok |]; exact Hd.
Qed.

Lemma run_app ops1 ops2 st : run (ops1 ++ ops2) st = run ops2 (run ops1 st).
Proof. unfold run. apply foldl_app. Qed.

Lemma run_cons o ops st : run (o :: ops) st = run ops (step o st).
Proof. reflexivity. Qed.

Lemma run_ok ops st : data_ok (MEMD_Data st) -> data_ok (MEMD_Data (run ops st)).
Proof.
  revert st. induction ops as [| o ops IH]; intros st Hd; [exact Hd |].
  rewrite run_cons. apply IH, step_ok, Hd.
Qed.

(** ** Suppression *)

Lemma malloc_suppressed size line file ret st :
  _memd_ignore st = 1 ->
  _memd_malloc size line file ret st = (ret, call_heap (real_malloc size ret) st).
Proof. intros H. unfold _memd_malloc. cbn. rewrite H. reflexivity. Qed.

Lemma calloc_suppressed num size line file ret st :
  _memd_ignore st = 1 ->
  _memd_calloc num size line file ret st = (ret, call_heap (real_calloc num size ret) st).
Proof. intros H. unfold _memd_calloc. cbn. rewrite H. reflexivity. Qed.

Lemma free_suppressed ptr line file st :
  _memd_ignore st = 1 -> _memd_free ptr line file st = st.
Proof. intros H. unfold _memd_free. rewrite H. reflexivity. Qed.

Lemma realloc_suppressed ptr size line file ret st :
  _memd_ignore st = 1 ->
  MEMD_Data (snd (_memd_realloc ptr size line file ret st)) = MEMD_Data st.
Proof.
  intros H. unfold _memd_realloc. destruct (ptr =? 0).
  - rewrite malloc_suppressed by exact H. reflexivity.
  - destruct (size =? 0).
    + rewrite free_suppressed by exact H. reflexivity.
    + cbn. rewrite H, andb_false_r. reflexivity.
Qed.

(** C1.  While [_memd_ignore] is 1, each of the four interceptors (and
    pause/resume themselves) leaves [MEMD_Data] -- record table, both
    totals, warning array and warning count -- exactly as it was.  In
    particular [memd_pause(); free(ptr); memd_resume();] from any state
    records no warning and changes neither total, whatever [ptr] is. *)
Theorem suppressed_operations_leave_MEMD_Data_unchanged
    (st : state) (o : op) (ptr line : Z) (file : string) :
  (_memd_ignore st = 1 -> MEMD_Data (step o st) = MEMD_Data st)
  /\ (let st' := run [Pause; Free ptr line file; Resume] st in
      MEMD_Data st' = MEMD_Data st
      /\ warning_count (MEMD_Data st') = warning_count (MEMD_Data st)
      /\ total_allocated_size (MEMD_Data st') = total_allocated_size (MEMD_Data st)
      /\ total_free_size (MEMD_Data st') = total_free_size (MEMD_Data st)).
Proof.
  split.
  - intros H. destruct o as [size0 line0 file0 ret | num size0 line0 file0 ret
                            | ptr0 line0 file0 | ptr0 size0 line0 file0 ret | |];
      cbn [step].
    + rewrite malloc_suppressed by exact H. reflexivity.
    + rewrite calloc_suppressed by exact H. reflexivity.
    + rewrite free_suppressed by exact H. reflexivity.
    + apply realloc_suppressed, H.
    + reflexivity.
    + reflexivity.
  - cbn zeta. unfold run. cbn [foldl step].
    rewrite (free_suppressed ptr line file (memd_pause st)) by reflexivity.
    cbn. repeat split; reflexivity.
Qed.

Lemma suppressed_operations_leave_MEMD_Data_unchanged_witness :
  _memd_ignore paused_with_one_block = 1
  /\ MEMD_Data (step (Free 4096 16 "example.c") paused_with_one_block)
     = MEMD_Data paused_with_one_block
  /\ MEMD_Data (step (Malloc 32 17 "example.c" 8192) paused_with_one_block)
     = MEMD_Data paused_with_one_block.
Proof.
  split; [reflexivity |]. split.
  - apply (proj1 (suppressed_operations_leave_MEMD_Data_unchanged
                    paused_with_one_block (Free 4096 16 "example.c") 0 0 EmptyString)).
    reflexivity.
  - apply (proj1 (suppressed_operations_leave_MEMD_Data_unchanged
                    paused_with_one_block (Malloc 32 17 "example.c" 8192) 0 0 EmptyString)).
    reflexivity.
Defined.

(** C2 (the code departs from the claim).  A release issued while
    suppressed is dropped altogether: [_memd_free] returns without calling
    the real [free], so the block stays allocated in the real heap.  Here a
    block obtained while paused is released while paused and the heap sees
    the allocation only. *)
Theorem suppressed_free_never_reaches_the_heap :
  heap (run [Pause; Malloc 64 3 "lib.c" 4096; Free 4096 4 "lib.c"; Resume] initial_state)
  = [real_malloc 64 4096]
  /\ heap (snd (_memd_realloc 4096 0 5 "lib.c" 0
                 (run [Pause; Malloc 64 3 "lib.c" 4096] initial_state)))
     = [real_malloc 64 4096].
Proof. split; vm_compute; reflexivity. Qed.

(** ** The byte counters *)

Lemma balanced_init : balanced MEMD_Data_init 0 0.
Proof.
  unfold balanced, MEMD_Data_init. cbn [mem total_allocated_size total_free_size].
  split; [reflexivity |]. split; [reflexivity |]. split; [| split; [lia |]].
  - generalize MEMD_MAX_ALLOCATIONS. intros n. induction n as [| n IH]; [reflexivity |].
    cbn [replicate live_bytes]. rewrite <- IH. reflexivity.
  - apply Forall_replicate. cbn. unfold SIZE_MAX. lia.
Qed.

Lemma balanced_WARN msg line file d A F :
  balanced d A F -> balanced (WARN msg line file d) A F.
Proof.
  unfold balanced. warn_frame. tauto.
Qed.

Lemma balanced_insert address size line file d A F :
  0 <= size <= SIZE_MAX -> balanced d A F ->
  let d' := _insert address size line file d in
  let grown := wrap64 (total_allocated_size d' - total_allocated_size d) in
  0 <= grown /\ balanced d' (A + grown) F.
Proof.
  intros Hs Hb d' grown. subst grown d'.
  destruct (insert_inv address size line file d) as [msg -> _ | i r Hne Hf ->].
  - rewrite WARN_total_allocated, Z.sub_diag. change (wrap64 0) with 0.
    rewrite Z.add_0_r. split; [lia | apply balanced_WARN, Hb].
  - destruct Hb as (Ha & Hfr & Hl & HF & Hsz).
    apply find_Some in Hf as (Hi & Hr0 & _).
    cbn [total_allocated_size].
    rewrite wrap64_sub_l. replace (total_allocated_size d + size - total_allocated_size d)
      with size by lia.
    rewrite (wrap64_small size Hs). split; [lia |].
    unfold balanced. cbn [mem total_allocated_size total_free_size].
    repeat split.
    + rewrite Ha. apply wrap64_add_l.
    + exact Hfr.
    + rewrite (live_bytes_insert _ _ _ _ Hi). unfold live_size at 1 2.
      rewrite Hr0. cbn [mem_address mem_size]. change (0 =? 0) with true. cbv iota.
      destruct (Z.eqb_spec address 0); [contradiction | lia].
    + exact HF.
    + apply sizes_ok_insert; [exact Hsz | exact Hs].
Qed.

Lemma balanced_erase address line file d A F :
  balanced d A F ->
  let d' := snd (_erase address line file d) in
  total_allocated_size d' = total_allocated_size d
  /\ exists F', F <= F' /\ balanced d' A F'.
Proof.
  intros Hb d'. subst d'.
  destruct (erase_inv address line file d) as [msg _ | i r Hne Hf]; cbn [snd].
  - rewrite WARN_total_allocated. split; [reflexivity |].
    exists F. split; [lia | apply balanced_WARN, Hb].
  - destruct Hb as (Ha & Hfr & Hl & HF & Hsz). split; [reflexivity |].
    apply find_Some in Hf as (Hi & Hra & _).
    pose proof (sizes_ok_lookup _ _ _ Hsz Hi) as Hr.
    exists (F + mem_size r). split; [lia |].
    unfold balanced. cbn [mem total_allocated_size total_free_size].
    repeat split.
    + exact Ha.
    + rewrite Hfr. apply wrap64_add_l.
    + rewrite (live_bytes_insert _ _ _ _ Hi). unfold live_size at 1 2.
      cbn [mem_address mem_size]. change (0 =? 0) with true. cbv iota.
      rewrite Hra. destruct (Z.eqb_spec address 0); [contradiction | lia].
    + lia.
    + apply sizes_ok_insert; [exact Hsz | exact Hr].
Qed.

Lemma balanced_unchanged d A F :
  balanced d A F ->
  0 <= wrap64 (total_allocated_size d - total_allocated_size d)
  /\ balanced d (A + wrap64 (total_allocated_size d - total_allocated_size d)) F.
Proof.
  intros Hb. rewrite Z.sub_diag. change (wrap64 0) with 0. rewrite Z.add_0_r.
  split; [lia | exact Hb].
Qed.

Lemma balanced_free ptr line file st A F :
  balanced (MEMD_Data st) A F ->
  total_allocated_size (MEMD_Data (_memd_free ptr line file st))
  = total_allocated_size (MEMD_Data st)
  /\ exists F', F <= F' /\ balanced (MEMD_Data (_memd_free ptr line file st)) A F'.
Proof.
  intros Hb. unfold _memd_free. destruct (negb _).
  - pose proof (balanced_erase ptr line file _ A F Hb) as He. cbn zeta in He.
    destruct (_erase ptr line file (MEMD_Data st)) as [rc d]. cbn [snd] in He.
    destruct (rc =? 0); exact He.
  - split; [reflexivity |]. exists F. split; [lia | exact Hb].
Qed.

Lemma balanced_step o st A F :
  wf_op o = true -> balanced (MEMD_Data st) A F ->
  0 <= allocated_by o st
  /\ exists F', F <= F' /\ balanced (MEMD_Data (step o st)) (A + allocated_by o st) F'.
Proof.
  intros Hwf Hb. unfold allocated_by.
  assert (Hsame : forall st', MEMD_Data st' = MEMD_Data st ->
            0 <= wrap64 (total_allocated_size (MEMD_Data st') - total_allocated_size (MEMD_Data st))
            /\ exists F', F <= F' /\
                 balanced (MEMD_Data st')
                   (A + wrap64 (total_allocated_size (MEMD_Data st')
                                - total_allocated_size (MEMD_Data st))) F').
  { intros st' ->. destruct (balanced_unchanged _ _ _ Hb) as [H0 H1].
    split; [exact H0 |]. exists F. split; [lia | exact H1]. }
  assert (Hins : forall address size line file h,
            0 <= size <= SIZE_MAX ->
            let st' := mkState (_insert address size line file (MEMD_Data st))
                               (_memd_ignore st) h in
            0 <= wrap64 (total_allocated_size (MEMD_Data st') - total_allocated_size (MEMD_Data st))
            /\ exists F', F <= F' /\
                 balanced (MEMD_Data st')
                   (A + wrap64 (total_allocated_size (MEMD_Data st')
                                - total_allocated_size (MEMD_Data st))) F').
  { intros address size line file h Hs st'. subst st'. cbn [MEMD_Data].
    destruct (balanced_insert address size line file _ A F Hs Hb) as [H0 H1].
    split; [exact H0 |]. exists F. split; [lia | exact H1]. }
  destruct o as [size line file ret | num size line file ret | ptr line file
                | ptr size line file ret | |]; cbn [step].
  - cbn in Hwf. rewrite !andb_true_iff, !size_t_ok_spec in Hwf.
    unfold _memd_malloc. cbn [snd]. destruct (negb _).
    + apply Hins. tauto.
    + apply Hsame. reflexivity.
  - unfold _memd_calloc. cbn [snd]. destruct (negb _ && _).
    + apply Hins. apply wrap64_range.
    + apply Hsame. reflexivity.
  - destruct (balanced_free ptr line file st A F Hb) as (Hta & F' & HF & Hb').
    rewrite Hta, Z.sub_diag. change (wrap64 0) with 0. rewrite Z.add_0_r.
    split; [lia |]. exists F'. split; assumption.
  - cbn in Hwf. rewrite !andb_true_iff, !size_t_ok_spec in Hwf.
    unfold _memd_realloc. destruct (ptr =? 0).
    + unfold _memd_malloc. cbn [snd]. destruct (negb _).
      * apply Hins. tauto.
      * apply Hsame. reflexivity.
    + destruct (size =? 0).
      * cbn [snd].
        destruct (balanced_free ptr line file st A F Hb) as (Hta & F' & HF & Hb').
        rewrite Hta, Z.sub_diag. change (wrap64 0) with 0. rewrite Z.add_0_r.
        split; [lia |]. exists F'. split; assumption.
      * cbn [snd]. cbn [call_heap MEMD_Data _memd_ignore]. destruct (negb _ && _).
        -- cbn [set_data MEMD_Data].
           destruct (balanced_erase ptr line file _ A F Hb) as (Hta & F' & HF & Hb').
           cbn zeta in Hta, Hb'. rewrite <- Hta.
           destruct (balanced_insert ret size line file _ A F' ltac:(tauto) Hb') as [H0 H1].
           split; [exact H0 |]. exists F'. split; [exact HF | exact H1].
        -- apply Hsame. reflexivity.
  - apply Hsame. reflexivity.
  - apply Hsame. reflexivity.
Qed.

Lemma insert_total_allocated address size line file d :
  total_allocated_size (_insert address size line file d) = total_allocated_size d
  \/ total_allocated_size (_insert address size line file d)
     = wrap64 (total_allocated_size d + size).
Proof.
  destruct (insert_inv address size line file d) as [msg -> _ | i r _ _ ->].
  - left. apply WARN_total_allocated.
  - right. reflexivity.
Qed.

Lemma erase_total_allocated address line file d :
  total_allocated_size (snd (_erase address line file d)) = total_allocated_size d.
Proof.
  destruct (erase_inv address line file d) as [msg _ | i r _ _]; cbn [snd];
    [apply WARN_total_allocated | reflexivity].
Qed.

Lemma free_total_allocated ptr line file st :
  total_allocated_size (MEMD_Data (_memd_free ptr line file st))
  = total_allocated_size (MEMD_Data st).
Proof.
  unfold _memd_free. destruct (negb _); [| reflexivity].
  pose proof (erase_total_allocated ptr line file (MEMD_Data st)) as He.
  destruct (_erase ptr line file (MEMD_Data st)) as [rc d]. cbn [snd] in He.
  destruct (rc =? 0); exact He.
Qed.

(** What [allocated_by] measures: nothing, or the size the call hands to
    [_insert]. *)
Lemma allocated_by_cases o st :
  wf_op o = true ->
  allocated_by o st = 0 \/ requested_size o = Some (allocated_by o st).
Proof.
  intros Hwf. unfold allocated_by.
  assert (Hgrow : forall ta size, 0 <= size <= SIZE_MAX ->
                    wrap64 (wrap64 (ta + size) - ta) = size).
  { intros ta size Hs. rewrite wrap64_sub_l.
    replace (ta + size - ta) with size by lia. apply wrap64_small, Hs. }
  assert (Hins : forall address size line file d,
            0 <= size <= SIZE_MAX ->
            wrap64 (total_allocated_size (_insert address size line file d)
                    - total_allocated_size d) = 0
            \/ wrap64 (total_allocated_size (_insert address size line file d)
                       - total_allocated_size d) = size).
  { intros address size line file d Hs.
    destruct (insert_total_allocated address size line file d) as [-> | ->].
    - left. rewrite Z.sub_diag. reflexivity.
    - right. apply Hgrow, Hs. }
  assert (Hsame : forall ta, wrap64 (ta - ta) = 0)
    by (intros ta; rewrite Z.sub_diag; reflexivity).
  destruct o as [size line file ret | num size line file ret | ptr line file
                | ptr size line file ret | |]; cbn [step requested_size].
  - cbn in Hwf. rewrite !andb_true_iff, !size_t_ok_spec in Hwf.
    unfold _memd_malloc. cbn [snd call_heap _memd_ignore MEMD_Data].
    destruct (negb _); [| left; apply Hsame]. cbn [set_data MEMD_Data].
    destruct (Hins ret size line file (MEMD_Data st) ltac:(tauto)) as [-> | ->];
      [left | right]; reflexivity.
  - unfold _memd_calloc. cbn [snd call_heap _memd_ignore MEMD_Data].
    destruct (negb _ && _); [| left; apply Hsame]. cbn [set_data MEMD_Data].
    destruct (Hins ret (wrap64 (num * size)) line file (MEMD_Data st) (wrap64_range _))
      as [-> | ->]; [left | right]; reflexivity.
  - left. rewrite free_total_allocated. apply Hsame.
  - cbn in Hwf. rewrite !andb_true_iff, !size_t_ok_spec in Hwf.
    unfold _memd_realloc. destruct (ptr =? 0).
    + unfold _memd_malloc. cbn [snd call_heap _memd_ignore MEMD_Data].
      destruct (negb _); [| left; apply Hsame]. cbn [set_data MEMD_Data].
      destruct (Hins ret size line file (MEMD_Data st) ltac:(tauto)) as [-> | ->];
        [left | right]; reflexivity.
    + destruct (size =? 0).
      * left. cbn [snd]. rewrite free_total_allocated. apply Hsame.
      * cbn [snd call_heap _memd_ignore MEMD_Data].
        destruct (negb _ && negb _); [| left; apply Hsame]. cbn [set_data MEMD_Data].
        rewrite <- (erase_total_allocated ptr line file (MEMD_Data st)).
        destruct (Hins ret size line file (snd (_erase ptr line file (MEMD_Data st)))
                    ltac:(tauto)) as [-> | ->]; [left | right]; reflexivity.
  - left. apply Hsame.
  - left. apply Hsame.
Qed.

Lemma balanced_run ops st A F :
  forallb wf_op ops = true -> balanced (MEMD_Data st) A F ->
  0 <= bytes_tracked ops st
  /\ exists F', F <= F' /\ balanced (MEMD_Data (run ops st)) (A + bytes_tracked ops st) F'.
Proof.
  revert st A F. induction ops as [| o ops IH]; intros st A F Hwf Hb.
  - cbn. rewrite Z.add_0_r. split; [lia |]. exists F. split; [lia | exact Hb].
  - cbn in Hwf. apply andb_true_iff in Hwf as [Ho Hops].
    destruct (balanced_step o st A F Ho Hb) as (H0 & F1 & HF1 & Hb1).
    destruct (IH _ _ _ Hops Hb1) as (H1 & F2 & HF2 & Hb2).
    rewrite run_cons. cbn [bytes_tracked]. split; [lia |].
    exists F2. split; [lia |]. rewrite Z.add_assoc. exact Hb2.
Qed.

Lemma balanced_leaked d A F : balanced d A F -> leaked d = wrap64 (live_bytes (mem d)).
Proof.
  intros (Ha & Hf & Hl & _). unfold leaked. rewrite Ha, Hf, wrap64_sub_l, wrap64_sub_r, Hl.
  reflexivity.
Qed.

(** C3.  After any program run from the zero-initialised state -- hence
    after every sequence of allocations and releases without double
    release -- the leak figure [total_allocated_size - total_free_size], as
    [memd_report] computes it, is the sum of the sizes of the records still
    in the table (inserted and never released).  Both sides are [size_t]
    values; the sum is non-negative and the equality is exact whenever it
    fits in a [size_t]. *)
Theorem leaked_is_sum_of_unreleased_sizes (ops : list op) :
  forallb wf_op ops = true ->
  let d := MEMD_Data (run ops initial_state) in
  leaked d = wrap64 (live_bytes (mem d))
  /\ 0 <= live_bytes (mem d)
  /\ (live_bytes (mem d) <= SIZE_MAX -> leaked d = live_bytes (mem d)).
Proof.
  intros Hwf d.
  destruct (balanced_run ops initial_state 0 0 Hwf balanced_init) as (_ & F & _ & Hb).
  fold d in Hb. pose proof (balanced_leaked _ _ _ Hb) as Hl.
  destruct Hb as (_ & _ & _ & _ & Hsz). pose proof (live_bytes_nonneg _ Hsz) as H0.
  split; [exact Hl |]. split; [exact H0 |].
  intros Hle. rewrite Hl. apply wrap64_small. lia.
Qed.

Lemma leaked_is_sum_of_unreleased_sizes_witness :
  forallb wf_op two_allocations_one_release = true
  /\ leaked (MEMD_Data (run two_allocations_one_release initial_state)) = 200
  /\ live_bytes (mem (MEMD_Data (run two_allocations_one_release initial_state))) = 200.
Proof.
  split; [reflexivity |]. split; [| vm_compute; reflexivity].
  destruct (leaked_is_sum_of_unreleased_sizes two_allocations_one_release eq_refl)
    as (_ & _ & Hexact).
  rewrite Hexact; vm_compute; [reflexivity | discriminate].
Defined.

(** C10 as stated fails: once [total_allocated_size] has wrapped around,
    [total_free_size] is the larger counter. *)
Lemma total_freed_exceeds_total_allocated_after_wrap :
  forallb wf_op wrapping_program = true
  /\ total_allocated_size (MEMD_Data (run wrapping_program initial_state)) = 0
  /\ total_free_size (MEMD_Data (run wrapping_program initial_state)) = 3 * 2 ^ 62
  /\ ~ (total_free_size (MEMD_Data (run wrapping_program initial_state))
        <= total_allocated_size (MEMD_Data (run wrapping_program initial_state))).
Proof.
  split; [reflexivity |]. split; [vm_compute; reflexivity |].
  split; [vm_compute; reflexivity |]. vm_compute. intros H. apply H. reflexivity.
Qed.

(** *** Allocation and release through the head slot *)

Lemma malloc_into_head size line file ret st r rest :
  _memd_ignore st = 0 -> mem (MEMD_Data st) = r :: rest -> mem_address r = 0 -> ret <> 0 ->
  snd (_memd_malloc size line file ret st)
  = mkState (mkData (mkMem ret size line file :: rest)
                    (wrap64 (total_allocated_size (MEMD_Data st) + size))
                    (total_free_size (MEMD_Data st))
                    (warnings (MEMD_Data st)) (warning_count (MEMD_Data st)))
            0 (heap st ++ [real_malloc size ret]).
Proof.
  intros Hact Hmem Hr Hret. unfold _memd_malloc, _insert.
  cbn [snd call_heap _memd_ignore MEMD_Data]. rewrite Hact.
  change (negb (0 =? 1)) with true. cbv iota.
  destruct (Z.eqb_spec ret 0); [contradiction |].
  rewrite Hmem, (find_head r rest 0 Hr).
  unfold call_heap, set_data, set_total_allocated_size, set_mem.
  cbn [MEMD_Data _memd_ignore heap mem total_allocated_size total_free_size warnings
       warning_count].
  rewrite ?Hmem, ?Hact. reflexivity.
Qed.

Lemma free_from_head ptr line file st r rest :
  _memd_ignore st = 0 -> mem (MEMD_Data st) = r :: rest -> mem_address r = ptr -> ptr <> 0 ->
  _memd_free ptr line file st
  = mkState (mkData (mkMem 0 (mem_size r) (mem_line r) (mem_file r) :: rest)
                    (total_allocated_size (MEMD_Data st))
                    (wrap64 (total_free_size (MEMD_Data st) + mem_size r))
                    (warnings (MEMD_Data st)) (warning_count (MEMD_Data st)))
            0 (heap st ++ [real_free ptr]).
Proof.
  intros Hact Hmem Hr Hptr. unfold _memd_free, _erase. rewrite Hact.
  change (negb (0 =? 1)) with true. cbv iota.
  destruct (Z.eqb_spec ptr 0); [contradiction |].
  rewrite Hmem, (find_head r rest ptr Hr).
  unfold call_heap, set_data, set_total_free_size, set_mem.
  cbn [MEMD_Data _memd_ignore heap mem total_allocated_size total_free_size warnings
       warning_count].
  rewrite ?Hmem, ?Hact. reflexivity.
Qed.

Lemma churn_rounds_counters n size st r rest A F :
  _memd_ignore st = 0 -> mem (MEMD_Data st) = r :: rest -> mem_address r = 0 ->
  total_allocated_size (MEMD_Data st) = wrap64 A ->
  total_free_size (MEMD_Data st) = wrap64 F ->
  let st' := run (churn_rounds n size) st in
  _memd_ignore st' = 0
  /\ (exists r', mem (MEMD_Data st') = r' :: rest /\ mem_address r' = 0)
  /\ total_allocated_size (MEMD_Data st') = wrap64 (A + Z.of_nat n * size)
  /\ total_free_size (MEMD_Data st') = wrap64 (F + Z.of_nat n * size).
Proof.
  revert st r A F. induction n as [| n IH]; intros st r A F Hact Hmem Hr Ha Hf.
  - cbn. rewrite !Z.add_0_r. repeat split; try assumption. exists r. split; assumption.
  - cbn [churn_rounds]. cbn zeta. rewrite run_app.
    assert (Hround : run (churn size) st
                     = mkState (mkData (mkMem 0 size 1 "loop.c" :: rest)
                                  (wrap64 (total_allocated_size (MEMD_Data st) + size))
                                  (wrap64 (total_free_size (MEMD_Data st) + size))
                                  (warnings (MEMD_Data st)) (warning_count (MEMD_Data st)))
                               0 ((heap st ++ [real_malloc size 4096]) ++ [real_free 4096])).
    { unfold churn, run. cbn [foldl step].
      rewrite (malloc_into_head size 1 "loop.c" 4096 st r rest Hact Hmem Hr)
        by discriminate.
      rewrite (free_from_head 4096 2 "loop.c" _ (mkMem 4096 size 1 "loop.c") rest)
        by (reflexivity || discriminate).
      reflexivity. }
    rewrite Hround. clear Hround.
    match goal with
    | |- context [run (churn_rounds n size) ?s] =>
        destruct (IH s (mkMem 0 size 1 "loop.c") (A + size) (F + size))
          as (H1 & H2 & H3 & H4)
    end; [reflexivity | reflexivity | reflexivity | | |].
    + cbn [MEMD_Data total_allocated_size]. rewrite Ha. apply wrap64_add_l.
    + cbn [MEMD_Data total_free_size]. rewrite Hf. apply wrap64_add_l.
    + split; [exact H1 |]. split; [exact H2 |].
      rewrite H3, H4, Nat2Z.inj_succ. split; f_equal; lia.
Qed.

Lemma churn_rounds_then_malloc n size :
  let st := run (churn_rounds n size ++ [Malloc size 1 "loop.c" 4096]) initial_state in
  total_allocated_size (MEMD_Data st) = wrap64 ((Z.of_nat n + 1) * size)
  /\ total_free_size (MEMD_Data st) = wrap64 (Z.of_nat n * size).
Proof.
  cbn zeta. rewrite run_app.
  destruct (churn_rounds_counters n size initial_state zero_mem
              (replicate (Nat.pred MEMD_MAX_ALLOCATIONS) zero_mem) 0 0
              eq_refl eq_refl eq_refl eq_refl eq_refl)
    as (Hact & (r' & Hmem & Hr') & Ha & Hf).
  change (run [Malloc size 1 "loop.c" 4096] (run (churn_rounds n size) initial_state))
    with (snd (_memd_malloc size 1 "loop.c" 4096 (run (churn_rounds n size) initial_state))).
  rewrite (malloc_into_head _ _ _ _ _ r' _ Hact Hmem Hr') by discriminate.
  cbn [MEMD_Data total_allocated_size total_free_size]. rewrite Ha, Hf.
  rewrite wrap64_add_l. split; f_equal; lia.
Qed.

(** The wrap-around of C10 with blocks of 64 TiB: after 2^18 allocations of
    2^46 bytes, all but the last released, [total_allocated_size] is back
    at 0 while [total_free_size] is 2^64 - 2^46. *)
Lemma counters_wrap_with_64TiB_blocks :
  total_allocated_size (MEMD_Data (run wrapping_loop initial_state)) = 0
  /\ total_free_size (MEMD_Data (run wrapping_loop initial_state)) = 2 ^ 64 - 2 ^ 46.
Proof.
  unfold wrapping_loop.
  destruct (churn_rounds_then_malloc (Z.to_nat (2 ^ 18 - 1)) (2 ^ 46)) as [Ha Hf].
  rewrite Ha, Hf.
  rewrite (Z2Nat.id (2 ^ 18 - 1)) by (vm_compute; discriminate).
  split; vm_compute; reflexivity.
Qed.

(** C10, amended.  As long as the bytes added to [total_allocated_size]
    over the run sum to at most [SIZE_MAX] (the counter has not wrapped),
    [total_free_size <= total_allocated_size]; the unsigned subtraction of
    the report then does not underflow and yields their true difference. *)
Theorem total_freed_le_total_allocated_until_wrap (ops : list op) :
  forallb wf_op ops = true ->
  bytes_tracked ops initial_state <= SIZE_MAX ->
  let d := MEMD_Data (run ops initial_state) in
  total_free_size d <= total_allocated_size d
  /\ leaked d = total_allocated_size d - total_free_size d
  /\ total_allocated_size d - total_free_size d = live_bytes (mem d).
Proof.
  intros Hwf Hfit d.
  destruct (balanced_run ops initial_state 0 0 Hwf balanced_init) as (H0 & F & HF & Hb).
  fold d in Hb. rewrite Z.add_0_l in Hb.
  pose proof (balanced_leaked _ _ _ Hb) as Hl.
  destruct Hb as (Ha & Hf & Hlive & _ & Hsz).
  pose proof (live_bytes_nonneg _ Hsz) as Hpos.
  rewrite wrap64_small in Ha by lia. rewrite wrap64_small in Hf by lia.
  split; [lia |]. split; [| lia].
  rewrite Hl, Ha, Hf. rewrite <- Hlive. apply wrap64_small. lia.
Qed.

Lemma total_freed_le_total_allocated_until_wrap_witness :
  forallb wf_op two_allocations_one_release = true
  /\ bytes_tracked two_allocations_one_release initial_state <= SIZE_MAX
  /\ total_free_size (MEMD_Data (run two_allocations_one_release initial_state))
     <= total_allocated_size (MEMD_Data (run two_allocations_one_release initial_state)).
Proof.
  assert (Hfit : bytes_tracked two_allocations_one_release initial_state <= SIZE_MAX)
    by (vm_compute; discriminate).
  split; [reflexivity |]. split; [exact Hfit |].
  exact (proj1 (total_freed_le_total_allocated_until_wrap
                  two_allocations_one_release eq_refl Hfit)).
Defined.

(** ** Releasing *)

Lemma erase_success address line file d :
  fst (_erase address line file d) = 0
  <-> address <> 0 /\ is_Some (_find_by_address (mem d) address).
Proof.
  unfold _erase. destruct (Z.eqb_spec address 0) as [-> | Hne]; cbn [fst].
  - split; [discriminate | intros [H _]; contradiction].
  - destruct (_find_by_address (mem d) address) as [[i r] |]; cbn [fst].
    + split; [intros _; split; [exact Hne | eexists; reflexivity] | reflexivity].
    + split; [discriminate | intros [_ [x Hx]]; discriminate].
Qed.

Lemma free_forwarding ptr line file st :
  _memd_ignore st <> 1 ->
  _memd_free ptr line file st
  = let st' := set_data (snd (_erase ptr line file (MEMD_Data st))) st in
    if fst (_erase ptr line file (MEMD_Data st)) =? 0
    then call_heap (real_free ptr) st' else st'.
Proof.
  intros H. unfold _memd_free. destruct (Z.eqb_spec (_memd_ignore st) 1); [contradiction |].
  cbn [negb]. destruct (_erase ptr line file (MEMD_Data st)) as [rc d]. reflexivity.
Qed.

(** C4 as stated fails: with the warning log full, the release of an
    untracked address records nothing at all. *)
Lemma untracked_release_with_full_log_records_nothing :
  _memd_ignore log_full = 0
  /\ _find_by_address (mem (MEMD_Data log_full)) 4096 = None
  /\ warning_count (MEMD_Data log_full) = 1000
  /\ MEMD_Data (_memd_free 4096 2 "x.c" log_full) = MEMD_Data log_full
  /\ recorded_warnings (MEMD_Data (_memd_free 4096 2 "x.c" log_full))
     <> recorded_warnings (MEMD_Data log_full) ++ [mkWarning "Double free detected" 2 "x.c"]
  /\ ~ In (mkWarning "Double free detected" 2 "x.c")
         (recorded_warnings (MEMD_Data (_memd_free 4096 2 "x.c" log_full))).
Proof.
  split; [vm_compute; reflexivity |]. split; [vm_compute; reflexivity |].
  split; [vm_compute; reflexivity |].
  assert (Hsame : MEMD_Data (_memd_free 4096 2 "x.c" log_full) = MEMD_Data log_full)
    by (vm_compute; reflexivity).
  split; [exact Hsame |]. rewrite Hsame. split.
  - intros Heq. apply (f_equal length) in Heq. rewrite length_app in Heq.
    cbn [length] in Heq. lia.
  - assert (Hall : forallb (fun w => warn_line w =? 1)
                           (recorded_warnings (MEMD_Data log_full)) = true)
      by (vm_compute; reflexivity).
    intros Hin. pose proof (proj1 (forallb_forall _ _) Hall _ Hin) as Hl.
    cbn in Hl. discriminate Hl.
Qed.

(** C4, amended.  With tracking active, the real [free] is called exactly
    when [_erase] returns 0, which is when the address is nonzero and has a
    live record.  For a nonzero address without a live record the real
    [free] is not called, table and totals are unchanged, and the warning
    ["Double free detected"] is appended to the log if the log holds fewer
    than [MEMD_MAX_WARNINGS] entries; if the log is full the warning is
    dropped and [MEMD_Data] is unchanged. *)
Theorem release_of_untracked_address (st : state) (ptr line : Z) (file : string) :
  data_ok (MEMD_Data st) ->
  _memd_ignore st <> 1 ->
  let st' := _memd_free ptr line file st in
  let d := MEMD_Data st in
  let d' := MEMD_Data st' in
  heap st' = (if fst (_erase ptr line file d) =? 0
              then heap st ++ [real_free ptr] else heap st)
  /\ (fst (_erase ptr line file d) = 0
      <-> ptr <> 0 /\ is_Some (_find_by_address (mem d) ptr))
  /\ (ptr <> 0 -> _find_by_address (mem d) ptr = None ->
      heap st' = heap st
      /\ mem d' = mem d
      /\ total_free_size d' = total_free_size d
      /\ total_allocated_size d' = total_allocated_size d
      /\ (warning_count d < MEMD_MAX_WARNINGS ->
          recorded_warnings d'
          = recorded_warnings d ++ [mkWarning "Double free detected" line file])
      /\ (MEMD_MAX_WARNINGS <= warning_count d -> d' = d)).
Proof.
  intros Hok Hact st' d d'. subst st' d'. rewrite (free_forwarding _ _ _ _ Hact).
  fold d. cbn zeta. split; [| split].
  - destruct (fst (_erase ptr line file d) =? 0); reflexivity.
  - apply erase_success.
  - intros Hne Hnone.
    assert (He : _erase ptr line file d = (-1, WARN "Double free detected" line file d)).
    { unfold _erase. destruct (Z.eqb_spec ptr 0); [contradiction |]. rewrite Hnone.
      reflexivity. }
    rewrite He. cbn [fst snd]. change (-1 =? 0) with false. cbv iota.
    cbn [set_data heap MEMD_Data].
    warn_frame.
    repeat split; try reflexivity.
    + intros Hlt. rewrite (WARN_recorded _ _ _ _ Hok Hlt). reflexivity.
    + intros Hfull. apply WARN_full, Hfull.
Qed.

Lemma release_of_untracked_address_witness :
  data_ok (MEMD_Data initial_state)
  /\ _memd_ignore initial_state <> 1
  /\ (4096 <> 0 /\ _find_by_address (mem (MEMD_Data initial_state)) 4096 = None)
  /\ warning_count (MEMD_Data initial_state) < MEMD_MAX_WARNINGS
  /\ heap (_memd_free 4096 9 "main.c" initial_state) = heap initial_state
  /\ recorded_warnings (MEMD_Data (_memd_free 4096 9 "main.c" initial_state))
     = [mkWarning "Double free detected" 9 "main.c"].
Proof.
  assert (Hact : _memd_ignore initial_state <> 1) by discriminate.
  assert (Hne : 4096 <> 0) by discriminate.
  assert (Hnone : _find_by_address (mem (MEMD_Data initial_state)) 4096 = None)
    by (vm_compute; reflexivity).
  assert (Hlt : warning_count (MEMD_Data initial_state) < MEMD_MAX_WARNINGS) by reflexivity.
  destruct (release_of_untracked_address initial_state 4096 9 "main.c" init_ok Hact)
    as (_ & _ & Hun).
  destruct (Hun Hne Hnone) as (Hheap & _ & _ & _ & Hrec & _).
  split; [exact init_ok |]. split; [exact Hact |]. split; [split; assumption |].
  split; [exact Hlt |]. split; [exact Hheap |]. exact (Hrec Hlt).
Defined.

(** ** Inserting *)

Lemma insert_same_table address size line file d1 d2 :
  same_table d1 d2 ->
  same_table (_insert address size line file d1) (_insert address size line file d2).
Proof.
  intros (Hm & Ha & Hf). unfold same_table, _insert. destruct (address =? 0).
  - warn_frame. tauto.
  - rewrite Hm. destruct (_find_by_address (mem d2) 0) as [[i r] |].
    + cbn. rewrite ?Hm, ?Ha, ?Hf. tauto.
    + warn_frame. tauto.
Qed.

Lemma erase_same_table address line file d1 d2 :
  same_table d1 d2 ->
  fst (_erase address line file d1) = fst (_erase address line file d2)
  /\ same_table (snd (_erase address line file d1)) (snd (_erase address line file d2)).
Proof.
  intros (Hm & Ha & Hf). unfold same_table, _erase. destruct (address =? 0).
  - cbn [fst snd]. warn_frame. tauto.
  - rewrite Hm. destruct (_find_by_address (mem d2) address) as [[i r] |].
    + cbn. rewrite ?Hm, ?Ha, ?Hf. tauto.
    + cbn [fst snd]. warn_frame. tauto.
Qed.

Lemma free_same_registry ptr line file s1 s2 :
  same_registry s1 s2 ->
  same_registry (_memd_free ptr line file s1) (_memd_free ptr line file s2).
Proof.
  intros (Hm & Ha & Hf & Hi). unfold _memd_free. rewrite Hi. destruct (negb _).
  - destruct (erase_same_table ptr line file (MEMD_Data s1) (MEMD_Data s2)) as [Hrc Hst];
      [repeat split; assumption |].
    destruct (_erase ptr line file (MEMD_Data s1)) as [rc1 d1].
    destruct (_erase ptr line file (MEMD_Data s2)) as [rc2 d2].
    cbn [fst snd] in Hrc, Hst. subst rc2. destruct Hst as (H1 & H2 & H3).
    destruct (rc1 =? 0); repeat split; assumption.
  - repeat split; assumption.
Qed.

Lemma malloc_same_registry size line file ret s1 s2 :
  same_registry s1 s2 ->
  same_registry (snd (_memd_malloc size line file ret s1))
                (snd (_memd_malloc size line file ret s2)).
Proof.
  intros (Hm & Ha & Hf & Hi). unfold _memd_malloc. cbn [snd call_heap _memd_ignore MEMD_Data].
  rewrite Hi. destruct (negb _).
  - destruct (insert_same_table ret size line file (MEMD_Data s1) (MEMD_Data s2))
      as (H1 & H2 & H3); [repeat split; assumption |].
    repeat split; assumption.
  - repeat split; assumption.
Qed.

Lemma step_same_registry o s1 s2 :
  same_registry s1 s2 -> same_registry (step o s1) (step o s2).
Proof.
  intros Hs. pose proof Hs as (Hm & Ha & Hf & Hi).
  destruct o as [size line file ret | num size line file ret | ptr line file
                | ptr size line file ret | |]; cbn [step].
  - apply malloc_same_registry, Hs.
  - unfold _memd_calloc. cbn [snd call_heap _memd_ignore MEMD_Data].
    rewrite Hi. destruct (negb _ && _).
    + destruct (insert_same_table ret (wrap64 (num * size)) line file
                  (MEMD_Data s1) (MEMD_Data s2)) as (H1 & H2 & H3);
        [repeat split; assumption |].
      repeat split; assumption.
    + repeat split; assumption.
  - apply free_same_registry, Hs.
  - unfold _memd_realloc. destruct (ptr =? 0); [apply malloc_same_registry, Hs |].
    destruct (size =? 0); [apply free_same_registry, Hs |].
    cbn [snd call_heap _memd_ignore MEMD_Data]. rewrite Hi. destruct (negb _ && negb _).
    + destruct (erase_same_table ptr line file (MEMD_Data s1) (MEMD_Data s2))
        as [_ Hst]; [repeat split; assumption |].
      destruct (insert_same_table ret size line file _ _ Hst) as (H1 & H2 & H3).
      repeat split; assumption.
    + repeat split; assumption.
  - repeat split; assumption.
  - repeat split; assumption.
Qed.

Lemma run_same_registry ops s1 s2 :
  same_registry s1 s2 -> same_registry (run ops s1) (run ops s2).
Proof.
  revert s1 s2. induction ops as [| o ops IH]; intros s1 s2 Hs; [exact Hs |].
  rewrite !run_cons. apply IH, step_same_registry, Hs.
Qed.

Lemma same_registry_detail s1 s2 :
  same_registry s1 s2 ->
  detail_fragments (MEMD_Data s1) = detail_fragments (MEMD_Data s2)
  /\ summary_fragments (MEMD_Data s1) = summary_fragments (MEMD_Data s2).
Proof.
  intros (Hm & Ha & Hf & _). unfold detail_fragments, summary_fragments, leaked.
  rewrite Hm, Ha, Hf. split; reflexivity.
Qed.

Lemma snprintf_allocation_failed :
  snprintf_s 128 "Memory allocation failed" = "Memory allocation failed"%string.
Proof. reflexivity. Qed.

Lemma snprintf_max_allocations :
  snprintf_s 128 "Max allocations reached" = "Max allocations reached"%string.
Proof. reflexivity. Qed.

(** C5 as stated fails: with the warning log full, [_insert] called with
    address 0 records no warning. *)
Lemma failed_allocation_with_full_log_records_nothing :
  warning_count (MEMD_Data log_full) = 1000
  /\ _insert 0 16 3 "x.c" (MEMD_Data log_full) = MEMD_Data log_full
  /\ MEMD_Data (snd (_memd_malloc 16 3 "x.c" 0 log_full)) = MEMD_Data log_full
  /\ recorded_warnings (_insert 0 16 3 "x.c" (MEMD_Data log_full))
     <> recorded_warnings (MEMD_Data log_full)
        ++ [mkWarning "Memory allocation failed" 3 "x.c"]
  /\ ~ In (mkWarning "Memory allocation failed" 3 "x.c")
         (recorded_warnings (_insert 0 16 3 "x.c" (MEMD_Data log_full))).
Proof.
  split; [vm_compute; reflexivity |].
  assert (Hsame : _insert 0 16 3 "x.c" (MEMD_Data log_full) = MEMD_Data log_full)
    by (vm_compute; reflexivity).
  split; [exact Hsame |]. split; [vm_compute; reflexivity |]. rewrite Hsame. split.
  - intros Heq. apply (f_equal length) in Heq. rewrite length_app in Heq.
    cbn [length] in Heq. lia.
  - assert (Hall : forallb (fun w => warn_line w =? 1)
                           (recorded_warnings (MEMD_Data log_full)) = true)
      by (vm_compute; reflexivity).
    intros Hin. pose proof (proj1 (forallb_forall _ _) Hall _ Hin) as Hl.
    cbn in Hl. discriminate Hl.
Qed.

(** C5, amended.  [_insert] has three outcomes.
    - Address 0: table and totals are untouched; the warning
      ["Memory allocation failed"] is appended if the log is not full and
      dropped otherwise.
    - Nonzero address, no slot with address 0: table and totals are
      untouched; ["Max allocations reached"] is appended if the log is not
      full and dropped otherwise.  The allocating call still returns the
      heap's pointer, and from then on table, totals and Detailed Report
      evolve exactly as if the call had not been made.
    - Nonzero address, first empty slot [i]: slot [i] becomes the new record
      and [size] is added to [total_allocated_size]; nothing else changes. *)
Theorem insert_contract (st : state) (address size line : Z) (file : string) :
  data_ok (MEMD_Data st) ->
  let d := MEMD_Data st in
  let d' := _insert address size line file d in
  (address = 0 ->
     same_table d' d
     /\ (warning_count d < MEMD_MAX_WARNINGS ->
         recorded_warnings d'
         = recorded_warnings d ++ [mkWarning "Memory allocation failed" line file])
     /\ (MEMD_MAX_WARNINGS <= warning_count d -> d' = d))
  /\ (address <> 0 -> _find_by_address (mem d) 0 = None ->
     same_table d' d
     /\ (warning_count d < MEMD_MAX_WARNINGS ->
         recorded_warnings d'
         = recorded_warnings d ++ [mkWarning "Max allocations reached" line file])
     /\ (MEMD_MAX_WARNINGS <= warning_count d -> d' = d)
     /\ (_memd_ignore st <> 1 ->
         let st' := snd (_memd_malloc size line file address st) in
         fst (_memd_malloc size line file address st) = address
         /\ MEMD_Data st' = d'
         /\ forall ops,
              same_registry (run ops st') (run ops st)
              /\ detail_fragments (MEMD_Data (run ops st'))
                 = detail_fragments (MEMD_Data (run ops st))))
  /\ (address <> 0 -> forall i r, _find_by_address (mem d) 0 = Some (i, r) ->
     mem_address r = 0
     /\ mem d' = <[i := mkMem address size line file]> (mem d)
     /\ mem d' !! i = Some (mkMem address size line file)
     /\ total_allocated_size d' = wrap64 (total_allocated_size d + size)
     /\ total_free_size d' = total_free_size d
     /\ warnings d' = warnings d
     /\ warning_count d' = warning_count d).
Proof.
  intros Hok d d'. split; [| split].
  - intros ->. subst d'. unfold _insert. change (0 =? 0) with true. cbv iota.
    split; [| split].
    + unfold same_table. warn_frame. tauto.
    + intros Hlt. rewrite (WARN_recorded _ _ _ _ Hok Hlt). reflexivity.
    + intros Hfull. apply WARN_full, Hfull.
  - intros Hne Hnone.
    assert (Hd' : d' = WARN "Max allocations reached" line file d).
    { subst d'. unfold _insert. destruct (Z.eqb_spec address 0); [contradiction |].
      fold d. rewrite Hnone. reflexivity. }
    assert (Hsame : same_table d' d).
    { rewrite Hd'. unfold same_table.
      warn_frame. tauto. }
    split; [exact Hsame |]. split; [| split].
    + intros Hlt. rewrite Hd', (WARN_recorded _ _ _ _ Hok Hlt). reflexivity.
    + intros Hfull. rewrite Hd'. apply WARN_full, Hfull.
    + intros Hact st'. subst st'. unfold _memd_malloc.
      cbn [fst snd call_heap _memd_ignore MEMD_Data].
      destruct (Z.eqb_spec (_memd_ignore st) 1); [contradiction |]. cbn [negb].
      cbn [set_data MEMD_Data]. fold d. fold d'.
      split; [reflexivity |]. split; [reflexivity |]. intros ops.
      assert (Hreg : same_registry
                       (mkState d' (_memd_ignore st) (heap st ++ [real_malloc size address]))
                       st).
      { destruct Hsame as (H1 & H2 & H3). repeat split; assumption. }
      pose proof (run_same_registry ops _ _ Hreg) as Hfut.
      split; [exact Hfut | apply same_registry_detail, Hfut].
  - intros Hne i r Hf. subst d'. unfold _insert.
    destruct (Z.eqb_spec address 0); [contradiction |]. fold d. rewrite Hf.
    apply find_Some in Hf as (Hi & Hr & Hlen).
    cbn. repeat split; try reflexivity; try assumption.
    apply list_lookup_insert_eq, Hlen.
Qed.

Lemma insert_contract_witness :
  data_ok (MEMD_Data table_full)
  /\ (8192000 <> 0 /\ _find_by_address (mem (MEMD_Data table_full)) 0 = None)
  /\ warning_count (MEMD_Data table_full) < MEMD_MAX_WARNINGS
  /\ _memd_ignore table_full <> 1
  /\ mem (_insert 8192000 32 2 "more.c" (MEMD_Data table_full)) = mem (MEMD_Data table_full)
  /\ recorded_warnings (_insert 8192000 32 2 "more.c" (MEMD_Data table_full))
     = [mkWarning "Max allocations reached" 2 "more.c"]
  /\ fst (_memd_malloc 32 2 "more.c" 8192000 table_full) = 8192000
  /\ recorded_warnings (_insert 0 32 2 "more.c" (MEMD_Data initial_state))
     = [mkWarning "Memory allocation failed" 2 "more.c"]
  /\ mem (_insert 4096 32 2 "more.c" (MEMD_Data initial_state)) !! 0%nat
     = Some (mkMem 4096 32 2 "more.c").
Proof.
  assert (Hok : data_ok (MEMD_Data table_full)) by (apply run_ok, init_ok).
  assert (Hne : 8192000 <> 0) by discriminate.
  assert (Hnone : _find_by_address (mem (MEMD_Data table_full)) 0 = None)
    by (vm_compute; reflexivity).
  assert (Hlt : warning_count (MEMD_Data table_full) < MEMD_MAX_WARNINGS)
    by (vm_compute; reflexivity).
  assert (Hact : _memd_ignore table_full <> 1) by (vm_compute; discriminate).
  destruct (insert_contract table_full 8192000 32 2 "more.c" Hok) as (_ & Hfull & _).
  destruct (Hfull Hne Hnone) as ((Hmem & _ & _) & Hrec & _ & Hret).
  destruct (Hret Hact) as (Hfst & _ & _).
  destruct (insert_contract initial_state 0 32 2 "more.c" init_ok) as (Hnull & _ & _).
  destruct (Hnull eq_refl) as (_ & Hrec0 & _).
  destruct (insert_contract initial_state 4096 32 2 "more.c" init_ok) as (_ & _ & Hslot).
  assert (Hfirst : _find_by_address (mem (MEMD_Data initial_state)) 0 = Some (0%nat, zero_mem))
    by (vm_compute; reflexivity).
  destruct (Hslot ltac:(discriminate) _ _ Hfirst) as (_ & _ & Hnew & _).
  split; [exact Hok |]. split; [split; assumption |]. split; [exact Hlt |].
  split; [exact Hact |]. split; [exact Hmem |].
  split; [rewrite (Hrec Hlt); vm_compute; reflexivity |].
  split; [exact Hfst |].
  split; [rewrite (Hrec0 ltac:(reflexivity)); reflexivity |]. exact Hnew.
Defined.

(** ** The report buffer *)

Lemma string_take_all s n : (String.length s <= n)%nat -> string_take n s = s.
Proof.
  revert n. induction s as [| c s IH]; intros [| n] H; cbn in *; try reflexivity; try lia.
  rewrite IH by lia. reflexivity.
Qed.

Lemma length_append s1 s2 :
  String.length (s1 ++ s2)%string = (String.length s1 + String.length s2)%nat.
Proof. induction s1 as [| c s1 IH]; cbn; [reflexivity | rewrite IH; reflexivity]. Qed.

Lemma append_assoc s1 s2 s3 : ((s1 ++ s2) ++ s3 = s1 ++ (s2 ++ s3))%string.
Proof. induction s1 as [| c s1 IH]; cbn; [reflexivity | rewrite IH; reflexivity]. Qed.

Lemma append_empty_r s : (s ++ EmptyString)%string = s.
Proof. induction s as [| c s IH]; cbn; [reflexivity | rewrite IH; reflexivity]. Qed.

(** The doubling loop, when [target] is below 2^63: it stops at the first
    [buffer_size * 2^k] above [target], without wrap-around. *)
Lemma doubling_loop_spec fuel target b :
  0 < b -> 0 <= target < 2 ^ 63 -> target < b * 2 ^ Z.of_nat fuel ->
  exists k, doubling_loop fuel target b = Some (b * 2 ^ Z.of_nat k)
            /\ target < b * 2 ^ Z.of_nat k
            /\ (b <= target -> (0 < k)%nat /\ b * 2 ^ Z.of_nat k <= 2 * target)
            /\ (target < b -> k = 0%nat).
Proof.
  revert b. induction fuel as [| fuel IH]; intros b Hb Ht Hfuel.
  - cbn in Hfuel. exists 0%nat. cbn [doubling_loop].
    destruct (Z.geb_spec target b); [lia |]. rewrite Z.mul_1_r.
    repeat split; try lia.
  - cbn [doubling_loop]. destruct (Z.geb_spec target b) as [Hge | Hlt].
    + assert (Hw : wrap64 (b * 2) = b * 2) by (apply wrap64_small; unfold SIZE_MAX; lia).
      rewrite Hw.
      assert (Hf' : target < b * 2 * 2 ^ Z.of_nat fuel).
      { rewrite Nat2Z.inj_succ, Z.pow_succ_r in Hfuel by lia. lia. }
      destruct (IH (b * 2) ltac:(lia) Ht Hf') as (k & Hk & Hfit & Hmin & Hzero).
      exists (S k). rewrite Nat2Z.inj_succ, Z.pow_succ_r by lia.
      replace (b * (2 * 2 ^ Z.of_nat k)) with (b * 2 * 2 ^ Z.of_nat k) by lia.
      split; [exact Hk |]. split; [exact Hfit |]. split; [| lia].
      intros _. split; [lia |].
      destruct (Z_lt_le_dec target (b * 2)) as [Hsmall | Hbig].
      * rewrite (Hzero Hsmall). cbn. lia.
      * destruct (Hmin Hbig) as [_ Hle]. exact Hle.
    + exists 0%nat. rewrite Z.mul_1_r. repeat split; try lia.
Qed.

Lemma double_until_fits_spec target b :
  0 < b -> 0 <= target < 2 ^ 63 -> b <= target ->
  exists k, (0 < k)%nat
            /\ double_until_fits target b = Some (b * 2 ^ Z.of_nat k)
            /\ target < b * 2 ^ Z.of_nat k
            /\ b * 2 ^ Z.of_nat k <= 2 * target.
Proof.
  intros Hb Ht Hge. unfold double_until_fits.
  destruct (doubling_loop_spec 64 target b Hb Ht) as (k & Hk & Hfit & Hmin & _).
  - change (2 ^ Z.of_nat 64) with (2 ^ 64). nia.
  - destruct (Hmin Hge) as [Hpos Hle]. exists k. repeat split; assumption.
Qed.

(** Doubling reaches 0 after at most 64 rounds and stays there, so more
    fuel never turns a [None] of [double_until_fits] into an answer. *)
Lemma doubling_loop_zero fuel target : 0 <= target -> doubling_loop fuel target 0 = None.
Proof.
  intros Ht. induction fuel as [| fuel IH]; cbn [doubling_loop];
    destruct (Z.geb_spec target 0); try lia; [reflexivity | exact IH].
Qed.

Lemma doubling_loop_continues n m target b :
  0 <= b <= SIZE_MAX ->
  doubling_loop n target b = None ->
  doubling_loop (n + m) target b = doubling_loop m target (wrap64 (b * 2 ^ Z.of_nat n)).
Proof.
  revert b. induction n as [| n IH]; intros b Hb Hnone.
  - cbn [Nat.add]. change (2 ^ Z.of_nat 0) with 1. rewrite Z.mul_1_r, wrap64_small by exact Hb.
    reflexivity.
  - cbn [Nat.add doubling_loop] in *. destruct (target >=? b); [| discriminate].
    rewrite (IH _ (wrap64_range _) Hnone). f_equal.
    rewrite Nat2Z.inj_succ, Z.pow_succ_r by lia. unfold wrap64.
    rewrite Zmult_mod_idemp_l. f_equal. lia.
Qed.

Lemma double_until_fits_None target b extra :
  0 <= target -> 0 <= b <= SIZE_MAX ->
  double_until_fits target b = None -> doubling_loop (64 + extra) target b = None.
Proof.
  intros Ht Hb Hnone. unfold double_until_fits in Hnone.
  rewrite (doubling_loop_continues 64 extra target b Hb Hnone).
  replace (wrap64 (b * 2 ^ Z.of_nat 64)) with 0.
  - apply doubling_loop_zero, Ht.
  - unfold wrap64. change (2 ^ Z.of_nat 64) with (2 ^ 64). symmetry. apply Z_mod_mult.
Qed.

Lemma write_fragment_fits frag b :
  offset b = strlen (contents b) -> 0 <= offset b + strlen frag <= SIZE_MAX ->
  offset b + strlen frag < buffer_size b ->
  write_fragment frag b
  = mkBuf (report b) (contents b ++ frag)%string (buffer_size b) (offset b + strlen frag).
Proof.
  intros Hoff Hrange Hfit. unfold write_fragment, strlen in *. f_equal.
  - rewrite string_take_all by lia. unfold snprintf_s. rewrite string_take_all by lia.
    reflexivity.
  - destruct (Z.gtb_spec (Z.of_nat (String.length frag)) 0).
    + apply wrap64_small. exact Hrange.
    + lia.
Qed.

Lemma APPEND_TO_REPORT_spec alloc frag b h :
  buffer_ok b -> offset b + strlen frag <= INT_MAX ->
  append_spec alloc frag b h (APPEND_TO_REPORT alloc frag b h)
  /\ ((forall p s, alloc p s <> 0) ->
      exists b' h', APPEND_TO_REPORT alloc frag b h = Appended b' h').
Proof.
  intros [Hoff Hlt] Hsmall.
  assert (Hpos : 0 <= offset b /\ 0 <= strlen frag) by (unfold strlen in *; lia).
  assert (Hint : INT_MAX < 2 ^ 63) by (unfold INT_MAX; lia).
  unfold APPEND_TO_REPORT. fold (strlen frag).
  destruct (Z.gtb_spec (strlen frag) INT_MAX) as [Hbig | _]; [lia |].
  rewrite (wrap64_small (offset b + strlen frag)) by (unfold SIZE_MAX; lia).
  destruct (Z.geb_spec (offset b + strlen frag) (buffer_size b)) as [Hgrow | Hfits].
  - destruct (double_until_fits_spec (offset b + strlen frag) (buffer_size b))
      as (k & _ & Hk & Hfit & _); [lia | lia | lia |].
    rewrite Hk. set (new_size := buffer_size b * 2 ^ Z.of_nat k) in *.
    destruct (Z.eqb_spec (alloc (report b) new_size) 0) as [Hfail | Hgot].
    + split.
      * rewrite <- app_assoc. cbn [app]. rewrite Hfail. apply append_fails. exact Hfail.
      * intros Hnever. contradiction (Hnever _ _ Hfail).
    + rewrite write_fragment_fits; cbn [report contents buffer_size offset];
        [| exact Hoff | unfold SIZE_MAX; lia | exact Hfit].
      split; [| intros _; eexists; eexists; reflexivity].
      apply append_extends; [reflexivity |]. unfold buffer_ok, strlen in *.
      cbn [contents offset buffer_size]. rewrite length_append. lia.
  - rewrite write_fragment_fits; [| exact Hoff | unfold SIZE_MAX; lia | exact Hfits].
    split; [| intros _; eexists; eexists; reflexivity].
    apply append_extends; [reflexivity |]. unfold buffer_ok, strlen in *.
    cbn [contents offset buffer_size]. rewrite length_append. lia.
Qed.

Lemma append_all_ok alloc frags b h :
  buffer_ok b -> offset b + strlen (concat_fragments frags) <= INT_MAX ->
  append_all_spec frags b (append_all alloc frags b h)
  /\ ((forall p s, alloc p s <> 0) ->
      exists b' h', append_all alloc frags b h = Appended b' h').
Proof.
  revert b h. induction frags as [| frag rest IH]; intros b h Hok Hsmall.
  - cbn [append_all concat_fragments]. split; [| intros _; eexists; eexists; reflexivity].
    apply all_appended. rewrite append_empty_r. reflexivity.
  - cbn [append_all concat_fragments] in *.
    assert (Hlen : strlen (frag ++ concat_fragments rest)
                   = strlen frag + strlen (concat_fragments rest))
      by (unfold strlen; rewrite length_append; lia).
    assert (Hrest : 0 <= strlen (concat_fragments rest)) by (unfold strlen; lia).
    destruct (APPEND_TO_REPORT_spec alloc frag b h Hok ltac:(lia)) as [Hspec Hnever].
    destruct Hspec as [b' h' Hc Hok' | new_size Hfail].
    + assert (Hoff' : offset b' = offset b + strlen frag).
      { destruct Hok as [Ho _]. destruct Hok' as [Ho' _]. rewrite Ho', Ho, Hc.
        unfold strlen. rewrite length_append. lia. }
      destruct (IH b' h' Hok' ltac:(lia)) as [Hall Hnever'].
      split; [| exact Hnever'].
      destruct Hall as [b'' h'' Hc'' | h0 p s].
      * apply all_appended. rewrite Hc'', Hc. apply append_assoc.
      * apply some_append_failed.
    + split; [apply some_append_failed |].
      intros Hn. contradiction (Hn _ _ Hfail).
Qed.

Lemma initial_buffer_ok ptr : buffer_ok (mkBuf ptr EmptyString initial_buffer_size 0).
Proof. unfold buffer_ok, strlen, initial_buffer_size. cbn. lia. Qed.

(** With a report that stays below 2 GiB [memd_report] never hangs: it
    returns the text unless one of its allocations fails. *)
Lemma memd_report_outcome alloc d :
  report_size d <= INT_MAX ->
  alloc 0 initial_buffer_size <> 0 ->
  ((exists p h, memd_report alloc d
                = (ReportText p (concat_fragments (report_fragments d)), h))
   \/ (exists h0 ptr new_size,
         memd_report alloc d
         = (ReportNull, h0 ++ [real_realloc ptr new_size 0; real_free ptr])))
  /\ ((forall p s, alloc p s <> 0) ->
      exists p h, memd_report alloc d
                  = (ReportText p (concat_fragments (report_fragments d)), h)).
Proof.
  intros Hsize Hinit. unfold memd_report.
  destruct (Z.eqb_spec (alloc 0 initial_buffer_size) 0) as [H0 | _]; [contradiction |].
  destruct (append_all_ok alloc (report_fragments d)
              (mkBuf (alloc 0 initial_buffer_size) EmptyString initial_buffer_size 0)
              [real_malloc initial_buffer_size (alloc 0 initial_buffer_size)]
              (initial_buffer_ok _) Hsize) as [Hspec Hnever].
  split.
  - destruct Hspec as [b' h' Hc | h0 p s].
    + left. exists (report b'), h'. rewrite Hc. reflexivity.
    + right. exists h0, p, s. reflexivity.
  - intros Hn. destruct (Hnever Hn) as (b' & h' & Heq). rewrite Heq in Hspec |- *.
    inversion Hspec as [b'' h'' Hc Hb |]; subst. exists (report b'), h'.
    rewrite Hc. reflexivity.
Qed.

(** C9.  When a fragment of [needed] characters does not fit
    ([offset + needed >= buffer_size]), [buffer_size] is doubled [k >= 1]
    times, up to the first doubling that exceeds [offset + needed], and the
    real [realloc] is asked for that size; if it answers NULL the old buffer
    is freed and the report is abandoned, otherwise the fragment is appended
    in the new buffer.  If the initial [malloc] fails [memd_report] returns
    NULL at once (there is no buffer to free); otherwise it returns either
    the complete text or NULL right after a failed [realloc] followed by the
    [free] of the buffer that could not be grown. *)
Theorem report_buffer_growth (alloc : Z -> Z -> Z) (d : MEMD_Data_t)
    (frag : string) (b : report_buffer) (h : list heap_call) :
  (buffer_ok b -> strlen frag <= INT_MAX -> offset b + strlen frag < 2 ^ 63 ->
   buffer_size b <= offset b + strlen frag ->
   exists k : nat,
     (0 < k)%nat
     /\ offset b + strlen frag < buffer_size b * 2 ^ Z.of_nat k
     /\ buffer_size b * 2 ^ Z.of_nat k <= 2 * (offset b + strlen frag)
     /\ APPEND_TO_REPORT alloc frag b h
        = let new_size := buffer_size b * 2 ^ Z.of_nat k in
          let temp := alloc (report b) new_size in
          if temp =? 0
          then ReturnedNull (h ++ [real_realloc (report b) new_size 0; real_free (report b)])
          else Appended (mkBuf temp (contents b ++ frag)%string new_size
                               (offset b + strlen frag))
                        (h ++ [real_realloc (report b) new_size temp]))
  /\ (alloc 0 initial_buffer_size = 0 ->
      memd_report alloc d = (ReportNull, [real_malloc initial_buffer_size 0]))
  /\ (report_size d <= INT_MAX -> alloc 0 initial_buffer_size <> 0 ->
      (exists p h', memd_report alloc d
                    = (ReportText p (concat_fragments (report_fragments d)), h'))
      \/ (exists h0 ptr new_size,
            memd_report alloc d
            = (ReportNull, h0 ++ [real_realloc ptr new_size 0; real_free ptr]))).
Proof.
  split; [| split].
  - intros [Hoff Hlt] Hint Hsmall Hgrow.
    assert (Hpos : 0 <= offset b /\ 0 <= strlen frag) by (unfold strlen in *; lia).
    destruct (double_until_fits_spec (offset b + strlen frag) (buffer_size b))
      as (k & Hk & Hloop & Hfit & Hmin); [lia | lia | lia |].
    exists k. split; [exact Hk |]. split; [exact Hfit |]. split; [exact Hmin |].
    unfold APPEND_TO_REPORT. fold (strlen frag).
    destruct (Z.gtb_spec (strlen frag) INT_MAX) as [Hbig | _]; [lia |].
    rewrite (wrap64_small (offset b + strlen frag)) by (unfold SIZE_MAX; lia).
    destruct (Z.geb_spec (offset b + strlen frag) (buffer_size b)) as [_ | Hno]; [| lia].
    rewrite Hloop. cbn zeta.
    destruct (Z.eqb_spec (alloc (report b) (buffer_size b * 2 ^ Z.of_nat k)) 0)
      as [Hfail | Hgot].
    + rewrite <- app_assoc. cbn [app]. rewrite Hfail. reflexivity.
    + rewrite write_fragment_fits; cbn [report contents buffer_size offset];
        [reflexivity | exact Hoff | unfold SIZE_MAX; lia | exact Hfit].
  - intros Hfail. unfold memd_report. rewrite Hfail. reflexivity.
  - intros Hsize Hinit.
    exact (proj1 (memd_report_outcome alloc d Hsize Hinit)).
Qed.

Lemma report_buffer_growth_witness :
  buffer_ok (mkBuf 4096 "0123456789" 16 10)
  /\ strlen "0123456789" <= INT_MAX
  /\ 10 + strlen "0123456789" < 2 ^ 63
  /\ 16 <= 10 + strlen "0123456789"
  /\ (exists k : nat,
        (0 < k)%nat
        /\ 20 < 16 * 2 ^ Z.of_nat k
        /\ 16 * 2 ^ Z.of_nat k <= 2 * 20
        /\ APPEND_TO_REPORT generous_heap "0123456789" (mkBuf 4096 "0123456789" 16 10) []
           = Appended (mkBuf 8192 "01234567890123456789" (16 * 2 ^ Z.of_nat k) 20)
                      [real_realloc 4096 (16 * 2 ^ Z.of_nat k) 8192])
  /\ small_heap 0 initial_buffer_size <> 0
  /\ report_size (MEMD_Data table_full) <= INT_MAX
  /\ (exists h0 ptr new_size,
        memd_report small_heap (MEMD_Data table_full)
        = (ReportNull, h0 ++ [real_realloc ptr new_size 0; real_free ptr])).
Proof.
  assert (Hb : buffer_ok (mkBuf 4096 "0123456789" 16 10)) by (vm_compute; split; reflexivity).
  assert (Hi : strlen "0123456789" <= INT_MAX) by (vm_compute; discriminate).
  assert (Hs : 10 + strlen "0123456789" < 2 ^ 63) by (vm_compute; reflexivity).
  assert (Hg : 16 <= 10 + strlen "0123456789") by (vm_compute; discriminate).
  assert (Hsize : report_size (MEMD_Data table_full) <= INT_MAX) by (vm_compute; discriminate).
  assert (Hinit : small_heap 0 initial_buffer_size <> 0) by (vm_compute; discriminate).
  destruct (report_buffer_growth generous_heap (MEMD_Data table_full) "0123456789"
              (mkBuf 4096 "0123456789" 16 10) []) as (Hgrow & _ & _).
  destruct (report_buffer_growth small_heap (MEMD_Data table_full) "0123456789"
              (mkBuf 4096 "0123456789" 16 10) []) as (_ & _ & Hrep).
  split; [exact Hb |]. split; [exact Hi |]. split; [exact Hs |]. split; [exact Hg |].
  split; [exact (Hgrow Hb Hi Hs Hg) |]. split; [exact Hinit |]. split; [exact Hsize |].
  destruct (Hrep Hsize Hinit) as [(p & h' & Htext) | Hnull]; [| exact Hnull].
  exfalso. assert (Hfst : fst (memd_report small_heap (MEMD_Data table_full)) = ReportNull)
    by (vm_compute; reflexivity).
  rewrite Htext in Hfst. discriminate Hfst.
Defined.

(** ** The layout of the report *)

Lemma index_loop_nil {A B : Type} (f : A -> list B) (s n : nat) :
  flat_map (fun i => match (@nil A) !! i with Some x => f x | None => [] end) (seq s n) = [].
Proof.
  revert s. induction n as [| n IH]; intros s; [reflexivity |].
  cbn [seq flat_map]. rewrite IH. reflexivity.
Qed.

Lemma index_loop_take {A B : Type} (f : A -> list B) (l : list A) (n : nat) :
  flat_map (fun i => match l !! i with Some x => f x | None => [] end) (seq 0 n)
  = flat_map f (take n l).
Proof.
  revert l. induction n as [| n IH]; intros l; [reflexivity |].
  destruct l as [| x l].
  - rewrite index_loop_nil. reflexivity.
  - cbn [seq flat_map take]. rewrite <- (IH l). cbn [lookup list_lookup]. f_equal.
    rewrite <- seq_shift, flat_map_concat_map, map_map, <- flat_map_concat_map.
    reflexivity.
Qed.

Lemma detail_loop_filter (m : list MEMD_Mem) :
  length m = MEMD_MAX_ALLOCATIONS ->
  detail_loop m = map leak_line (filter (fun r => mem_address r <> 0) m).
Proof.
  intros Hlen. unfold detail_loop.
  rewrite (index_loop_take (fun r => if mem_address r =? 0 then [] else [leak_line r])).
  rewrite firstn_all2 by lia. clear Hlen.
  induction m as [| r m IH]; [reflexivity |].
  cbn [flat_map]. rewrite IH, filter_cons.
  destruct (Z.eqb_spec (mem_address r) 0) as [H0 | Hne].
  - destruct (decide (mem_address r <> 0)); [contradiction | reflexivity].
  - destruct (decide (mem_address r <> 0)); [reflexivity | contradiction].
Qed.

Lemma warning_loop_recorded (d : MEMD_Data_t) :
  data_ok d -> warning_loop d = map warning_line (recorded_warnings d).
Proof.
  intros _. unfold warning_loop, recorded_warnings.
  rewrite (index_loop_take (fun w => [warning_line w])).
  induction (take _ _) as [| w ws IH]; [reflexivity |].
  cbn [flat_map map app]. rewrite IH. reflexivity.
Qed.

Lemma leaked_zero d :
  0 <= total_allocated_size d <= SIZE_MAX -> 0 <= total_free_size d <= SIZE_MAX ->
  (leaked d =? 0) = (total_free_size d =? total_allocated_size d).
Proof.
  intros Ha Hf. unfold leaked, wrap64, SIZE_MAX in *.
  destruct (Z.eqb_spec (total_free_size d) (total_allocated_size d)) as [-> | Hne].
  - rewrite Z.sub_diag. reflexivity.
  - apply Z.eqb_neq. intros H0.
    apply Z.mod_divide in H0; [| lia]. destruct H0 as [q Hq]. nia.
Qed.

Lemma report_fragments_layout d :
  data_ok d ->
  0 <= total_allocated_size d <= SIZE_MAX -> 0 <= total_free_size d <= SIZE_MAX ->
  report_fragments d = report_layout d.
Proof.
  intros Hok Ha Hf. unfold report_fragments, report_layout. f_equal. f_equal.
  - unfold detail_fragments. rewrite (leaked_zero d Ha Hf).
    destruct (_ =? _); [reflexivity |].
    rewrite detail_loop_filter by (destruct Hok as [Hm _]; exact Hm). reflexivity.
  - f_equal. unfold warning_fragments. rewrite (warning_loop_recorded d Hok).
    destruct Hok as (_ & Hlen & Hc). unfold recorded_warnings.
    destruct (Z.gtb_spec (warning_count d) 0) as [Hpos | Hzero].
    + destruct (take _ _) as [| w ws] eqn:Ht; [| reflexivity].
      apply (f_equal length) in Ht. rewrite length_take in Ht. cbn in Ht.
      unfold MEMD_MAX_WARNINGS in *. lia.
    + replace (Z.to_nat (warning_count d)) with 0%nat by lia. reflexivity.
Qed.

(** *** Scenario: one block, released twice *)

Lemma double_release_data ptr line1 :
  ptr <> 0 ->
  MEMD_Data (run (double_release ptr line1) initial_state) = after_double_release.
Proof.
  intros Hne. unfold double_release, run. cbn [foldl step].
  set (rest := replicate (Nat.pred MEMD_MAX_ALLOCATIONS) zero_mem).
  rewrite (malloc_into_head 100 8 "main.c" ptr initial_state zero_mem rest
             eq_refl eq_refl eq_refl Hne).
  erewrite (free_from_head ptr line1 "main.c");
    [| reflexivity | reflexivity | reflexivity | exact Hne].
  unfold _memd_free, _erase. cbn [_memd_ignore MEMD_Data mem mem_size mem_line mem_file].
  change (negb (0 =? 1)) with true. cbv iota.
  destruct (Z.eqb_spec ptr 0); [contradiction |].
  pose proof (find_absent ptr (mkMem 0 100 8 "main.c")
                (Nat.pred MEMD_MAX_ALLOCATIONS) Hne eq_refl) as Habsent.
  fold rest in Habsent. rewrite Habsent. reflexivity.
Qed.

Lemma after_double_release_ok :
  data_ok after_double_release
  /\ 0 <= total_allocated_size after_double_release <= SIZE_MAX
  /\ 0 <= total_free_size after_double_release <= SIZE_MAX
  /\ report_size after_double_release <= INT_MAX.
Proof.
  split; [| split; [| split]].
  - unfold data_ok. split; [reflexivity |]. split; [reflexivity |].
    cbn [after_double_release warning_count]. unfold MEMD_MAX_WARNINGS. lia.
  - cbn. unfold SIZE_MAX. lia.
  - cbn. unfold SIZE_MAX. lia.
  - vm_compute. discriminate.
Qed.

(** C8.  For well-formed [MEMD_Data] and a report below 2 GiB, the
    fragments [memd_report] appends are: the summary; then, exactly when the
    leak figure is nonzero, the Detailed Report title and one line per
    record with a nonzero address, in slot order; then, exactly when at
    least one warning was recorded, the Warnings title and one line per
    warning in recording order; then the footer.  Whatever text
    [memd_report] returns is their concatenation, and it does return it when
    no allocation fails.  For allocate 100 at main.c:8, release, release
    again at main.c:9 the text reads 100 allocated, 100 freed, 0 leaked, has
    no Detailed Report section and exactly one warning line,
    [main.c:9: Double free detected]. *)
Theorem report_sections (alloc : Z -> Z -> Z) (d : MEMD_Data_t) :
  data_ok d ->
  0 <= total_allocated_size d <= SIZE_MAX ->
  0 <= total_free_size d <= SIZE_MAX ->
  report_size d <= INT_MAX ->
  report_fragments d = report_layout d
  /\ (forall p text h,
        memd_report alloc d = (ReportText p text, h) ->
        text = concat_fragments (report_layout d))
  /\ ((forall p s, alloc p s <> 0) ->
      exists p h, memd_report alloc d = (ReportText p (concat_fragments (report_layout d)), h))
  /\ (forall ptr line1, ptr <> 0 ->
        let dA := MEMD_Data (run (double_release ptr line1) initial_state) in
        total_allocated_size dA = 100
        /\ total_free_size dA = 100
        /\ leaked dA = 0
        /\ detail_fragments dA = []
        /\ recorded_warnings dA = [mkWarning "Double free detected" 9 "main.c"]
        /\ concat_fragments (report_layout dA) = double_release_report
        /\ ((forall p s, alloc p s <> 0) ->
            exists p h, memd_report alloc dA = (ReportText p double_release_report, h))).
Proof.
  intros Hok Ha Hf Hsize.
  pose proof (report_fragments_layout d Hok Ha Hf) as Hlay.
  split; [exact Hlay |]. split; [| split].
  - intros p text h Heq.
    destruct (Z.eq_dec (alloc 0 initial_buffer_size) 0) as [H0 | Hinit].
    + unfold memd_report in Heq. rewrite H0 in Heq. discriminate Heq.
    + destruct (proj1 (memd_report_outcome alloc d Hsize Hinit))
        as [(p' & h' & Ht) | (h0 & q & s & Hn)].
      * rewrite <- Hlay. congruence.
      * rewrite Hn in Heq. discriminate Heq.
  - intros Hnever. rewrite <- Hlay.
    exact (proj2 (memd_report_outcome alloc d Hsize (Hnever _ _)) Hnever).
  - intros ptr line1 Hne dA. subst dA. rewrite (double_release_data ptr line1 Hne).
    destruct after_double_release_ok as (HokA & HaA & HfA & HsizeA).
    assert (Htext : concat_fragments (report_layout after_double_release)
                    = double_release_report) by (vm_compute; reflexivity).
    repeat split; try reflexivity; try exact Htext.
    intros Hnever. rewrite <- Htext, <- (report_fragments_layout _ HokA HaA HfA).
    exact (proj2 (memd_report_outcome alloc _ HsizeA (Hnever _ _)) Hnever).
Qed.

Lemma generous_heap_never_fails p s : generous_heap p s <> 0.
Proof. unfold generous_heap. lia. Qed.

Lemma report_sections_witness :
  data_ok after_double_release
  /\ 0 <= total_allocated_size after_double_release <= SIZE_MAX
  /\ 0 <= total_free_size after_double_release <= SIZE_MAX
  /\ report_size after_double_release <= INT_MAX
  /\ 4096 <> 0
  /\ (forall p s, generous_heap p s <> 0)
  /\ report_fragments after_double_release = report_layout after_double_release
  /\ total_allocated_size (MEMD_Data (run (double_release 4096 8) initial_state)) = 100
  /\ detail_fragments (MEMD_Data (run (double_release 4096 8) initial_state)) = []
  /\ (exists p h, memd_report generous_heap
                    (MEMD_Data (run (double_release 4096 8) initial_state))
                  = (ReportText p double_release_report, h)).
Proof.
  destruct after_double_release_ok as (Hok & Ha & Hf & Hsize).
  destruct (report_sections generous_heap after_double_release Hok Ha Hf Hsize)
    as (Hlay & _ & _ & Hscen).
  destruct (Hscen 4096 8 ltac:(discriminate)) as (Hta & _ & _ & Hdet & _ & _ & Hrep).
  split; [exact Hok |]. split; [exact Ha |]. split; [exact Hf |]. split; [exact Hsize |].
  split; [discriminate |].
  split; [exact generous_heap_never_fails |].
  split; [exact Hlay |]. split; [exact Hta |]. split; [exact Hdet |].
  exact (Hrep generous_heap_never_fails).
Defined.

(** ** Resizing *)

(** C6.  [_memd_realloc] with a NULL pointer is [_memd_malloc]; with a
    non-NULL pointer and size 0 it is [_memd_free] and returns NULL;
    otherwise it calls the real [realloc] and returns what that returned.
    If that is non-NULL and tracking is active, [MEMD_Data] becomes the
    result of [_erase] on the old address followed by [_insert] of the new
    address and size: for a tracked block the old slot is zeroed, the new
    record is stored in the first empty slot and both totals grow.  If the
    real [realloc] returns NULL, [MEMD_Data] is unchanged and the block is
    still found under its old address. *)
Theorem realloc_cases (st : state) (ptr size line : Z) (file : string) (ret : Z) :
  let d := MEMD_Data st in
  let r := _memd_realloc ptr size line file ret st in
  (ptr = 0 -> r = _memd_malloc size line file ret st)
  /\ (ptr <> 0 -> size = 0 -> r = (0, _memd_free ptr line file st))
  /\ (ptr <> 0 -> size <> 0 ->
      fst r = ret
      /\ heap (snd r) = heap st ++ [real_realloc ptr size ret]
      /\ (ret <> 0 -> _memd_ignore st <> 1 ->
          MEMD_Data (snd r) = _insert ret size line file (snd (_erase ptr line file d))
          /\ forall i old, _find_by_address (mem d) ptr = Some (i, old) ->
             exists j,
               mem (MEMD_Data (snd r))
               = <[j := mkMem ret size line file]>
                   (<[i := mkMem 0 (mem_size old) (mem_line old) (mem_file old)]> (mem d))
               /\ mem (MEMD_Data (snd r)) !! j = Some (mkMem ret size line file)
               /\ total_free_size (MEMD_Data (snd r))
                  = wrap64 (total_free_size d + mem_size old)
               /\ total_allocated_size (MEMD_Data (snd r))
                  = wrap64 (total_allocated_size d + size)
               /\ warnings (MEMD_Data (snd r)) = warnings d
               /\ warning_count (MEMD_Data (snd r)) = warning_count d)
      /\ (ret = 0 ->
          MEMD_Data (snd r) = d
          /\ forall i old, _find_by_address (mem d) ptr = Some (i, old) ->
               _find_by_address (mem (MEMD_Data (snd r))) ptr = Some (i, old))).
Proof.
  intros d r. subst r. unfold _memd_realloc. split; [| split].
  - intros ->. reflexivity.
  - intros Hp ->. destruct (Z.eqb_spec ptr 0); [contradiction | reflexivity].
  - intros Hp Hs. destruct (Z.eqb_spec ptr 0); [contradiction |].
    destruct (Z.eqb_spec size 0); [contradiction |].
    cbn [fst snd call_heap _memd_ignore MEMD_Data]. fold d.
    split; [reflexivity |]. split; [| split].
    + destruct (_ && _); reflexivity.
    + intros Hret Hact.
      destruct (Z.eqb_spec ret 0); [contradiction |].
      destruct (Z.eqb_spec (_memd_ignore st) 1); [contradiction |].
      cbn [negb andb set_data MEMD_Data]. split; [reflexivity |].
      intros i old Hfind. unfold _erase.
      destruct (Z.eqb_spec ptr 0); [contradiction |]. rewrite Hfind. cbn [snd].
      apply find_Some in Hfind as (Hi & Hold & Hlen).
      set (m1 := <[i := mkMem 0 (mem_size old) (mem_line old) (mem_file old)]> (mem d)).
      assert (Hm1 : m1 !! i = Some (mkMem 0 (mem_size old) (mem_line old) (mem_file old)))
        by (apply list_lookup_insert_eq; exact Hlen).
      destruct (find_present m1 i _ 0 Hm1 eq_refl) as (j & rj & Hj & _).
      unfold _insert. destruct (Z.eqb_spec ret 0); [contradiction |].
      unfold set_total_free_size, set_mem.
      cbn [mem total_allocated_size total_free_size warnings warning_count].
      fold m1. rewrite Hj. exists j. cbn.
      apply find_Some in Hj as (_ & _ & Hjlen).
      repeat split; try reflexivity. apply list_lookup_insert_eq. exact Hjlen.
    + intros ->. change (negb (0 =? 0)) with false. cbn [andb].
      split; [reflexivity |]. intros i old Hfind. exact Hfind.
Qed.

Lemma realloc_cases_witness :
  (4096 <> 0 /\ 200 <> 0 /\ 8192 <> 0 /\ _memd_ignore one_block <> 1)
  /\ fst (_memd_realloc 4096 200 9 "r.c" 8192 one_block) = 8192
  /\ MEMD_Data (snd (_memd_realloc 4096 200 9 "r.c" 8192 one_block))
     = _insert 8192 200 9 "r.c" (snd (_erase 4096 9 "r.c" (MEMD_Data one_block)))
  /\ mem (MEMD_Data (snd (_memd_realloc 4096 200 9 "r.c" 8192 one_block))) !! 0%nat
     = Some (mkMem 8192 200 9 "r.c")
  /\ MEMD_Data (snd (_memd_realloc 4096 200 9 "r.c" 0 one_block)) = MEMD_Data one_block
  /\ _memd_realloc 0 200 9 "r.c" 8192 one_block = _memd_malloc 200 9 "r.c" 8192 one_block
  /\ _memd_realloc 4096 0 9 "r.c" 0 one_block = (0, _memd_free 4096 9 "r.c" one_block).
Proof.
  assert (Hp : 4096 <> 0) by discriminate.
  assert (Hs : 200 <> 0) by discriminate.
  assert (Hr : 8192 <> 0) by discriminate.
  assert (Hact : _memd_ignore one_block <> 1) by (vm_compute; discriminate).
  destruct (realloc_cases one_block 4096 200 9 "r.c" 8192) as (_ & _ & Hreal).
  destruct (Hreal Hp Hs) as (Hfst & _ & Hok & _).
  destruct (Hok Hr Hact) as (Hdata & _).
  destruct (realloc_cases one_block 4096 200 9 "r.c" 0) as (_ & _ & Hreal0).
  destruct (Hreal0 Hp Hs) as (_ & _ & _ & Hfail).
  destruct (Hfail eq_refl) as (Hsame & _).
  destruct (realloc_cases one_block 0 200 9 "r.c" 8192) as (Hnull & _ & _).
  destruct (realloc_cases one_block 4096 0 9 "r.c" 0) as (_ & Hzero & _).
  split; [repeat split; assumption |]. split; [exact Hfst |]. split; [exact Hdata |].
  split; [rewrite Hdata; vm_compute; reflexivity |]. split; [exact Hsame |].
  split; [exact (Hnull eq_refl) | exact (Hzero Hp eq_refl)].
Defined.

(** ** Failed allocations *)

(** C7 as stated fails for zero-allocate: [_memd_calloc] calls [_insert]
    only for a non-NULL result, so a failed [calloc] records no warning. *)
Lemma failed_calloc_records_nothing :
  _memd_ignore initial_state <> 1
  /\ fst (_memd_calloc 4 8 3 "z.c" 0 initial_state) = 0
  /\ recorded_warnings (MEMD_Data (snd (_memd_calloc 4 8 3 "z.c" 0 initial_state))) = []
  /\ recorded_warnings (MEMD_Data (snd (_memd_calloc 4 8 3 "z.c" 0 initial_state)))
     <> recorded_warnings (MEMD_Data initial_state)
        ++ [mkWarning "Memory allocation failed" 3 "z.c"]
  /\ MEMD_Data (snd (_memd_calloc 4 8 3 "z.c" 0 initial_state)) = MEMD_Data initial_state.
Proof.
  split; [discriminate |]. split; [reflexivity |]. split; [reflexivity |].
  split; [discriminate | reflexivity].
Qed.

(** C7, amended.  With tracking active and the real allocator returning
    NULL: [_memd_malloc] leaves table and totals untouched and passes
    ["Memory allocation failed"] to the warning log (appended if the log
    holds fewer than [MEMD_MAX_WARNINGS] entries, dropped otherwise);
    [_memd_calloc] leaves the whole of [MEMD_Data] untouched, recording no
    warning. *)
Theorem failed_allocation_tracking (st : state) (num size line : Z) (file : string) :
  data_ok (MEMD_Data st) ->
  _memd_ignore st <> 1 ->
  let d := MEMD_Data st in
  let dm := MEMD_Data (snd (_memd_malloc size line file 0 st)) in
  let dc := MEMD_Data (snd (_memd_calloc num size line file 0 st)) in
  same_table dm d
  /\ (warning_count d < MEMD_MAX_WARNINGS ->
      recorded_warnings dm
      = recorded_warnings d ++ [mkWarning "Memory allocation failed" line file])
  /\ (MEMD_MAX_WARNINGS <= warning_count d -> dm = d)
  /\ dc = d.
Proof.
  intros Hok Hact d dm dc. subst dm dc.
  unfold _memd_malloc, _memd_calloc. cbn [snd call_heap _memd_ignore MEMD_Data].
  destruct (Z.eqb_spec (_memd_ignore st) 1); [contradiction |].
  change (negb (0 =? 0)) with false. cbn [negb andb set_data MEMD_Data]. fold d.
  unfold _insert. change (0 =? 0) with true. cbv iota.
  split; [| split; [| split]].
  - unfold same_table. warn_frame. tauto.
  - intros Hlt. rewrite (WARN_recorded _ _ _ _ Hok Hlt). reflexivity.
  - intros Hfull. apply WARN_full, Hfull.
  - reflexivity.
Qed.

Lemma failed_allocation_tracking_witness :
  data_ok (MEMD_Data initial_state)
  /\ _memd_ignore initial_state <> 1
  /\ warning_count (MEMD_Data initial_state) < MEMD_MAX_WARNINGS
  /\ recorded_warnings (MEMD_Data (snd (_memd_malloc 32 3 "z.c" 0 initial_state)))
     = [mkWarning "Memory allocation failed" 3 "z.c"]
  /\ MEMD_Data (snd (_memd_calloc 4 8 3 "z.c" 0 initial_state)) = MEMD_Data initial_state.
Proof.
  assert (Hact : _memd_ignore initial_state <> 1) by discriminate.
  assert (Hlt : warning_count (MEMD_Data initial_state) < MEMD_MAX_WARNINGS) by reflexivity.
  destruct (failed_allocation_tracking initial_state 4 32 3 "z.c" init_ok Hact)
    as (_ & Hrec & _ & _).
  destruct (failed_allocation_tracking initial_state 4 8 3 "z.c" init_ok Hact)
    as (_ & _ & _ & Hcalloc).
  split; [exact init_ok |]. split; [exact Hact |]. split; [exact Hlt |].
  split; [exact (Hrec Hlt) | exact Hcalloc].
Defined.


(** * Further properties of the header *)

(** ** Counting lemmas *)

Lemma count_where_app {A : Type} (f : A -> bool) (l1 l2 : list A) :
  count_where f (l1 ++ l2) = (count_where f l1 + count_where f l2)%nat.
Proof. induction l1 as [| x l1 IH]; cbn; [reflexivity | rewrite IH; lia]. Qed.

Lemma count_where_insert {A : Type} (f : A -> bool) (l : list A) i x y :
  l !! i = Some x ->
  (count_where f (<[i := y]> l) + (if f x then 1 else 0)
   = count_where f l + (if f y then 1 else 0))%nat.
Proof.
  revert i. induction l as [| z l IH]; intros [| i] H; try discriminate.
  - cbn in H. injection H as ->. cbn. lia.
  - change (count_where f (<[S i := y]> (z :: l)))
      with ((if f z then 1 else 0) + count_where f (<[i := y]> l))%nat.
    cbn in H. pose proof (IH i H). cbn [count_where]. lia.
Qed.

Lemma count_where_le_length {A : Type} (f : A -> bool) (l : list A) :
  (count_where f l <= length l)%nat.
Proof. induction l as [| x l IH]; cbn; [lia | destruct (f x); lia]. Qed.

Lemma count_where_zero {A : Type} (f : A -> bool) (l : list A) :
  count_where f l = 0%nat <-> Forall (fun x => f x = false) l.
Proof.
  induction l as [| x l IH]; cbn.
  - split; [constructor | reflexivity].
  - rewrite Forall_cons. destruct (f x); split.
    + lia.
    + intros [Hx _]. discriminate Hx.
    + intros H. split; [reflexivity | apply IH; lia].
    + intros [_ H]. apply IH in H. lia.
Qed.

Lemma count_where_full {A : Type} (f : A -> bool) (l : list A) :
  count_where f l = length l <-> Forall (fun x => f x = true) l.
Proof.
  induction l as [| x l IH]; cbn.
  - split; [constructor | reflexivity].
  - rewrite Forall_cons. pose proof (count_where_le_length f l) as Hle.
    destruct (f x); split.
    + intros H. split; [reflexivity | apply IH; lia].
    + intros [_ H]. apply IH in H. lia.
    + lia.
    + intros [Hx _]. discriminate Hx.
Qed.

Lemma live_count_zero p m : live_count p m = 0%nat <-> _find_by_address m p = None.
Proof.
  unfold live_count. rewrite count_where_zero, find_None. apply Forall_proper; [| reflexivity].
  intros r. split.
  - intros H. apply Z.eqb_neq. exact H.
  - intros H. apply Z.eqb_neq. exact H.
Qed.

(** ** Relations kept by every call *)

Section DataRelation.

Variable R : MEMD_Data_t -> MEMD_Data_t -> Prop.
Hypothesis R_refl : forall d, R d d.
Hypothesis R_trans : forall d1 d2 d3, R d1 d2 -> R d2 d3 -> R d1 d3.
Hypothesis R_insert :
  forall address size line file d, data_ok d -> R d (_insert address size line file d).
Hypothesis R_erase :
  forall address line file d, data_ok d -> R d (snd (_erase address line file d)).

Lemma free_related ptr line file st :
  data_ok (MEMD_Data st) -> R (MEMD_Data st) (MEMD_Data (_memd_free ptr line file st)).
Proof.
  intros Hok. unfold _memd_free. destruct (negb _); [| apply R_refl].
  pose proof (R_erase ptr line file _ Hok) as He.
  destruct (_erase ptr line file (MEMD_Data st)) as [rc d]. cbn [snd] in He.
  destruct (rc =? 0); exact He.
Qed.

Lemma malloc_related size line file ret st :
  data_ok (MEMD_Data st) ->
  R (MEMD_Data st) (MEMD_Data (snd (_memd_malloc size line file ret st))).
Proof.
  intros Hok. unfold _memd_malloc. cbn [snd call_heap _memd_ignore MEMD_Data].
  destruct (negb _); [apply R_insert, Hok | apply R_refl].
Qed.

Lemma step_related o st :
  data_ok (MEMD_Data st) -> R (MEMD_Data st) (MEMD_Data (step o st)).
Proof.
  intros Hok.
  destruct o as [size line file ret | num size line file ret | ptr line file
                | ptr size line file ret | |]; cbn [step]; try apply R_refl.
  - apply malloc_related, Hok.
  - unfold _memd_calloc. cbn [snd call_heap _memd_ignore MEMD_Data].
    destruct (negb _ && _); [apply R_insert, Hok | apply R_refl].
  - apply free_related, Hok.
  - unfold _memd_realloc. destruct (ptr =? 0); [apply malloc_related, Hok |].
    destruct (size =? 0); [apply free_related, Hok |].
    cbn [snd call_heap _memd_ignore MEMD_Data].
    destruct (negb _ && negb _); [| apply R_refl]. cbn [set_data MEMD_Data].
    eapply R_trans; [apply R_erase, Hok | apply R_insert, erase_ok, Hok].
Qed.

Lemma run_related ops st :
  data_ok (MEMD_Data st) -> R (MEMD_Data st) (MEMD_Data (run ops st)).
Proof.
  revert st. induction ops as [| o ops IH]; intros st Hok; [apply R_refl |].
  rewrite run_cons. eapply R_trans; [apply step_related, Hok |].
  apply IH, step_ok, Hok.
Qed.

End DataRelation.

(** ** The warning log *)

Lemma log_extends_refl d : log_extends d d.
Proof. exists []. rewrite app_nil_r. reflexivity. Qed.

Lemma log_extends_trans d1 d2 d3 : log_extends d1 d2 -> log_extends d2 d3 -> log_extends d1 d3.
Proof.
  intros [n1 H1] [n2 H2]. exists (n1 ++ n2). rewrite H2, H1, app_assoc. reflexivity.
Qed.

Lemma log_extends_WARN msg line file d : data_ok d -> log_extends d (WARN msg line file d).
Proof.
  intros Hok. destruct (Z_lt_le_dec (warning_count d) MEMD_MAX_WARNINGS) as [Hlt | Hfull].
  - eexists. apply WARN_recorded; assumption.
  - rewrite WARN_full by exact Hfull. apply log_extends_refl.
Qed.

Lemma log_extends_insert address size line file d :
  data_ok d -> log_extends d (_insert address size line file d).
Proof.
  intros Hok. destruct (insert_inv address size line file d) as [msg -> _ | i r _ _ ->].
  - apply log_extends_WARN, Hok.
  - exists []. rewrite app_nil_r. reflexivity.
Qed.

Lemma log_extends_erase address line file d :
  data_ok d -> log_extends d (snd (_erase address line file d)).
Proof.
  intros Hok. destruct (erase_inv address line file d) as [msg _ | i r _ _]; cbn [snd].
  - apply log_extends_WARN, Hok.
  - exists []. rewrite app_nil_r. reflexivity.
Qed.

Lemma recorded_length d :
  data_ok d -> length (recorded_warnings d) = Z.to_nat (warning_count d).
Proof.
  intros (_ & Hlen & Hc). unfold recorded_warnings. rewrite length_take, Hlen.
  unfold MEMD_MAX_WARNINGS in *. lia.
Qed.

(** X1.  The warning log is append-only and bounded: whatever calls are
    made, the warnings recorded before are still there, in the same order,
    followed by the new ones; the log never holds more than
    [MEMD_MAX_WARNINGS] entries, and once it holds that many it never
    changes again. *)
Theorem warning_log_append_only (ops : list op) (st : state) :
  data_ok (MEMD_Data st) ->
  let d := MEMD_Data st in
  let d' := MEMD_Data (run ops st) in
  (exists new, recorded_warnings d' = recorded_warnings d ++ new)
  /\ (length (recorded_warnings d') <= Z.to_nat MEMD_MAX_WARNINGS)%nat
  /\ (warning_count d = MEMD_MAX_WARNINGS -> recorded_warnings d' = recorded_warnings d).
Proof.
  intros Hok d d'.
  assert (Hext : log_extends d d').
  { apply (run_related log_extends log_extends_refl log_extends_trans
             log_extends_insert log_extends_erase ops st Hok). }
  pose proof (run_ok ops st Hok) as Hok'. fold d' in Hok'.
  pose proof (recorded_length d' Hok') as Hlen'.
  assert (Hbound : (length (recorded_warnings d') <= Z.to_nat MEMD_MAX_WARNINGS)%nat).
  { rewrite Hlen'. destruct Hok' as (_ & _ & Hc). lia. }
  split; [exact Hext |]. split; [exact Hbound |].
  intros Hfull. destruct Hext as [new Hnew].
  pose proof (recorded_length d Hok) as Hlen. rewrite Hfull in Hlen.
  rewrite Hnew in Hbound |- *. rewrite length_app, Hlen in Hbound.
  destruct new as [| w new]; [apply app_nil_r | cbn [length] in Hbound; lia].
Qed.

Lemma warning_log_append_only_witness :
  data_ok (MEMD_Data one_block)
  /\ recorded_warnings
       (MEMD_Data (run [Free 0 3 "w.c"; Free 4096 4 "w.c"; Free 4096 5 "w.c"] one_block))
     = recorded_warnings (MEMD_Data one_block)
       ++ [mkWarning "Tried to free a null ptr" 3 "w.c";
           mkWarning "Double free detected" 5 "w.c"]
  /\ warning_count (MEMD_Data log_full) = MEMD_MAX_WARNINGS
  /\ recorded_warnings (MEMD_Data (run [Free 4096 2 "x.c"; Malloc 8 3 "x.c" 0] log_full))
     = recorded_warnings (MEMD_Data log_full).
Proof.
  assert (Hok : data_ok (MEMD_Data one_block)) by (apply run_ok, init_ok).
  assert (Hok' : data_ok (MEMD_Data log_full)) by (apply run_ok, init_ok).
  assert (Hfull : warning_count (MEMD_Data log_full) = MEMD_MAX_WARNINGS)
    by (vm_compute; reflexivity).
  destruct (warning_log_append_only [Free 4096 2 "x.c"; Malloc 8 3 "x.c" 0] log_full Hok')
    as (_ & _ & Hsame).
  split; [exact Hok |]. split; [vm_compute; reflexivity |]. split; [exact Hfull |].
  exact (Hsame Hfull).
Defined.

(** X2.  Releasing NULL with tracking active never reaches the real heap
    and leaves table and totals alone; it appends the warning
    ["Tried to free a null ptr"] with the caller's line and file when the
    log has room, and changes nothing when the log is full. *)
Theorem release_of_null (st : state) (line : Z) (file : string) :
  data_ok (MEMD_Data st) ->
  _memd_ignore st <> 1 ->
  let st' := _memd_free 0 line file st in
  heap st' = heap st
  /\ same_table (MEMD_Data st') (MEMD_Data st)
  /\ (warning_count (MEMD_Data st) < MEMD_MAX_WARNINGS ->
      recorded_warnings (MEMD_Data st')
      = recorded_warnings (MEMD_Data st) ++ [mkWarning "Tried to free a null ptr" line file])
  /\ (MEMD_MAX_WARNINGS <= warning_count (MEMD_Data st) -> st' = st).
Proof.
  intros Hok Hact st'. subst st'. rewrite (free_forwarding _ _ _ _ Hact).
  unfold _erase. change (0 =? 0) with true. cbv iota. cbn [fst snd].
  change (-1 =? 0) with false. cbv iota. cbn [set_data heap MEMD_Data].
  split; [reflexivity |]. split; [| split].
  - unfold same_table. warn_frame. tauto.
  - intros Hlt. rewrite (WARN_recorded _ _ _ _ Hok Hlt). reflexivity.
  - intros Hfull. rewrite WARN_full by exact Hfull. destruct st; reflexivity.
Qed.

Lemma release_of_null_witness :
  data_ok (MEMD_Data one_block)
  /\ _memd_ignore one_block <> 1
  /\ warning_count (MEMD_Data one_block) < MEMD_MAX_WARNINGS
  /\ heap (_memd_free 0 7 "n.c" one_block) = heap one_block
  /\ recorded_warnings (MEMD_Data (_memd_free 0 7 "n.c" one_block))
     = recorded_warnings (MEMD_Data one_block) ++ [mkWarning "Tried to free a null ptr" 7 "n.c"].
Proof.
  assert (Hok : data_ok (MEMD_Data one_block)) by (apply run_ok, init_ok).
  assert (Hact : _memd_ignore one_block <> 1) by (vm_compute; discriminate).
  assert (Hlt : warning_count (MEMD_Data one_block) < MEMD_MAX_WARNINGS)
    by (vm_compute; reflexivity).
  destruct (release_of_null one_block 7 "n.c" Hok Hact) as (Hheap & _ & Hrec & _).
  split; [exact Hok |]. split; [exact Hact |]. split; [exact Hlt |].
  split; [exact Hheap | exact (Hrec Hlt)].
Defined.

(** ** Lookup after insertion and erasure *)

Lemma find_insert_other m i x y b :
  m !! i = Some x -> mem_address x <> b -> mem_address y <> b ->
  _find_by_address (<[i := y]> m) b = _find_by_address m b.
Proof.
  unfold _find_by_address. revert i.
  induction m as [| z m IH]; intros [| i] Hi Hx Hy; try discriminate.
  - cbn in Hi. injection Hi as ->. cbn [list_find].
    change (<[0%nat := y]> (x :: m)) with (y :: m). cbn [list_find].
    destruct (decide (mem_address y = b)); [contradiction |].
    destruct (decide (mem_address x = b)); [contradiction | reflexivity].
  - change (<[S i := y]> (z :: m)) with (z :: <[i := y]> m). cbn [list_find].
    cbn in Hi. rewrite (IH i Hi Hx Hy). reflexivity.
Qed.

Lemma find_insert_fresh m i x r :
  m !! i = Some x -> _find_by_address m (mem_address r) = None ->
  _find_by_address (<[i := r]> m) (mem_address r) = Some (i, r).
Proof.
  intros Hi Hnone. pose proof (lookup_lt_Some _ _ _ Hi) as Hlen.
  apply find_None in Hnone. unfold _find_by_address. apply list_find_Some.
  split; [apply list_lookup_insert_eq, Hlen |]. split; [reflexivity |].
  intros j y Hj Hlt. rewrite list_lookup_insert_ne in Hj by lia.
  exact (proj1 (Forall_lookup _ m) Hnone j y Hj).
Qed.

(** X3.  Insert then look up.  When [_insert] is given a nonzero address
    that is not yet in the table and the table has an empty slot,
    [_find_by_address] afterwards returns the new record (address, size,
    line, file), stored in the slot that was the first empty one; the lookup
    of every other nonzero address gives what it gave before. *)
Theorem inserted_record_is_found (d : MEMD_Data_t) (address size line : Z) (file : string)
    (i : nat) (r : MEMD_Mem) :
  address <> 0 ->
  _find_by_address (mem d) address = None ->
  _find_by_address (mem d) 0 = Some (i, r) ->
  let d' := _insert address size line file d in
  _find_by_address (mem d') address = Some (i, mkMem address size line file)
  /\ (forall b, b <> 0 -> b <> address ->
        _find_by_address (mem d') b = _find_by_address (mem d) b).
Proof.
  intros Hne Hfresh Hslot d'. subst d'. unfold _insert.
  destruct (Z.eqb_spec address 0); [contradiction |]. rewrite Hslot.
  apply find_Some in Hslot as (Hi & Hr & _). cbn [set_total_allocated_size set_mem mem].
  split.
  - exact (find_insert_fresh (mem d) i r (mkMem address size line file) Hi Hfresh).
  - intros b Hb Hba. apply (find_insert_other _ _ r); [exact Hi | |].
    + rewrite Hr. intros H0. apply Hb. symmetry. exact H0.
    + cbn. intros H0. apply Hba. symmetry. exact H0.
Qed.

Lemma inserted_record_is_found_witness :
  8192 <> 0
  /\ _find_by_address (mem (MEMD_Data one_block)) 8192 = None
  /\ _find_by_address (mem (MEMD_Data one_block)) 0 = Some (1%nat, zero_mem)
  /\ _find_by_address (mem (_insert 8192 32 5 "i.c" (MEMD_Data one_block))) 8192
     = Some (1%nat, mkMem 8192 32 5 "i.c")
  /\ _find_by_address (mem (_insert 8192 32 5 "i.c" (MEMD_Data one_block))) 4096
     = Some (0%nat, mkMem 4096 100 8 "r.c").
Proof.
  assert (Hne : 8192 <> 0) by discriminate.
  assert (Hfresh : _find_by_address (mem (MEMD_Data one_block)) 8192 = None)
    by (vm_compute; reflexivity).
  assert (Hslot : _find_by_address (mem (MEMD_Data one_block)) 0 = Some (1%nat, zero_mem))
    by (vm_compute; reflexivity).
  destruct (inserted_record_is_found (MEMD_Data one_block) 8192 32 5 "i.c" 1 zero_mem
              Hne Hfresh Hslot) as [Hfound Hother].
  split; [exact Hne |]. split; [exact Hfresh |]. split; [exact Hslot |].
  split; [exact Hfound |].
  rewrite (Hother 4096) by discriminate. vm_compute. reflexivity.
Defined.

Lemma free_tracked ptr line file st i r :
  _memd_ignore st <> 1 -> ptr <> 0 ->
  _find_by_address (mem (MEMD_Data st)) ptr = Some (i, r) ->
  _memd_free ptr line file st
  = mkState (mkData (<[i := mkMem 0 (mem_size r) (mem_line r) (mem_file r)]>
                       (mem (MEMD_Data st)))
                    (total_allocated_size (MEMD_Data st))
                    (wrap64 (total_free_size (MEMD_Data st) + mem_size r))
                    (warnings (MEMD_Data st)) (warning_count (MEMD_Data st)))
            (_memd_ignore st) (heap st ++ [real_free ptr]).
Proof.
  intros Hact Hne Hfind. rewrite (free_forwarding _ _ _ _ Hact). unfold _erase.
  destruct (Z.eqb_spec ptr 0); [contradiction |]. rewrite Hfind. reflexivity.
Qed.

Lemma free_untracked ptr line file st :
  _memd_ignore st <> 1 -> ptr <> 0 ->
  _find_by_address (mem (MEMD_Data st)) ptr = None ->
  _memd_free ptr line file st
  = mkState (WARN "Double free detected" line file (MEMD_Data st))
            (_memd_ignore st) (heap st).
Proof.
  intros Hact Hne Hfind. rewrite (free_forwarding _ _ _ _ Hact). unfold _erase.
  destruct (Z.eqb_spec ptr 0); [contradiction |]. rewrite Hfind. reflexivity.
Qed.

Lemma malloc_tracked size line file ret st i r :
  _memd_ignore st <> 1 -> ret <> 0 ->
  _find_by_address (mem (MEMD_Data st)) 0 = Some (i, r) ->
  snd (_memd_malloc size line file ret st)
  = mkState (mkData (<[i := mkMem ret size line file]> (mem (MEMD_Data st)))
                    (wrap64 (total_allocated_size (MEMD_Data st) + size))
                    (total_free_size (MEMD_Data st))
                    (warnings (MEMD_Data st)) (warning_count (MEMD_Data st)))
            (_memd_ignore st) (heap st ++ [real_malloc size ret]).
Proof.
  intros Hact Hne Hfind. unfold _memd_malloc, _insert.
  cbn [snd call_heap _memd_ignore MEMD_Data].
  destruct (Z.eqb_spec (_memd_ignore st) 1); [contradiction |]. cbn [negb].
  destruct (Z.eqb_spec ret 0); [contradiction |]. rewrite Hfind. reflexivity.
Qed.

Lemma live_count_positive p m :
  live_count p m <> 0%nat -> exists i r, _find_by_address m p = Some (i, r).
Proof.
  intros Hpos. destruct (_find_by_address m p) as [[i r] |] eqn:Hf.
  - exists i, r. reflexivity.
  - apply live_count_zero in Hf. contradiction.
Qed.

(** X4.  A block that has exactly one record is handed to the real [free]
    once, however often it is released.  The first release (tracking
    active) forwards the call and removes the record without disturbing the
    lookup of any other nonzero address; the second finds no record,
    forwards nothing, leaves table and totals as they are and, when the log
    has room, appends ["Double free detected"] with the second call's line
    and file. *)
Theorem second_release_is_caught (st : state) (p line : Z) (file : string)
    (line' : Z) (file' : string) :
  data_ok (MEMD_Data st) ->
  _memd_ignore st <> 1 ->
  p <> 0 ->
  live_count p (mem (MEMD_Data st)) = 1%nat ->
  let st1 := _memd_free p line file st in
  let st2 := _memd_free p line' file' st1 in
  heap st1 = heap st ++ [real_free p]
  /\ _find_by_address (mem (MEMD_Data st1)) p = None
  /\ (forall b, b <> 0 -> b <> p ->
        _find_by_address (mem (MEMD_Data st1)) b = _find_by_address (mem (MEMD_Data st)) b)
  /\ recorded_warnings (MEMD_Data st1) = recorded_warnings (MEMD_Data st)
  /\ heap st2 = heap st1
  /\ same_table (MEMD_Data st2) (MEMD_Data st1)
  /\ (warning_count (MEMD_Data st) < MEMD_MAX_WARNINGS ->
      recorded_warnings (MEMD_Data st2)
      = recorded_warnings (MEMD_Data st) ++ [mkWarning "Double free detected" line' file']).
Proof.
  intros Hok Hact Hp Hone st1 st2.
  destruct (live_count_positive p (mem (MEMD_Data st))) as (i & r & Hfind); [lia |].
  pose proof (free_tracked p line file st i r Hact Hp Hfind) as H1. fold st1 in H1.
  apply find_Some in Hfind as (Hi & Hr & Hlen).
  assert (Hgone : _find_by_address (mem (MEMD_Data st1)) p = None).
  { rewrite H1. cbn [MEMD_Data mem]. apply live_count_zero. unfold live_count in *.
    pose proof (count_where_insert (fun r0 => mem_address r0 =? p) _ i r
                  (mkMem 0 (mem_size r) (mem_line r) (mem_file r)) Hi) as Hc.
    cbn [mem_address] in Hc. rewrite Hr, Z.eqb_refl in Hc.
    destruct (Z.eqb_spec 0 p) as [H0 | _]; [exfalso; apply Hp; symmetry; exact H0 |]. lia. }
  assert (Hact1 : _memd_ignore st1 <> 1) by (rewrite H1; exact Hact).
  pose proof (free_untracked p line' file' st1 Hact1 Hp Hgone) as H2. fold st2 in H2.
  assert (Hok1 : data_ok (MEMD_Data st1)).
  { change st1 with (step (Free p line file) st). apply step_ok, Hok. }
  assert (Hrec1 : recorded_warnings (MEMD_Data st1) = recorded_warnings (MEMD_Data st))
    by (rewrite H1; reflexivity).
  split; [rewrite H1; reflexivity |]. split; [exact Hgone |]. split; [| split; [exact Hrec1 |]].
  - intros b Hb Hbp. rewrite H1. cbn [MEMD_Data mem].
    apply (find_insert_other _ _ r); [exact Hi | |].
    + rewrite Hr. intros H0. apply Hbp. symmetry. exact H0.
    + cbn. intros H0. apply Hb. symmetry. exact H0.
  - rewrite H2. cbn [heap MEMD_Data]. split; [reflexivity |]. split.
    + unfold same_table. warn_frame. tauto.
    + intros Hlt. rewrite WARN_recorded; [rewrite Hrec1; reflexivity | exact Hok1 |].
      rewrite H1. exact Hlt.
Qed.

Lemma second_release_is_caught_witness :
  data_ok (MEMD_Data one_block)
  /\ _memd_ignore one_block <> 1
  /\ 4096 <> 0
  /\ live_count 4096 (mem (MEMD_Data one_block)) = 1%nat
  /\ warning_count (MEMD_Data one_block) < MEMD_MAX_WARNINGS
  /\ heap (_memd_free 4096 9 "main.c" (_memd_free 4096 8 "main.c" one_block))
     = heap one_block ++ [real_free 4096]
  /\ recorded_warnings
       (MEMD_Data (_memd_free 4096 9 "main.c" (_memd_free 4096 8 "main.c" one_block)))
     = recorded_warnings (MEMD_Data one_block) ++ [mkWarning "Double free detected" 9 "main.c"].
Proof.
  assert (Hok : data_ok (MEMD_Data one_block)) by (apply run_ok, init_ok).
  assert (Hact : _memd_ignore one_block <> 1) by (vm_compute; discriminate).
  assert (Hp : 4096 <> 0) by discriminate.
  assert (Hone : live_count 4096 (mem (MEMD_Data one_block)) = 1%nat)
    by (vm_compute; reflexivity).
  assert (Hlt : warning_count (MEMD_Data one_block) < MEMD_MAX_WARNINGS)
    by (vm_compute; reflexivity).
  destruct (second_release_is_caught one_block 4096 8 "main.c" 9 "main.c" Hok Hact Hp Hone)
    as (H1 & _ & _ & _ & H2 & _ & Hrec).
  split; [exact Hok |]. split; [exact Hact |]. split; [exact Hp |]. split; [exact Hone |].
  split; [exact Hlt |]. split; [rewrite H2; exact H1 | exact (Hrec Hlt)].
Defined.

(** ** Composed calls *)

(** X5.  Allocate then release.  With tracking active, a block at a nonzero
    address that has no record yet, obtained when the table has an empty
    slot and released again, reaches the heap as one [malloc] and one
    [free], records no warning, adds its size to both totals and leaves the
    leak figure, the live bytes and the lookup of every nonzero address as
    they were. *)
Theorem allocate_release_round_trip (st : state) (size line : Z) (file : string)
    (p line' : Z) (file' : string) (i : nat) (r : MEMD_Mem) :
  _memd_ignore st <> 1 ->
  p <> 0 ->
  _find_by_address (mem (MEMD_Data st)) p = None ->
  _find_by_address (mem (MEMD_Data st)) 0 = Some (i, r) ->
  let d := MEMD_Data st in
  let st' := run (allocate_release size line file p line' file') st in
  let d' := MEMD_Data st' in
  heap st' = heap st ++ [real_malloc size p; real_free p]
  /\ warnings d' = warnings d /\ warning_count d' = warning_count d
  /\ total_allocated_size d' = wrap64 (total_allocated_size d + size)
  /\ total_free_size d' = wrap64 (total_free_size d + size)
  /\ leaked d' = leaked d
  /\ live_bytes (mem d') = live_bytes (mem d)
  /\ (forall b, b <> 0 -> _find_by_address (mem d') b = _find_by_address (mem d) b).
Proof.
  intros Hact Hp Hfresh Hslot d st' d'. subst d' st'.
  unfold allocate_release, run. cbn [foldl step].
  rewrite (malloc_tracked size line file p st i r Hact Hp Hslot).
  apply find_Some in Hslot as (Hi & Hr & Hlen).
  pose proof (find_insert_fresh (mem (MEMD_Data st)) i r (mkMem p size line file) Hi Hfresh)
    as Hfound. cbn [mem_address] in Hfound.
  erewrite free_tracked; [| exact Hact | exact Hp | exact Hfound].
  cbn [MEMD_Data heap mem total_allocated_size total_free_size warnings warning_count
       mem_size mem_line mem_file].
  rewrite list_insert_insert_eq. fold d.
  split; [rewrite <- app_assoc; reflexivity |].
  split; [reflexivity |]. split; [reflexivity |]. split; [reflexivity |].
  split; [reflexivity |]. split; [| split].
  - unfold leaked. cbn [total_allocated_size total_free_size].
    rewrite wrap64_sub_l, wrap64_sub_r. f_equal. lia.
  - rewrite (live_bytes_insert _ _ _ _ Hi). unfold live_size. cbn [mem_address mem_size].
    rewrite Hr. change (0 =? 0) with true. cbv iota. subst d. lia.
  - intros b Hb. apply (find_insert_other _ _ r); [exact Hi | |].
    + rewrite Hr. intros H0. apply Hb. symmetry. exact H0.
    + cbn. intros H0. apply Hb. symmetry. exact H0.
Qed.

Lemma allocate_release_round_trip_witness :
  _memd_ignore one_block <> 1
  /\ 8192 <> 0
  /\ _find_by_address (mem (MEMD_Data one_block)) 8192 = None
  /\ _find_by_address (mem (MEMD_Data one_block)) 0 = Some (1%nat, zero_mem)
  /\ heap (run (allocate_release 32 5 "t.c" 8192 6 "t.c") one_block)
     = heap one_block ++ [real_malloc 32 8192; real_free 8192]
  /\ leaked (MEMD_Data (run (allocate_release 32 5 "t.c" 8192 6 "t.c") one_block))
     = leaked (MEMD_Data one_block).
Proof.
  assert (Hact : _memd_ignore one_block <> 1) by (vm_compute; discriminate).
  assert (Hp : 8192 <> 0) by discriminate.
  assert (Hfresh : _find_by_address (mem (MEMD_Data one_block)) 8192 = None)
    by (vm_compute; reflexivity).
  assert (Hslot : _find_by_address (mem (MEMD_Data one_block)) 0 = Some (1%nat, zero_mem))
    by (vm_compute; reflexivity).
  destruct (allocate_release_round_trip one_block 32 5 "t.c" 8192 6 "t.c" 1 zero_mem
              Hact Hp Hfresh Hslot) as (Hheap & _ & _ & _ & _ & Hleak & _).
  split; [exact Hact |]. split; [exact Hp |]. split; [exact Hfresh |]. split; [exact Hslot |].
  split; [exact Hheap | exact Hleak].
Defined.

(** X6.  A block obtained while paused and released after resuming is
    treated as a double free: the release is not forwarded to the real
    heap, so the block stays allocated, table and totals are unchanged, and
    (when the log has room) ["Double free detected"] is recorded at the
    release site. *)
Theorem paused_allocation_released_later (st : state) (size line : Z) (file : string)
    (p line' : Z) (file' : string) :
  data_ok (MEMD_Data st) ->
  p <> 0 ->
  _find_by_address (mem (MEMD_Data st)) p = None ->
  let st' := run (paused_allocation size line file p line' file') st in
  heap st' = heap st ++ [real_malloc size p]
  /\ _memd_ignore st' = 0
  /\ same_table (MEMD_Data st') (MEMD_Data st)
  /\ (warning_count (MEMD_Data st) < MEMD_MAX_WARNINGS ->
      recorded_warnings (MEMD_Data st')
      = recorded_warnings (MEMD_Data st) ++ [mkWarning "Double free detected" line' file'])
  /\ (MEMD_MAX_WARNINGS <= warning_count (MEMD_Data st) -> MEMD_Data st' = MEMD_Data st).
Proof.
  intros Hok Hp Hfresh st'. subst st'. unfold paused_allocation, run. cbn [foldl step].
  rewrite (malloc_suppressed size line file p (memd_pause st)) by reflexivity.
  cbn [snd]. rewrite free_untracked; [| discriminate | exact Hp | exact Hfresh].
  cbn [heap MEMD_Data _memd_ignore memd_resume call_heap memd_pause].
  split; [reflexivity |]. split; [reflexivity |]. split; [| split].
  - unfold same_table. warn_frame. tauto.
  - intros Hlt. rewrite (WARN_recorded _ _ _ _ Hok Hlt). reflexivity.
  - intros Hfull. apply WARN_full, Hfull.
Qed.

Lemma paused_allocation_released_later_witness :
  data_ok (MEMD_Data one_block)
  /\ 8192 <> 0
  /\ _find_by_address (mem (MEMD_Data one_block)) 8192 = None
  /\ warning_count (MEMD_Data one_block) < MEMD_MAX_WARNINGS
  /\ heap (run (paused_allocation 32 5 "p.c" 8192 6 "p.c") one_block)
     = heap one_block ++ [real_malloc 32 8192]
  /\ recorded_warnings (MEMD_Data (run (paused_allocation 32 5 "p.c" 8192 6 "p.c") one_block))
     = recorded_warnings (MEMD_Data one_block) ++ [mkWarning "Double free detected" 6 "p.c"].
Proof.
  assert (Hok : data_ok (MEMD_Data one_block)) by (apply run_ok, init_ok).
  assert (Hp : 8192 <> 0) by discriminate.
  assert (Hfresh : _find_by_address (mem (MEMD_Data one_block)) 8192 = None)
    by (vm_compute; reflexivity).
  assert (Hlt : warning_count (MEMD_Data one_block) < MEMD_MAX_WARNINGS)
    by (vm_compute; reflexivity).
  destruct (paused_allocation_released_later one_block 32 5 "p.c" 8192 6 "p.c" Hok Hp Hfresh)
    as (Hheap & _ & _ & Hrec & _).
  split; [exact Hok |]. split; [exact Hp |]. split; [exact Hfresh |]. split; [exact Hlt |].
  split; [exact Hheap | exact (Hrec Hlt)].
Defined.

(** X7.  Resizing a block that has no record (tracking active, the real
    [realloc] succeeding) first records a spurious ["Double free detected"]
    at the call site, because the result of [_erase] is ignored, and then
    tracks the new block: with room in the log and an empty slot [i], the
    warning is appended, slot [i] holds (new address, size, line, file) and
    [size] is added to [total_allocated_size]; [total_free_size] is
    unchanged. *)
Theorem resize_of_untracked_block (st : state) (ptr size line : Z) (file : string)
    (ret : Z) (i : nat) (r : MEMD_Mem) :
  data_ok (MEMD_Data st) ->
  _memd_ignore st <> 1 ->
  ptr <> 0 -> size <> 0 -> ret <> 0 ->
  _find_by_address (mem (MEMD_Data st)) ptr = None ->
  _find_by_address (mem (MEMD_Data st)) 0 = Some (i, r) ->
  warning_count (MEMD_Data st) < MEMD_MAX_WARNINGS ->
  let d := MEMD_Data st in
  let res := _memd_realloc ptr size line file ret st in
  let d' := MEMD_Data (snd res) in
  fst res = ret
  /\ heap (snd res) = heap st ++ [real_realloc ptr size ret]
  /\ recorded_warnings d' = recorded_warnings d ++ [mkWarning "Double free detected" line file]
  /\ mem d' = <[i := mkMem ret size line file]> (mem d)
  /\ total_allocated_size d' = wrap64 (total_allocated_size d + size)
  /\ total_free_size d' = total_free_size d.
Proof.
  intros Hok Hact Hp Hs Hret Hnone Hslot Hlt d res d'. subst d' res.
  unfold _memd_realloc.
  destruct (Z.eqb_spec ptr 0); [contradiction |].
  destruct (Z.eqb_spec size 0); [contradiction |].
  cbn [fst snd call_heap _memd_ignore MEMD_Data heap].
  destruct (Z.eqb_spec ret 0); [contradiction |].
  destruct (Z.eqb_spec (_memd_ignore st) 1); [contradiction |].
  cbn [negb andb set_data MEMD_Data heap]. fold d.
  assert (He : snd (_erase ptr line file d) = WARN "Double free detected" line file d).
  { unfold _erase. destruct (Z.eqb_spec ptr 0); [contradiction |]. fold d in Hnone.
    rewrite Hnone. reflexivity. }
  rewrite He. unfold _insert. destruct (Z.eqb_spec ret 0); [contradiction |].
  rewrite WARN_mem. fold d in Hslot. rewrite Hslot.
  cbn [set_total_allocated_size set_mem mem total_allocated_size total_free_size].
  split; [reflexivity |]. split; [reflexivity |]. split; [| split; [| split]].
  - unfold recorded_warnings at 1. cbn [warnings warning_count].
    exact (WARN_recorded _ _ _ _ Hok Hlt).
  - warn_frame. reflexivity.
  - warn_frame. reflexivity.
  - warn_frame. reflexivity.
Qed.

Lemma resize_of_untracked_block_witness :
  data_ok (MEMD_Data one_block)
  /\ _memd_ignore one_block <> 1
  /\ (12288 <> 0 /\ 64 <> 0 /\ 8192 <> 0)
  /\ _find_by_address (mem (MEMD_Data one_block)) 12288 = None
  /\ _find_by_address (mem (MEMD_Data one_block)) 0 = Some (1%nat, zero_mem)
  /\ warning_count (MEMD_Data one_block) < MEMD_MAX_WARNINGS
  /\ recorded_warnings (MEMD_Data (snd (_memd_realloc 12288 64 7 "u.c" 8192 one_block)))
     = recorded_warnings (MEMD_Data one_block) ++ [mkWarning "Double free detected" 7 "u.c"]
  /\ mem (MEMD_Data (snd (_memd_realloc 12288 64 7 "u.c" 8192 one_block)))
     = <[1%nat := mkMem 8192 64 7 "u.c"]> (mem (MEMD_Data one_block)).
Proof.
  assert (Hok : data_ok (MEMD_Data one_block)) by (apply run_ok, init_ok).
  assert (Hact : _memd_ignore one_block <> 1) by (vm_compute; discriminate).
  assert (Hp : 12288 <> 0) by discriminate.
  assert (Hs : 64 <> 0) by discriminate.
  assert (Hr : 8192 <> 0) by discriminate.
  assert (Hnone : _find_by_address (mem (MEMD_Data one_block)) 12288 = None)
    by (vm_compute; reflexivity).
  assert (Hslot : _find_by_address (mem (MEMD_Data one_block)) 0 = Some (1%nat, zero_mem))
    by (vm_compute; reflexivity).
  assert (Hlt : warning_count (MEMD_Data one_block) < MEMD_MAX_WARNINGS)
    by (vm_compute; reflexivity).
  destruct (resize_of_untracked_block one_block 12288 64 7 "u.c" 8192 1 zero_mem
              Hok Hact Hp Hs Hr Hnone Hslot Hlt) as (_ & _ & Hrec & Hmem & _).
  split; [exact Hok |]. split; [exact Hact |]. split; [repeat split; assumption |].
  split; [exact Hnone |]. split; [exact Hslot |]. split; [exact Hlt |].
  split; [exact Hrec | exact Hmem].
Defined.

(** ** What reaches the real heap *)

Lemma live_count_insert_le p address size line file d :
  p <> 0 ->
  (live_count p (mem (_insert address size line file d))
   <= live_count p (mem d) + (if (address =? p)%Z then 1 else 0))%nat.
Proof.
  intros Hp. destruct (insert_inv address size line file d) as [msg -> _ | i r _ Hf ->].
  - rewrite WARN_mem. lia.
  - apply find_Some in Hf as (Hi & Hr & _). cbn [mem]. unfold live_count.
    pose proof (count_where_insert (fun r0 => mem_address r0 =? p) _ i r
                  (mkMem address size line file) Hi) as Hc.
    cbn [mem_address] in Hc. rewrite Hr in Hc.
    destruct (Z.eqb_spec 0 p) as [H0 | _]; [exfalso; apply Hp; symmetry; exact H0 |]. lia.
Qed.

Lemma live_count_erase p address line file d :
  p <> 0 ->
  (fst (_erase address line file d) = 0
   /\ (live_count p (mem (snd (_erase address line file d)))
       + (if (address =? p)%Z then 1 else 0) = live_count p (mem d))%nat)
  \/ (fst (_erase address line file d) = -1
      /\ mem (snd (_erase address line file d)) = mem d).
Proof.
  intros Hp. destruct (erase_inv address line file d) as [msg _ | i r _ Hf]; cbn [fst snd].
  - right. split; [reflexivity | apply WARN_mem].
  - left. split; [reflexivity |]. apply find_Some in Hf as (Hi & Hr & _). cbn [mem].
    unfold live_count.
    pose proof (count_where_insert (fun r0 => mem_address r0 =? p) _ i r
                  (mkMem 0 (mem_size r) (mem_line r) (mem_file r)) Hi) as Hc.
    cbn [mem_address] in Hc. rewrite Hr in Hc.
    destruct (Z.eqb_spec 0 p) as [H0 | _]; [exfalso; apply Hp; symmetry; exact H0 |]. lia.
Qed.

Lemma times_handed_out_snoc p h c :
  times_handed_out p (h ++ [c])
  = (times_handed_out p h + (if hands_out p c then 1 else 0))%nat.
Proof. unfold times_handed_out. rewrite count_where_app. cbn. lia. Qed.

Lemma times_freed_snoc p h c :
  times_freed p (h ++ [c]) = (times_freed p h + (if frees p c then 1 else 0))%nat.
Proof. unfold times_freed. rewrite count_where_app. cbn. lia. Qed.

Lemma free_within_hand_outs p ptr line file st :
  p <> 0 -> within_hand_outs p st -> within_hand_outs p (_memd_free ptr line file st).
Proof.
  intros Hp Hinv. unfold within_hand_outs in *. unfold _memd_free.
  destruct (negb _); [| exact Hinv].
  pose proof (live_count_erase p ptr line file (MEMD_Data st) Hp) as He.
  destruct (_erase ptr line file (MEMD_Data st)) as [rc d]. cbn [fst snd] in He.
  destruct He as [[-> Hc] | [-> Hm]].
  - change (0 =? 0) with true. cbv iota. cbn [call_heap set_data heap MEMD_Data].
    rewrite times_freed_snoc, times_handed_out_snoc. cbn [frees hands_out]. lia.
  - change (-1 =? 0) with false. cbv iota. cbn [set_data heap MEMD_Data]. rewrite Hm. exact Hinv.
Qed.

Lemma malloc_within_hand_outs p size line file ret st :
  p <> 0 -> within_hand_outs p st ->
  within_hand_outs p (snd (_memd_malloc size line file ret st)).
Proof.
  intros Hp Hinv. unfold within_hand_outs in *. unfold _memd_malloc.
  cbn [snd call_heap _memd_ignore MEMD_Data heap].
  pose proof (live_count_insert_le p ret size line file (MEMD_Data st) Hp) as Hi.
  destruct (negb _); cbn [set_data call_heap heap MEMD_Data];
    rewrite times_freed_snoc, times_handed_out_snoc; cbn [frees hands_out]; lia.
Qed.

Lemma step_within_hand_outs p o st :
  p <> 0 -> within_hand_outs p st -> within_hand_outs p (step o st).
Proof.
  intros Hp Hinv.
  destruct o as [size line file ret | num size line file ret | ptr line file
                | ptr size line file ret | |]; cbn [step]; try exact Hinv.
  - apply malloc_within_hand_outs; assumption.
  - unfold within_hand_outs in *. unfold _memd_calloc.
    cbn [snd call_heap _memd_ignore MEMD_Data heap].
    pose proof (live_count_insert_le p ret (wrap64 (num * size)) line file
                  (MEMD_Data st) Hp) as Hi.
    destruct (negb _ && _); cbn [set_data call_heap heap MEMD_Data];
      rewrite times_freed_snoc, times_handed_out_snoc; cbn [frees hands_out]; lia.
  - apply free_within_hand_outs; assumption.
  - unfold _memd_realloc. destruct (ptr =? 0); [apply malloc_within_hand_outs; assumption |].
    destruct (size =? 0); [apply free_within_hand_outs; assumption |].
    unfold within_hand_outs in *. cbn [snd call_heap _memd_ignore MEMD_Data heap].
    pose proof (live_count_erase p ptr line file (MEMD_Data st) Hp) as He.
    pose proof (live_count_insert_le p ret size line file
                  (snd (_erase ptr line file (MEMD_Data st))) Hp) as Hi.
    destruct (negb _ && negb _); cbn [set_data call_heap heap MEMD_Data];
      rewrite times_freed_snoc, times_handed_out_snoc; cbn [frees hands_out];
      [| lia].
    destruct He as [[_ Hc] | [_ Hm]]; [lia | rewrite Hm in Hi; lia].
Qed.

Lemma run_within_hand_outs p ops st :
  p <> 0 -> within_hand_outs p st -> within_hand_outs p (run ops st).
Proof.
  intros Hp. revert st. induction ops as [| o ops IH]; intros st Hs; [exact Hs |].
  rewrite run_cons. apply IH, step_within_hand_outs; assumption.
Qed.

Lemma initial_within_hand_outs p : p <> 0 -> within_hand_outs p initial_state.
Proof.
  intros Hp. unfold within_hand_outs.
  assert (H0 : live_count p (mem (MEMD_Data initial_state)) = 0%nat).
  { apply live_count_zero, find_None. apply Forall_replicate. cbn.
    intros H. apply Hp. symmetry. exact H. }
  rewrite H0. cbn. lia.
Qed.

(** X8.  For every nonzero address, at every point of every program run
    from the start state: the number of real [free] calls made for it plus
    the number of records that still carry it is at most the number of
    times the real allocator returned it.  In particular the library never
    passes an address to the real [free] more often than the heap handed it
    out, and never one the heap did not hand out. *)
Theorem frees_never_exceed_hand_outs (ops : list op) (p : Z) :
  p <> 0 ->
  let st := run ops initial_state in
  (times_freed p (heap st) + live_count p (mem (MEMD_Data st))
   <= times_handed_out p (heap st))%nat
  /\ (times_freed p (heap st) <= times_handed_out p (heap st))%nat
  /\ (times_handed_out p (heap st) = 0%nat -> times_freed p (heap st) = 0%nat).
Proof.
  intros Hp st.
  pose proof (run_within_hand_outs p ops initial_state Hp (initial_within_hand_outs p Hp))
    as Hinv.
  fold st in Hinv. unfold within_hand_outs in Hinv.
  split; [exact Hinv |]. split; lia.
Qed.

Lemma frees_never_exceed_hand_outs_witness :
  4096 <> 0
  /\ (times_freed 4096 (heap (run (double_release 4096 8) initial_state))
      <= times_handed_out 4096 (heap (run (double_release 4096 8) initial_state)))%nat
  /\ times_handed_out 4096 (heap (run (double_release 4096 8) initial_state)) = 1%nat
  /\ times_freed 4096 (heap (run (double_release 4096 8) initial_state)) = 1%nat.
Proof.
  assert (Hp : 4096 <> 0) by discriminate.
  destruct (frees_never_exceed_hand_outs (double_release 4096 8) 4096 Hp) as (_ & Hle & _).
  split; [exact Hp |]. split; [exact Hle |]. split; vm_compute; reflexivity.
Defined.

(** ** Capacity *)

Lemma find_empty_none m :
  _find_by_address m 0 = None <-> live_records m = length m.
Proof.
  unfold live_records. rewrite count_where_full, find_None.
  apply Forall_proper; [| reflexivity]. intros r.
  destruct (Z.eqb_spec (mem_address r) 0) as [H0 | Hne]; cbn.
  - split; [intros H; contradiction | discriminate].
  - split; [reflexivity | intros _; exact Hne].
Qed.

(** X9.  Capacity counts records in use, not allocations made.  For a
    nonzero address [_insert] leaves the table as it is (and falls back to
    the ["Max allocations reached"] warning) exactly when all
    [MEMD_MAX_ALLOCATIONS] slots hold a nonzero address; with fewer in use
    the table changes and the number of records in use grows by one. *)
Theorem tracking_dropped_only_when_full (d : MEMD_Data_t) (address size line : Z)
    (file : string) :
  data_ok d ->
  address <> 0 ->
  let d' := _insert address size line file d in
  (live_records (mem d) <= MEMD_MAX_ALLOCATIONS)%nat
  /\ (mem d' = mem d <-> live_records (mem d) = MEMD_MAX_ALLOCATIONS)
  /\ (live_records (mem d) = MEMD_MAX_ALLOCATIONS ->
      d' = WARN "Max allocations reached" line file d)
  /\ ((live_records (mem d) < MEMD_MAX_ALLOCATIONS)%nat ->
      live_records (mem d') = S (live_records (mem d))).
Proof.
  intros (Hlen & _) Hne d'. subst d'.
  assert (Hle : (live_records (mem d) <= MEMD_MAX_ALLOCATIONS)%nat).
  { rewrite <- Hlen. apply count_where_le_length. }
  split; [exact Hle |]. unfold _insert. destruct (Z.eqb_spec address 0); [contradiction |].
  destruct (_find_by_address (mem d) 0) as [[i r] |] eqn:Hf.
  - assert (Hnot : live_records (mem d) <> MEMD_MAX_ALLOCATIONS).
    { rewrite <- Hlen. intros Hfull. apply find_empty_none in Hfull. congruence. }
    apply find_Some in Hf as (Hi & Hr & Hilen).
    cbn [set_total_allocated_size set_mem mem].
    assert (Hgrow : live_records (<[i := mkMem address size line file]> (mem d))
                    = S (live_records (mem d))).
    { unfold live_records.
      pose proof (count_where_insert (fun r0 => negb (mem_address r0 =? 0)) _ i r
                    (mkMem address size line file) Hi) as Hc.
      cbn [mem_address] in Hc. rewrite Hr in Hc. change (0 =? 0) with true in Hc.
      destruct (Z.eqb_spec address 0); [contradiction |]. cbn [negb] in Hc. lia. }
    split; [| split].
    + split; [| intros Hfull; contradiction].
      intros Hsame. rewrite Hsame in Hgrow. lia.
    + intros Hfull. contradiction.
    + intros _. exact Hgrow.
  - assert (Hfull : live_records (mem d) = MEMD_MAX_ALLOCATIONS).
    { rewrite <- Hlen. apply find_empty_none, Hf. }
    split; [| split].
    + split; [intros _; exact Hfull | intros _; apply WARN_mem].
    + intros _. reflexivity.
    + intros Hlt. lia.
Qed.

Lemma tracking_dropped_only_when_full_witness :
  data_ok (MEMD_Data table_full)
  /\ 8192000 <> 0
  /\ live_records (mem (MEMD_Data table_full)) = MEMD_MAX_ALLOCATIONS
  /\ mem (_insert 8192000 32 2 "more.c" (MEMD_Data table_full)) = mem (MEMD_Data table_full)
  /\ (live_records (mem (MEMD_Data one_block)) < MEMD_MAX_ALLOCATIONS)%nat
  /\ live_records (mem (_insert 8192 32 2 "more.c" (MEMD_Data one_block))) = 2%nat.
Proof.
  assert (Hok : data_ok (MEMD_Data table_full)) by (apply run_ok, init_ok).
  assert (Hok1 : data_ok (MEMD_Data one_block)) by (apply run_ok, init_ok).
  assert (Hne : 8192000 <> 0) by discriminate.
  assert (Hfull : live_records (mem (MEMD_Data table_full)) = MEMD_MAX_ALLOCATIONS)
    by (vm_compute; reflexivity).
  assert (Hlt : (live_records (mem (MEMD_Data one_block)) < MEMD_MAX_ALLOCATIONS)%nat)
    by (vm_compute; lia).
  destruct (tracking_dropped_only_when_full (MEMD_Data table_full) 8192000 32 2 "more.c"
              Hok Hne) as (_ & Hiff & _ & _).
  destruct (tracking_dropped_only_when_full (MEMD_Data one_block) 8192 32 2 "more.c"
              Hok1 ltac:(discriminate)) as (_ & _ & _ & Hgrow).
  split; [exact Hok |]. split; [exact Hne |]. split; [exact Hfull |].
  split; [exact (proj2 Hiff Hfull) |]. split; [exact Hlt |].
  rewrite (Hgrow Hlt). vm_compute. reflexivity.
Defined.

(** ** The suppression flag *)

(** X10.  No interceptor ever changes [_memd_ignore]; only [memd_pause] and
    [memd_resume] do, and they do not count: after any program the flag is
    what the last pause or resume in it set (or what it was, if there is
    none).  So a single [memd_resume] re-enables tracking after any number
    of [memd_pause] calls. *)
Theorem flag_follows_last_toggle (ops : list op) (st : state) :
  _memd_ignore (run ops st) = last_toggle ops (_memd_ignore st)
  /\ _memd_ignore (run (ops ++ [Resume]) st) = 0
  /\ _memd_ignore (run (ops ++ [Pause]) st) = 1.
Proof.
  assert (Hrun : forall l s, _memd_ignore (run l s) = last_toggle l (_memd_ignore s)).
  { intros l. induction l as [| o l IH]; intros s; [reflexivity |].
    rewrite run_cons, IH.
    destruct o as [size line file ret | num size line file ret | ptr line file
                  | ptr size line file ret | |]; cbn [step last_toggle].
    - rewrite malloc_ignore. reflexivity.
    - rewrite calloc_ignore. reflexivity.
    - rewrite free_ignore. reflexivity.
    - rewrite realloc_ignore. reflexivity.
    - reflexivity.
    - reflexivity. }
  split; [apply Hrun |]. split; rewrite run_app; reflexivity.
Qed.

(** ** Leaks the report does not show *)

Lemma detail_fragments_empty d :
  detail_fragments d = [] <-> (total_free_size d =? total_allocated_size d) = true.
Proof.
  unfold detail_fragments. destruct (total_free_size d =? total_allocated_size d).
  - split; reflexivity.
  - split; discriminate.
Qed.

(** X11.  After any program run from the start state the report has a
    Detailed Report section exactly when the sizes of the records in use
    sum to something nonzero modulo 2^64.  Records of zero bytes alone are
    therefore never listed: they are in the table, but the section that
    would show them is left out. *)
Theorem detailed_report_needs_live_bytes (ops : list op) :
  forallb wf_op ops = true ->
  let d := MEMD_Data (run ops initial_state) in
  (detail_fragments d = [] <-> wrap64 (live_bytes (mem d)) = 0)
  /\ (live_bytes (mem d) = 0 -> detail_fragments d = []).
Proof.
  intros Hwf d.
  destruct (balanced_run ops initial_state 0 0 Hwf balanced_init) as (_ & F & _ & Hb).
  fold d in Hb. pose proof (balanced_leaked _ _ _ Hb) as Hleak.
  destruct Hb as (Ha & Hf & _).
  assert (Hiff : detail_fragments d = [] <-> wrap64 (live_bytes (mem d)) = 0).
  { rewrite detail_fragments_empty, <- Hleak.
    rewrite <- (leaked_zero d) by (rewrite ?Ha, ?Hf; apply wrap64_range).
    apply Z.eqb_eq. }
  split; [exact Hiff |]. intros H0. apply Hiff. rewrite H0. reflexivity.
Qed.

Lemma detailed_report_needs_live_bytes_witness :
  forallb wf_op zero_byte_leak = true
  /\ live_bytes (mem (MEMD_Data (run zero_byte_leak initial_state))) = 0
  /\ live_records (mem (MEMD_Data (run zero_byte_leak initial_state))) = 1%nat
  /\ detail_fragments (MEMD_Data (run zero_byte_leak initial_state)) = [].
Proof.
  assert (Hwf : forallb wf_op zero_byte_leak = true) by reflexivity.
  assert (H0 : live_bytes (mem (MEMD_Data (run zero_byte_leak initial_state))) = 0)
    by (vm_compute; reflexivity).
  destruct (detailed_report_needs_live_bytes zero_byte_leak Hwf) as [_ Hhide].
  split; [exact Hwf |]. split; [exact H0 |]. split; [vm_compute; reflexivity |].
  exact (Hhide H0).
Defined.

(** ** The report and the real heap *)

Lemma blocks_held_snoc h c held :
  blocks_held (h ++ [c]) held = replay_call (blocks_held h held) c.
Proof. unfold blocks_held. rewrite foldl_app. reflexivity. Qed.

Lemma blocks_held_app h1 h2 held :
  blocks_held (h1 ++ h2) held = blocks_held h2 (blocks_held h1 held).
Proof. unfold blocks_held. apply foldl_app. Qed.

Lemma remove_one_head p held : remove_one p (p :: held) = held.
Proof. cbn. rewrite Z.eqb_refl. reflexivity. Qed.

Lemma write_fragment_report frag b : report (write_fragment frag b) = report b.
Proof. reflexivity. Qed.

Lemma APPEND_TO_REPORT_blocks alloc frag b h held base :
  report b <> 0 -> blocks_held h held = report b :: base ->
  match APPEND_TO_REPORT alloc frag b h with
  | Appended b' h' => report b' <> 0 /\ blocks_held h' held = report b' :: base
  | ReturnedNull h' => blocks_held h' held = base
  | Hangs => True
  end.
Proof.
  intros Hptr Hinv. unfold APPEND_TO_REPORT.
  destruct (_ >? INT_MAX); [split; assumption |].
  destruct (_ >=? _); [| rewrite write_fragment_report; split; assumption].
  destruct (double_until_fits _ _) as [new_size |]; [| exact I].
  destruct (Z.eqb_spec (alloc (report b) new_size) 0) as [Hfail | Hgot].
  - rewrite !blocks_held_snoc, Hinv. cbn [replay_call]. rewrite Hfail.
    change (0 =? 0) with true. cbv iota. apply remove_one_head.
  - rewrite write_fragment_report. cbn [report]. split; [exact Hgot |].
    rewrite blocks_held_snoc, Hinv. cbn [replay_call].
    destruct (Z.eqb_spec (alloc (report b) new_size) 0); [contradiction |].
    rewrite remove_one_head. reflexivity.
Qed.

Lemma append_all_blocks alloc frags b h held base :
  report b <> 0 -> blocks_held h held = report b :: base ->
  match append_all alloc frags b h with
  | Appended b' h' => report b' <> 0 /\ blocks_held h' held = report b' :: base
  | ReturnedNull h' => blocks_held h' held = base
  | Hangs => True
  end.
Proof.
  revert b h. induction frags as [| frag rest IH]; intros b h Hptr Hinv.
  - cbn [append_all]. split; assumption.
  - cbn [append_all].
    pose proof (APPEND_TO_REPORT_blocks alloc frag b h held base Hptr Hinv) as Hstep.
    destruct (APPEND_TO_REPORT alloc frag b h) as [b' h' | h' |].
    + destruct Hstep as [Hptr' Hinv']. apply IH; assumption.
    + exact Hstep.
    + exact I.
Qed.

(** X12.  [memd_report] neither leaks nor double-frees its buffer, and
    never touches [MEMD_Data] or the flag.  Replaying the real heap calls it
    makes: when it returns a text, exactly one more block is allocated than
    before, and it is the (non-NULL) pointer returned; [memd_report_free] of
    that pointer restores the heap to what it held before the report,
    without a lookup or a warning.  When it returns NULL the heap holds
    what it held before. *)
Theorem report_buffer_is_balanced (alloc : Z -> Z -> Z) (st : state) :
  let res := call_memd_report alloc st in
  MEMD_Data (snd res) = MEMD_Data st
  /\ _memd_ignore (snd res) = _memd_ignore st
  /\ match fst res with
     | ReportText p _ =>
         p <> 0
         /\ blocks_held (heap (snd res)) [] = p :: blocks_held (heap st) []
         /\ blocks_held (heap (memd_report_free p (snd res))) [] = blocks_held (heap st) []
         /\ MEMD_Data (memd_report_free p (snd res)) = MEMD_Data st
     | ReportNull => blocks_held (heap (snd res)) [] = blocks_held (heap st) []
     | ReportHangs => True
     end.
Proof.
  cbn zeta. unfold call_memd_report, memd_report.
  set (held := blocks_held (heap st) []).
  destruct (Z.eqb_spec (alloc 0 initial_buffer_size) 0) as [Hfail | Hgot].
  - cbn [fst snd MEMD_Data _memd_ignore heap]. split; [reflexivity |]. split; [reflexivity |].
    rewrite blocks_held_app. fold held. cbn. rewrite Hfail. reflexivity.
  - pose proof (append_all_blocks alloc (report_fragments (MEMD_Data st))
                  (mkBuf (alloc 0 initial_buffer_size) EmptyString initial_buffer_size 0)
                  [real_malloc initial_buffer_size (alloc 0 initial_buffer_size)]
                  held held Hgot) as Hall.
    cbn [report] in Hall.
    assert (Hstart : blocks_held [real_malloc initial_buffer_size (alloc 0 initial_buffer_size)]
                       held = alloc 0 initial_buffer_size :: held).
    { cbn. destruct (Z.eqb_spec (alloc 0 initial_buffer_size) 0); [contradiction |].
      reflexivity. }
    specialize (Hall Hstart).
    destruct (append_all alloc _ _ _) as [b' h' | h' |];
      cbn [fst snd MEMD_Data _memd_ignore heap];
      (split; [reflexivity |]); (split; [reflexivity |]).
    + destruct Hall as [Hptr Hheld]. split; [exact Hptr |].
      rewrite blocks_held_app. fold held. split; [exact Hheld |]. split; [| reflexivity].
      unfold memd_report_free, call_heap. cbn [heap].
      rewrite blocks_held_snoc, blocks_held_app. fold held. rewrite Hheld.
      cbn [replay_call]. apply remove_one_head.
    + rewrite blocks_held_app. fold held. exact Hall.
    + exact I.
Qed.

(** ** Growth of the counters *)

Lemma bytes_tracked_app ops1 ops2 st :
  bytes_tracked (ops1 ++ ops2) st
  = bytes_tracked ops1 st + bytes_tracked ops2 (run ops1 st).
Proof.
  revert st. induction ops1 as [| o ops1 IH]; intros st; [reflexivity |].
  cbn [app bytes_tracked]. rewrite IH, run_cons. lia.
Qed.

(** X13.  Until [total_allocated_size] wraps around, both totals only grow:
    if the bytes tracked over a whole program sum to at most [SIZE_MAX],
    then at every point of the program each total is at most what it is at
    the end. *)
Theorem totals_only_grow (ops1 ops2 : list op) :
  forallb wf_op (ops1 ++ ops2) = true ->
  bytes_tracked (ops1 ++ ops2) initial_state <= SIZE_MAX ->
  let d1 := MEMD_Data (run ops1 initial_state) in
  let d2 := MEMD_Data (run (ops1 ++ ops2) initial_state) in
  total_allocated_size d1 <= total_allocated_size d2
  /\ total_free_size d1 <= total_free_size d2.
Proof.
  intros Hwf Hfit d1 d2. subst d1 d2.
  rewrite forallb_app in Hwf. apply andb_true_iff in Hwf as [Hwf1 Hwf2].
  rewrite bytes_tracked_app in Hfit. rewrite run_app.
  destruct (balanced_run ops1 initial_state 0 0 Hwf1 balanced_init) as (H1 & F1 & HF1 & Hb1).
  destruct (balanced_run ops2 _ _ _ Hwf2 Hb1) as (H2 & F2 & HF2 & Hb2).
  rewrite Z.add_0_l in Hb1, Hb2.
  destruct Hb1 as (Ha1 & Hf1 & Hl1 & _ & Hs1). destruct Hb2 as (Ha2 & Hf2 & Hl2 & _ & Hs2).
  pose proof (live_bytes_nonneg _ Hs1). pose proof (live_bytes_nonneg _ Hs2).
  rewrite wrap64_small in Ha1, Hf1, Ha2, Hf2 by lia. lia.
Qed.

Lemma totals_only_grow_witness :
  forallb wf_op ([Malloc 100 5 "a.c" 4096] ++ [Malloc 200 6 "a.c" 8192; Free 4096 7 "a.c"])
  = true
  /\ bytes_tracked ([Malloc 100 5 "a.c" 4096] ++ [Malloc 200 6 "a.c" 8192; Free 4096 7 "a.c"])
       initial_state <= SIZE_MAX
  /\ total_allocated_size (MEMD_Data (run [Malloc 100 5 "a.c" 4096] initial_state))
     <= total_allocated_size
          (MEMD_Data (run ([Malloc 100 5 "a.c" 4096]
                           ++ [Malloc 200 6 "a.c" 8192; Free 4096 7 "a.c"]) initial_state)).
Proof.
  assert (Hfit : bytes_tracked ([Malloc 100 5 "a.c" 4096]
                                ++ [Malloc 200 6 "a.c" 8192; Free 4096 7 "a.c"])
                   initial_state <= SIZE_MAX) by (vm_compute; discriminate).
  split; [reflexivity |]. split; [exact Hfit |].
  exact (proj1 (totals_only_grow [Malloc 100 5 "a.c" 4096]
                  [Malloc 200 6 "a.c" 8192; Free 4096 7 "a.c"] eq_refl Hfit)).
Defined.

(** ** What the log can contain *)

Lemma known_WARN msg line file d :
  In (snprintf_s 128 msg) library_messages ->
  data_ok d -> keeps_known_warnings d (WARN msg line file d).
Proof.
  intros Hmsg Hok Hknown. unfold known_warnings in *.
  destruct (Z_lt_le_dec (warning_count d) MEMD_MAX_WARNINGS) as [Hlt | Hfull].
  - rewrite (WARN_recorded _ _ _ _ Hok Hlt). apply Forall_app. split; [exact Hknown |].
    constructor; [exact Hmsg | constructor].
  - rewrite WARN_full by exact Hfull. exact Hknown.
Qed.

Lemma known_insert address size line file d :
  data_ok d -> keeps_known_warnings d (_insert address size line file d).
Proof.
  intros Hok. unfold _insert. destruct (address =? 0).
  - apply known_WARN; [cbn; tauto | exact Hok].
  - destruct (_find_by_address (mem d) 0) as [[i r] |].
    + intros Hknown. exact Hknown.
    + apply known_WARN; [cbn; tauto | exact Hok].
Qed.

Lemma known_erase address line file d :
  data_ok d -> keeps_known_warnings d (snd (_erase address line file d)).
Proof.
  intros Hok. unfold _erase. destruct (address =? 0); cbn [snd].
  - apply known_WARN; [cbn; tauto | exact Hok].
  - destruct (_find_by_address (mem d) address) as [[i r] |]; cbn [snd].
    + intros Hknown. exact Hknown.
    + apply known_WARN; [cbn; tauto | exact Hok].
Qed.

(** X14.  Whatever program is run from the start state, every warning in
    the log carries one of the four messages of the header, unabridged:
    ["Memory allocation failed"], ["Max allocations reached"],
    ["Tried to free a null ptr"] or ["Double free detected"]. *)
Theorem recorded_messages_are_known (ops : list op) :
  Forall (fun w => In (warn_message w) library_messages)
         (recorded_warnings (MEMD_Data (run ops initial_state))).
Proof.
  apply (run_related keeps_known_warnings
           (fun d H => H) (fun d1 d2 d3 H12 H23 H => H23 (H12 H))
           known_insert known_erase ops initial_state init_ok).
  constructor.
Qed.

(** ** Resizing a tracked block *)

(** X15.  Resizing moves the record with the block.  With tracking active,
    when a block that has exactly one record is resized and the real
    [realloc] returns a different, nonzero address that has no record,
    afterwards the old address is no longer found (releasing it again would
    be reported as a double free) and the new address is found with the new
    size and the call site of the resize; no warning is recorded and the
    only real heap call is the [realloc]. *)
Theorem resize_moves_the_record (st : state) (p size line : Z) (file : string) (ret : Z) :
  _memd_ignore st <> 1 ->
  p <> 0 -> size <> 0 -> ret <> 0 -> ret <> p ->
  live_count p (mem (MEMD_Data st)) = 1%nat ->
  _find_by_address (mem (MEMD_Data st)) ret = None ->
  let res := _memd_realloc p size line file ret st in
  let d' := MEMD_Data (snd res) in
  fst res = ret
  /\ heap (snd res) = heap st ++ [real_realloc p size ret]
  /\ _find_by_address (mem d') p = None
  /\ (exists j, _find_by_address (mem d') ret = Some (j, mkMem ret size line file))
  /\ warnings d' = warnings (MEMD_Data st)
  /\ warning_count d' = warning_count (MEMD_Data st).
Proof.
  intros Hact Hp Hs Hret Hdiff Hone Hfresh res d'. subst d' res.
  destruct (live_count_positive p (mem (MEMD_Data st))) as (i & old & Hfind); [lia |].
  unfold _memd_realloc.
  destruct (Z.eqb_spec p 0); [contradiction |].
  destruct (Z.eqb_spec size 0); [contradiction |].
  cbn [fst snd call_heap _memd_ignore MEMD_Data heap].
  destruct (Z.eqb_spec ret 0); [contradiction |].
  destruct (Z.eqb_spec (_memd_ignore st) 1); [contradiction |].
  cbn [negb andb set_data MEMD_Data heap].
  split; [reflexivity |]. split; [reflexivity |].
  unfold _erase. destruct (Z.eqb_spec p 0); [contradiction |]. rewrite Hfind. cbn [snd].
  apply find_Some in Hfind as (Hi & Hold & Hlen).
  set (m1 := <[i := mkMem 0 (mem_size old) (mem_line old) (mem_file old)]>
               (mem (MEMD_Data st))).
  assert (Hm1 : m1 !! i = Some (mkMem 0 (mem_size old) (mem_line old) (mem_file old)))
    by (apply list_lookup_insert_eq; exact Hlen).
  destruct (find_present m1 i _ 0 Hm1 eq_refl) as (j & rj & Hj & _).
  unfold _insert. destruct (Z.eqb_spec ret 0); [contradiction |].
  unfold set_total_free_size, set_mem.
  cbn [mem total_allocated_size total_free_size warnings warning_count].
  fold m1. rewrite Hj. cbn [set_total_allocated_size set_mem mem warnings warning_count].
  apply find_Some in Hj as (Hjm & Hrj & _).
  assert (Hp1 : live_count p m1 = 0%nat).
  { unfold live_count in *. subst m1.
    pose proof (count_where_insert (fun r0 => mem_address r0 =? p) _ i old
                  (mkMem 0 (mem_size old) (mem_line old) (mem_file old)) Hi) as Hc.
    cbn [mem_address] in Hc. rewrite Hold, Z.eqb_refl in Hc.
    destruct (Z.eqb_spec 0 p) as [H0 | _]; [exfalso; apply Hp; symmetry; exact H0 |]. lia. }
  assert (Hret1 : _find_by_address m1 ret = None).
  { subst m1. rewrite (find_insert_other _ _ old); [exact Hfresh | exact Hi | |].
    - rewrite Hold. intros H0. apply Hdiff. symmetry. exact H0.
    - cbn. intros H0. apply Hret. symmetry. exact H0. }
  split; [| split; [| split; reflexivity]].
  - apply live_count_zero. unfold live_count in *.
    pose proof (count_where_insert (fun r0 => mem_address r0 =? p) _ j rj
                  (mkMem ret size line file) Hjm) as Hc.
    cbn [mem_address] in Hc. rewrite Hrj in Hc.
    destruct (Z.eqb_spec 0 p) as [H0 | _]; [exfalso; apply Hp; symmetry; exact H0 |].
    destruct (Z.eqb_spec ret p); [contradiction |]. lia.
  - exists j. exact (find_insert_fresh m1 j rj (mkMem ret size line file) Hjm Hret1).
Qed.

Lemma resize_moves_the_record_witness :
  _memd_ignore one_block <> 1
  /\ (4096 <> 0 /\ 200 <> 0 /\ 8192 <> 0 /\ 8192 <> 4096)
  /\ live_count 4096 (mem (MEMD_Data one_block)) = 1%nat
  /\ _find_by_address (mem (MEMD_Data one_block)) 8192 = None
  /\ _find_by_address
       (mem (MEMD_Data (snd (_memd_realloc 4096 200 9 "r.c" 8192 one_block)))) 4096 = None
  /\ (exists j,
        _find_by_address
          (mem (MEMD_Data (snd (_memd_realloc 4096 200 9 "r.c" 8192 one_block)))) 8192
        = Some (j, mkMem 8192 200 9 "r.c")).
Proof.
  assert (Hact : _memd_ignore one_block <> 1) by (vm_compute; discriminate).
  assert (Hp : 4096 <> 0) by discriminate.
  assert (Hs : 200 <> 0) by discriminate.
  assert (Hr : 8192 <> 0) by discriminate.
  assert (Hd : 8192 <> 4096) by discriminate.
  assert (Hone : live_count 4096 (mem (MEMD_Data one_block)) = 1%nat)
    by (vm_compute; reflexivity).
  assert (Hfresh : _find_by_address (mem (MEMD_Data one_block)) 8192 = None)
    by (vm_compute; reflexivity).
  destruct (resize_moves_the_record one_block 4096 200 9 "r.c" 8192
              Hact Hp Hs Hr Hd Hone Hfresh) as (_ & _ & Hgone & Hnew & _).
  split; [exact Hact |]. split; [repeat split; assumption |]. split; [exact Hone |].
  split; [exact Hfresh |]. split; [exact Hgone | exact Hnew].
Defined.
